(** * package-operator: bootstrap and generic package controller

    A shallow embedding of
      - cmd/package-operator-manager/bootstrap.go
        (revision repair, forced cleanup, self-install helpers),
      - cmd/package-operator-manager/bootstrap/bootstrap.go
        (needsBootstrap),
      - internal/controllers/packages/package_controller.go
        (GenericPackageController.Reconcile and its helpers).

    The Go code talks to the cluster through interfaces (client.Client,
    the sub-reconcilers, the metrics recorder).  Every call through such
    an interface is an event: it is appended to a trace and answered by
    an environment that sees the whole history of earlier calls, so that
    any client, stateful or not, is one such environment.  A Go function
    becomes a computation over that trace which either returns a value
    or panics; Go's [error] results are ordinary return values.

    Conventions:
      - an object handed to the client by pointer is a value here, and a
        function that changes it hands the new value on;
      - a read fills its target when it succeeds; a write leaves its
        argument as the Go code set it (what the API server sends back
        is not decoded into it);
      - the pointers [&list.Items[i]] are indices into the list, so that
        a map from names to such pointers sees the updates made through
        the list;
      - logging is left out. *)

From Stdlib Require Import ZArith Lia.
From stdpp Require Import base option list strings gmap.

Open Scope string_scope.
Open Scope list_scope.
Open Scope Z_scope.

(** ** Errors (k8s.io/apimachinery/pkg/api/errors, fmt.Errorf) *)

Inductive StatusReason :=
| StatusReasonNotFound
| StatusReasonAlreadyExists
| StatusReasonConflict
| StatusReasonInternalError.

(** A Go [error] value that is not nil.  [wrapError msg err] is what
    [fmt.Errorf(msg + ": %w", err)] builds; when the operand is nil the
    result is still a non-nil error, [wrapNil msg], with nothing to
    unwrap. *)
Inductive error :=
| StatusError (reason : StatusReason) (message : string)
| NoKindMatchError (message : string)
| errorString (message : string)
| wrapError (msg : string) (err : error)
| wrapNil (msg : string).

Definition Errorf (msg : string) (err : option error) : option error :=
  match err with
  | Some e => Some (wrapError msg e)
  | None => Some (wrapNil msg)
  end.

(** errors.ReasonForError: the reason of the first APIStatus found along
    the Unwrap chain. *)
Fixpoint ReasonForError (e : error) : option StatusReason :=
  match e with
  | StatusError r _ => Some r
  | wrapError _ e' => ReasonForError e'
  | _ => None
  end.

Definition reasonIs (r : StatusReason) (err : option error) : bool :=
  match err with
  | None => false
  | Some e =>
      match ReasonForError e, r with
      | Some StatusReasonNotFound, StatusReasonNotFound => true
      | Some StatusReasonAlreadyExists, StatusReasonAlreadyExists => true
      | Some StatusReasonConflict, StatusReasonConflict => true
      | Some StatusReasonInternalError, StatusReasonInternalError => true
      | _, _ => false
      end
  end.

Definition IsNotFound (err : option error) : bool :=
  reasonIs StatusReasonNotFound err.

Definition IsAlreadyExists (err : option error) : bool :=
  reasonIs StatusReasonAlreadyExists err.

(** client.IgnoreNotFound *)
Definition IgnoreNotFound (err : option error) : option error :=
  if IsNotFound err then None else err.

(** meta.IsNoMatchError, looking along the Unwrap chain as errors.Is
    and errors.As do. *)
Fixpoint isNoMatch (e : error) : bool :=
  match e with
  | NoKindMatchError _ => true
  | wrapError _ e' => isNoMatch e'
  | _ => false
  end.

Definition IsNoMatchError (err : option error) : bool :=
  match err with
  | Some e => isNoMatch e
  | None => false
  end.

(** The Error method: the text that [panic(err)] carries. *)
Fixpoint errorText (e : error) : string :=
  match e with
  | StatusError _ message => message
  | NoKindMatchError message => message
  | errorString message => message
  | wrapError msg e' => msg +:+ ": " +:+ errorText e'
  | wrapNil msg => msg +:+ ": %!w(<nil>)"
  end.

(** ** 64-bit integers *)

Definition wrap64 (z : Z) : Z := (z + 2 ^ 63) mod 2 ^ 64 - 2 ^ 63.

Definition int64_add (a b : Z) : Z := wrap64 (a + b).

Definition MaxInt64 : Z := 2 ^ 63 - 1.

(** ** Cluster objects *)

Record ObjectMeta := {
  Name : string;
  Namespace : string;
  Labels : option (gmap string string);   (* nil map or a map *)
  Finalizers : list string;
  DeletionTimestamp : option Z            (* *metav1.Time, as an offset
                                             from Go's zero time *)
}.

Definition emptyMeta : ObjectMeta :=
  {| Name := ""; Namespace := ""; Labels := None; Finalizers := [];
     DeletionTimestamp := None |}.

Definition named (n : string) : ObjectMeta :=
  {| Name := n; Namespace := ""; Labels := None; Finalizers := [];
     DeletionTimestamp := None |}.

Definition withFinalizers (fs : list string) (m : ObjectMeta) : ObjectMeta :=
  {| Name := Name m; Namespace := Namespace m; Labels := Labels m;
     Finalizers := fs; DeletionTimestamp := DeletionTimestamp m |}.

Definition withLabels (ls : gmap string string) (m : ObjectMeta) : ObjectMeta :=
  {| Name := Name m; Namespace := Namespace m; Labels := Some ls;
     Finalizers := Finalizers m; DeletionTimestamp := DeletionTimestamp m |}.

(** metav1.Time.IsZero: a nil pointer or the zero instant. *)
Definition IsZeroTime (t : option Z) : bool :=
  match t with
  | None => true
  | Some z => z =? 0
  end.

(** appsv1.Deployment, reduced to what the probes read. *)
Record DeploymentCondition := {
  condType : string;
  condStatus : string
}.

Record Deployment := {
  depMeta : ObjectMeta;
  depConditions : list DeploymentCondition    (* Status.Conditions *)
}.

Definition DeploymentAvailable : string := "Available".
Definition ConditionTrue : string := "True".
Definition ConditionFalse : string := "False".
Definition ConditionUnknown : string := "Unknown".

(** corev1alpha1.PreviousRevisionReference *)
Record PreviousRevisionReference := { prevName : string }.

(** corev1alpha1.ClusterObjectSet *)
Record ClusterObjectSet := {
  cosMeta : ObjectMeta;
  cosPrevious : list PreviousRevisionReference;  (* Spec.Previous *)
  cosRevision : Z;                               (* Status.Revision, int64 *)
  cosPhase : string                              (* Status.Phase *)
}.

Definition ObjectSetStatusPhasePending : string := "Pending".

Definition setRevision (r : Z) (cos : ClusterObjectSet) : ClusterObjectSet :=
  {| cosMeta := cosMeta cos; cosPrevious := cosPrevious cos;
     cosRevision := r; cosPhase := cosPhase cos |}.

Definition cosWithFinalizers (fs : list string) (cos : ClusterObjectSet)
  : ClusterObjectSet :=
  {| cosMeta := withFinalizers fs (cosMeta cos);
     cosPrevious := cosPrevious cos;
     cosRevision := cosRevision cos; cosPhase := cosPhase cos |}.

(** corev1alpha1.ClusterObjectDeployment *)
Record ClusterObjectDeployment := { codMeta : ObjectMeta }.

(** corev1alpha1.Package / ClusterPackage: the two scope variants are
    structurally identical; the controller sees both through
    adapters.GenericPackageAccessor. *)
Record PackageCondition := {
  pcType : string;
  pcStatus : string
}.

Record Package := {
  pkgMeta : ObjectMeta;
  pkgImage : string;                        (* Spec.Image *)
  pkgConfig : option string;                (* Spec.Config, raw bytes *)
  pkgConditions : list PackageCondition;    (* Status.Conditions *)
  pkgPhase : string                         (* Status.Phase *)
}.

Definition pkgWithFinalizers (fs : list string) (p : Package) : Package :=
  {| pkgMeta := withFinalizers fs (pkgMeta p); pkgImage := pkgImage p;
     pkgConfig := pkgConfig p; pkgConditions := pkgConditions p;
     pkgPhase := pkgPhase p |}.

(** unstructured.Unstructured, as far as ensureCRDs touches it. *)
Record Unstructured := {
  uGroup : string;
  uKind : string;
  uMeta : ObjectMeta
}.

(** corev1alpha1.ObjectSetTemplateSpec, as far as crdsFromTemplateSpec
    reads it: the phases in order, each with its objects in order. *)
Record ObjectSetObject := { osoObject : Unstructured }.

Record ObjectSetTemplatePhase := {
  phaseName : string;
  phaseObjects : list ObjectSetObject
}.

Record ObjectSetTemplateSpec := { tplPhases : list ObjectSetTemplatePhase }.

(** meta.FindStatusCondition and meta.IsStatusConditionTrue: the first
    condition of the type decides. *)
Fixpoint FindStatusCondition (conditions : list PackageCondition)
         (conditionType : string) : option PackageCondition :=
  match conditions with
  | [] => None
  | cond :: rest =>
      if (pcType cond =? conditionType)%string then Some cond
      else FindStatusCondition rest conditionType
  end.

Definition IsStatusConditionTrue (conditions : list PackageCondition)
           (conditionType : string) : bool :=
  match FindStatusCondition conditions conditionType with
  | Some cond => (pcStatus cond =? ConditionTrue)%string
  | None => false
  end.

Inductive Object :=
| OPackage (p : Package)
| ODeployment (d : Deployment)
| OClusterObjectDeployment (d : ClusterObjectDeployment)
| OClusterObjectSet (s : ClusterObjectSet)
| OUnstructured (u : Unstructured).

Record ObjectKey := { keyNamespace : string; keyName : string }.

(** ctrl.Result *)
Record Result := {
  Requeue : bool;
  RequeueAfter : Z
}.

Definition zeroResult : Result := {| Requeue := false; RequeueAfter := 0 |}.

Definition IsZero (r : Result) : bool :=
  negb (Requeue r) && (RequeueAfter r =? 0).

(** ** Events and the environment *)

Inductive Kind :=
| KPackage | KDeployment | KClusterObjectDeployment | KClusterObjectSet
| KUnstructured.

Definition MatchingLabels := list (string * string).

Inductive Call :=
| CallGet (k : Kind) (key : ObjectKey)
| CallList (k : Kind) (labels : MatchingLabels)
| CallCreate (o : Object)
| CallUpdate (o : Object)
| CallPatch (o : Object)
| CallDelete (o : Object)
| CallStatusUpdate (o : Object)
| CallStatusPatch (o : Object)
| CallRemoveFinalizer (o : Object) (finalizer : string)
| CallReconcile (r : string) (pkg : Package)
| CallRecordPackageMetrics (pkg : Package).

Definition Trace := list Call.

Inductive Reply (T : Type) :=
| Found (v : T)
| Failed (e : error).
Arguments Found {T} v.
Arguments Failed {T} e.

(** The environment answers each call from the history of the calls made
    before it.  Reads are typed by the Go type of the target object. *)
Record Env := {
  answerGetPackage : Trace → ObjectKey → Reply Package;
  answerGetDeployment : Trace → ObjectKey → Reply Deployment;
  answerGetCOD : Trace → ObjectKey → Reply ClusterObjectDeployment;
  answerGetCOS : Trace → ObjectKey → Reply ClusterObjectSet;
  answerGetUnstructured : Trace → ObjectKey → Reply Unstructured;
  answerListCOD :
    Trace → MatchingLabels → Reply (list ClusterObjectDeployment);
  answerListCOS : Trace → MatchingLabels → Reply (list ClusterObjectSet);
  (* Create, Update, Patch, Delete, Status().Update, Status().Patch and
     the finalizer helper: nil or an error *)
  answerWrite : Trace → Call → option error;
  (* reconciler.Reconcile of the named sub-reconciler: the object as the
     sub-reconciler leaves it, its result and its error *)
  answerReconcile :
    Trace → string → Package → Package * Result * option error;
  (* adapters.GenericPackageAccessor.UpdatePhase *)
  UpdatePhase : Package → Package;
  (* os.Getenv *)
  Getenv : string → string
}.

(** ** Computations *)

Inductive Outcome (A : Type) :=
| Returned (a : A)
| Panicked (msg : string).
Arguments Returned {A} a.
Arguments Panicked {A} msg.

Definition Go (A : Type) : Type := Trace → Outcome A * Trace.

#[export] Instance Go_ret : MRet Go := λ A a tr, (Returned a, tr).

#[export] Instance Go_bind : MBind Go := λ A B f m tr,
  match m tr with
  | (Returned a, tr') => f a tr'
  | (Panicked msg, tr') => (Panicked msg, tr')
  end.

Definition panic {A} (msg : string) : Go A := λ tr, (Panicked msg, tr).

Definition nilDeref : string :=
  "runtime error: invalid memory address or nil pointer dereference".

(** One call through an interface: look at the history, log the call. *)
Definition ask {A} (answer : Trace → A) (c : Call) : Go A :=
  λ tr, (Returned (answer tr), tr ++ [c]).

(** ** The client, seen from the Go code *)

Section Client.
Context (env : Env).

Definition Get_Package (key : ObjectKey) : Go (Reply Package) :=
  ask (λ tr, answerGetPackage env tr key) (CallGet KPackage key).

Definition Get_Deployment (key : ObjectKey) : Go (Reply Deployment) :=
  ask (λ tr, answerGetDeployment env tr key) (CallGet KDeployment key).

Definition List_ClusterObjectDeployment (labels : MatchingLabels)
  : Go (Reply (list ClusterObjectDeployment)) :=
  ask (λ tr, answerListCOD env tr labels)
      (CallList KClusterObjectDeployment labels).

Definition List_ClusterObjectSet (labels : MatchingLabels)
  : Go (Reply (list ClusterObjectSet)) :=
  ask (λ tr, answerListCOS env tr labels)
      (CallList KClusterObjectSet labels).

Definition Get_ClusterObjectDeployment (key : ObjectKey)
  : Go (Reply ClusterObjectDeployment) :=
  ask (λ tr, answerGetCOD env tr key) (CallGet KClusterObjectDeployment key).

Definition Get_ClusterObjectSet (key : ObjectKey)
  : Go (Reply ClusterObjectSet) :=
  ask (λ tr, answerGetCOS env tr key) (CallGet KClusterObjectSet key).

Definition Get_Unstructured (key : ObjectKey) : Go (Reply Unstructured) :=
  ask (λ tr, answerGetUnstructured env tr key) (CallGet KUnstructured key).

Definition write (c : Call) : Go (option error) :=
  ask (λ tr, answerWrite env tr c) c.

Definition Create (o : Object) := write (CallCreate o).
Definition Update (o : Object) := write (CallUpdate o).
Definition Patch (o : Object) := write (CallPatch o).
Definition Delete (o : Object) := write (CallDelete o).
Definition Status_Update (o : Object) := write (CallStatusUpdate o).
Definition Status_Patch (o : Object) := write (CallStatusPatch o).
End Client.

Definition replyError {T} (r : Reply T) : option error :=
  match r with
  | Found _ => None
  | Failed e => Some e
  end.

(** What [client.Get(ctx, key, obj)] leaves in [obj], and its error: the
    target keeps its contents when the read fails. *)
Definition decoded {T} (inj : T → Object) (obj : Object) (r : Reply T)
  : Object * option error :=
  match r with
  | Found v => (inj v, None)
  | Failed e => (obj, Some e)
  end.

(** client.Get, dispatching on the Go type of the target. *)
Definition Get (env : Env) (key : ObjectKey) (obj : Object)
  : Go (Object * option error) :=
  match obj with
  | OPackage _ => r ← Get_Package env key; mret (decoded OPackage obj r)
  | ODeployment _ =>
      r ← Get_Deployment env key; mret (decoded ODeployment obj r)
  | OClusterObjectDeployment _ =>
      r ← Get_ClusterObjectDeployment env key;
      mret (decoded OClusterObjectDeployment obj r)
  | OClusterObjectSet _ =>
      r ← Get_ClusterObjectSet env key;
      mret (decoded OClusterObjectSet obj r)
  | OUnstructured _ =>
      r ← Get_Unstructured env key; mret (decoded OUnstructured obj r)
  end.

Definition objMeta (o : Object) : ObjectMeta :=
  match o with
  | OPackage p => pkgMeta p
  | ODeployment d => depMeta d
  | OClusterObjectDeployment d => codMeta d
  | OClusterObjectSet s => cosMeta s
  | OUnstructured u => uMeta u
  end.

Definition objWithFinalizers (fs : list string) (o : Object) : Object :=
  match o with
  | OPackage p => OPackage (pkgWithFinalizers fs p)
  | ODeployment d =>
      ODeployment {| depMeta := withFinalizers fs (depMeta d);
                     depConditions := depConditions d |}
  | OClusterObjectDeployment d =>
      OClusterObjectDeployment {| codMeta := withFinalizers fs (codMeta d) |}
  | OClusterObjectSet s => OClusterObjectSet (cosWithFinalizers fs s)
  | OUnstructured u =>
      OUnstructured {| uGroup := uGroup u; uKind := uKind u;
                       uMeta := withFinalizers fs (uMeta u) |}
  end.

(** client.ObjectKeyFromObject *)
Definition ObjectKeyFromObject (o : Object) : ObjectKey :=
  {| keyNamespace := Namespace (objMeta o); keyName := Name (objMeta o) |}.

(** ** Polling (k8s.io/apimachinery/pkg/util/wait) *)

Definition ErrWaitTimeout : error :=
  errorString "timed out waiting for the condition".

(** wait.PollImmediateUntilWithContext, without the clock: the condition
    is run at once and again on every tick, until it reports done or an
    error; [ticks] is the number of ticks the context outlasts, after
    which the wait ends with ErrWaitTimeout. *)
Fixpoint PollImmediateUntilWithContext (ticks : nat)
         (condition : Go (bool * option error)) : Go (option error) :=
  '(done, err) ← condition;
  match err with
  | Some _ => mret err
  | None =>
      if (done : bool) then mret None
      else
        match ticks with
        | O => mret (Some ErrWaitTimeout)
        | S ticks => PollImmediateUntilWithContext ticks condition
        end
  end.

(** ** package main: cmd/package-operator-manager/bootstrap.go *)

Module main.

Definition pkoConfigEnvVar : string := "PKO_CONFIG".
Definition packageOperatorClusterPackageName : string := "package-operator".

Record bootstrapper := {
  selfBootstrapImage : string;
  pkoNamespace : string
}.

(** The pointer [&clusterObjectSetList.Items[i]] is the index [i] into
    the backing array; [cosByName] maps a name to such a pointer. *)
Fixpoint indexFrom (i : nat) (items : list ClusterObjectSet)
         (cosByName : gmap string nat) : gmap string nat :=
  match items with
  | [] => cosByName
  | cos :: rest => indexFrom (S i) rest (<[Name (cosMeta cos) := i]> cosByName)
  end.

(** The first loop of fixMissingRevisionNumbers. *)
Definition indexByName (items : list ClusterObjectSet) : gmap string nat :=
  indexFrom 0 items ∅.

(** [cosByName[name]] followed by the field read [.Status.Revision]:
    a lookup miss yields the nil pointer, and reading through it
    panics. *)
Definition derefRevision (cosByName : gmap string nat)
           (items : list ClusterObjectSet) (name : string) : option Z :=
  i ← cosByName !! name; cos ← items !! i; Some (cosRevision cos).

Fixpoint highestRevisionNumber_from (maxRevision : Z)
         (cosByName : gmap string nat) (items : list ClusterObjectSet)
         (prevs : list PreviousRevisionReference) : Outcome Z :=
  match prevs with
  | [] => Returned maxRevision
  | prev :: rest =>
      match derefRevision cosByName items (prevName prev) with
      | None => Panicked nilDeref
      | Some r =>
          if r >? maxRevision
          then highestRevisionNumber_from r cosByName items rest
          else highestRevisionNumber_from maxRevision cosByName items rest
      end
  end.

Definition highestRevisionNumber := highestRevisionNumber_from 0.

(** The condition of the [if] in the repair loop. *)
Definition looksStuck (cos : ClusterObjectSet) : bool :=
  (cosRevision cos =? 0)
  && (0 <? Z.of_nat (length (cosPrevious cos)))
  && (cosPhase cos =? ObjectSetStatusPhasePending)%string.

Section WithEnv.
Context (env : Env).
(** controllers.DynamicCacheLabel, declared outside the files at hand. *)
Context (DynamicCacheLabel : string).

(** The second loop of fixMissingRevisionNumbers, over the indices
    still to visit; [items] is the backing array, which the loop
    updates in place. *)
Fixpoint repairLoop (cosByName : gmap string nat) (todo : list nat)
         (items : list ClusterObjectSet)
  : Go (list ClusterObjectSet * option error) :=
  match todo with
  | [] => mret (items, None)
  | i :: rest =>
      match items !! i with
      | None => panic "index out of range"
      | Some cos =>
          if looksStuck cos then
            match highestRevisionNumber cosByName items (cosPrevious cos) with
            | Panicked msg => panic msg
            | Returned h =>
                let cos' := setRevision (int64_add h 1) cos in
                let items' := <[i := cos']> items in
                err ← Status_Patch env (OClusterObjectSet cos');
                match err with
                | Some _ =>
                    mret (items',
                          Errorf "patch for missing revision number" err)
                | None => repairLoop cosByName rest items'
                end
            end
          else repairLoop cosByName rest items
      end
  end.

(** fixMissingRevisionNumbers, together with the final contents of
    its local [clusterObjectSetList.Items]. *)
Definition fixMissingRevisionNumbers_items (b : bootstrapper)
  : Go (list ClusterObjectSet * option error) :=
  r ← List_ClusterObjectSet env
        [("package-operator.run/instance", "package-operator")];
  match r with
  | Failed e => mret ([], Errorf "list PKO ClusterObjectSet" (Some e))
  | Found items =>
      let cosByName := indexByName items in
      repairLoop cosByName (seq 0 (length items)) items
  end.

Definition fixMissingRevisionNumbers (b : bootstrapper)
  : Go (option error) :=
  '(_, err) ← fixMissingRevisionNumbers_items b;
  mret err.

Definition getPKOConfigFromEnvironment : option string :=
  let pkoConfig := Getenv env pkoConfigEnvVar in
  if (0 <? String.length pkoConfig)%nat then Some pkoConfig else None.

Definition updatePKOPackage (b : bootstrapper)
           (packageOperatorPackage : Package) : Go (option error) :=
  let pkg :=
    {| pkgMeta := pkgMeta packageOperatorPackage;
       pkgImage := selfBootstrapImage b;
       pkgConfig := getPKOConfigFromEnvironment;
       pkgConditions := pkgConditions packageOperatorPackage;
       pkgPhase := pkgPhase packageOperatorPackage |} in
  Patch env (OPackage pkg).

Definition createPKOPackage (b : bootstrapper)
  : Go (option Package * option error) :=
  let packageOperatorPackage :=
    {| pkgMeta := named packageOperatorClusterPackageName;
       pkgImage := selfBootstrapImage b;
       pkgConfig := getPKOConfigFromEnvironment;
       pkgConditions := [];
       pkgPhase := "" |} in
  err ← Create env (OPackage packageOperatorPackage);
  if bool_decide (err ≠ None) && negb (IsAlreadyExists err)
  then mret (None, Errorf "creating Package Operator ClusterPackage" err)
  else mret (Some packageOperatorPackage, None).

(** The body of the loop of ensureCRDs up to the Create call: the
    cache label is set on the CRD. *)
Definition withCacheLabel (crd : Unstructured) : Unstructured :=
  let labels := default ∅ (Labels (uMeta crd)) in
  let labels := <[DynamicCacheLabel := "True"]> labels in
  {| uGroup := uGroup crd; uKind := uKind crd;
     uMeta := withLabels labels (uMeta crd) |}.

Fixpoint ensureCRDs (crds : list Unstructured) : Go (option error) :=
  match crds with
  | [] => mret None
  | crd :: rest =>
      err ← Create env (OUnstructured (withCacheLabel crd));
      if bool_decide (err ≠ None) && negb (IsAlreadyExists err)
      then mret err
      else ensureCRDs rest
  end.

Fixpoint availableFalse (conds : list DeploymentCondition)
  : bool * option error :=
  match conds with
  | [] => (false, None)
  | cond :: rest =>
      if (condType cond =? DeploymentAvailable)%string
         && (condStatus cond =? ConditionFalse)%string
      then (true, None)
      else availableFalse rest
  end.

Definition needsForcedCleanup (b : bootstrapper)
  : Go (bool * option error) :=
  r ← Get_Deployment env
        {| keyNamespace := pkoNamespace b;
           keyName := "package-operator-manager" |};
  let err := replyError r in
  if IsNotFound err then mret (true, None) else
  match r with
  | Failed e => mret (false, Some e)
  | Found deploy => mret (availableFalse (depConditions deploy))
  end.

(** The block that forcedCleanup runs on the ClusterPackage, on each
    ClusterObjectDeployment and on each ClusterObjectSet; the three
    copies in the source differ in the Go type of the object and in
    the word [what] of the messages.  Delete, release the finalizers
    if there are any, then check that the object is gone. *)
Definition deleteStuck (what : string) (obj : Object) : Go (option error) :=
  err ← Delete env obj;
  match err with
  | Some _ => mret (Errorf ("deleting stuck PackageOperator " +:+ what) err)
  | None =>
      let releasing :=
        "releasing finalizers on stuck PackageOperator " +:+ what in
      let gone := "ensuring " +:+ what +:+ " is gone" in
      if (0 <? length (Finalizers (objMeta obj)))%nat then
        let obj := objWithFinalizers [] obj in
        err ← Update env obj;
        match err with
        | Some _ => mret (Errorf releasing err)
        | None =>
            '(_, err) ← Get env (ObjectKeyFromObject obj) obj;
            if negb (IsNotFound err) then mret (Errorf gone err)
            else mret None
        end
      else
        '(_, err) ← Get env (ObjectKeyFromObject obj) obj;
        if negb (IsNotFound err) then mret (Errorf gone err)
        else mret None
  end.

Fixpoint deleteStuckEach (what : string) (objs : list Object)
  : Go (option error) :=
  match objs with
  | [] => mret None
  | obj :: rest =>
      err ← deleteStuck what obj;
      match err with
      | Some _ => mret err
      | None => deleteStuckEach what rest
      end
  end.

Definition ownedLabels : MatchingLabels :=
  [("package-operator.run/instance", packageOperatorClusterPackageName);
   ("package-operator.run/package", packageOperatorClusterPackageName)].

(** The second and third step of forcedCleanup: the owned
    ClusterObjectDeployments, then the owned ClusterObjectSets. *)
Definition forcedCleanup_owned : Go (option error) :=
  (* Also nuke all the ClusterObjectDeployment belonging to it. *)
  r ← List_ClusterObjectDeployment env ownedLabels;
  match r with
  | Failed e =>
      mret (Errorf "listing stuck PackageOperator ClusterObjectDeployments"
                   (Some e))
  | Found cods =>
      err ← deleteStuckEach "ClusterObjectDeployment"
            (OClusterObjectDeployment <$> cods);
      match err with
      | Some _ => mret err
      | None =>
          (* Also nuke all the ClusterObjectSets belonging to it. *)
          r ← List_ClusterObjectSet env ownedLabels;
          match r with
          | Failed e =>
              mret (Errorf "listing stuck PackageOperator ClusterObjectSets"
                           (Some e))
          | Found sets =>
              deleteStuckEach "ClusterObjectSet" (OClusterObjectSet <$> sets)
          end
      end
  end.

Definition forcedCleanup (b : bootstrapper)
           (packageOperatorPackage : Package) : Go (option error) :=
  err ← deleteStuck "ClusterPackage" (OPackage packageOperatorPackage);
  match err with
  | Some _ => mret err
  | None => forcedCleanup_owned
  end.

Definition nukeIfNeeded (b : bootstrapper)
           (packageOperatorPackage : Package) : Go (option error) :=
  '(needsNuke, err) ← needsForcedCleanup b;
  match err with
  | Some _ => mret (Errorf "check for forced cleanup" err)
  | None =>
      if (needsNuke : bool) then
        err ← forcedCleanup b packageOperatorPackage;
        match err with
        | Some _ => mret (Errorf "force cleanup" err)
        | None => mret None
        end
      else mret None
  end.

(** *** The entry point and what else the file holds

    Bootstrap and selfBootstrap are embedded as the thread that runs
    them: the goroutine that selfBootstrap starts is a thread of its
    own, [cancelWhenPackageAvailable] below. *)

(** GroupKind for CRDs. *)
Definition crdGK : string * string :=
  ("apiextensions.k8s.io", "CustomResourceDefinition").

(** obj.Object.GetObjectKind().GroupVersionKind().GroupKind() *)
Definition GroupKind (u : Unstructured) : string * string :=
  (uGroup u, uKind u).

(** The inner loop of crdsFromTemplateSpec, [crds] being the slice
    appended to. *)
Fixpoint crdsFromObjects (crds : list Unstructured)
         (objs : list ObjectSetObject) : list Unstructured :=
  match objs with
  | [] => crds
  | obj :: rest =>
      let gk := GroupKind (osoObject obj) in
      if bool_decide (gk ≠ crdGK)
      then (* continue *) crdsFromObjects crds rest
      else crdsFromObjects (crds ++ [osoObject obj]) rest
  end.

Fixpoint crdsFromPhases (crds : list Unstructured)
         (phases : list ObjectSetTemplatePhase) : list Unstructured :=
  match phases with
  | [] => crds
  | phase :: rest =>
      crdsFromPhases (crdsFromObjects crds (phaseObjects phase)) rest
  end.

Definition crdsFromTemplateSpec (templateSpec : ObjectSetTemplateSpec)
  : list Unstructured :=
  crdsFromPhases [] (tplPhases templateSpec).

(** corev1alpha1.PackageAvailable, declared outside the files at hand. *)
Context (PackageAvailable : string).

Definition isPackageAvailable : Go (bool * option error) :=
  r ← Get_Package env
        {| keyNamespace := ""; keyName := packageOperatorClusterPackageName |};
  match r with
  | Failed e => mret (false, Some e)
  | Found packageOperatorPackage =>
      if IsStatusConditionTrue (pkgConditions packageOperatorPackage)
           PackageAvailable
      then mret (true, None)
      else mret (false, None)
  end.

(** The goroutine.  It returns after it has called [cancel], and
    otherwise panics with the error of the wait. *)
Definition cancelWhenPackageAvailable (ticks : nat) : Go unit :=
  err ← PollImmediateUntilWithContext ticks isPackageAvailable;
  match err with
  | Some e => panic (errorText e)
  | None => (* log.Info; cancel() *) mret ()
  end.

(** The first block of forcedCleanup once more, this time with the
    ClusterPackage as the block leaves it behind the pointer it was
    given: the caller of nukeIfNeeded goes on to use that object. *)
Definition deleteStuck_obj (what : string) (obj : Object)
  : Go (Object * option error) :=
  err ← Delete env obj;
  match err with
  | Some _ =>
      mret (obj, Errorf ("deleting stuck PackageOperator " +:+ what) err)
  | None =>
      let releasing :=
        "releasing finalizers on stuck PackageOperator " +:+ what in
      let gone := "ensuring " +:+ what +:+ " is gone" in
      if (0 <? length (Finalizers (objMeta obj)))%nat then
        let obj := objWithFinalizers [] obj in
        err ← Update env obj;
        match err with
        | Some _ => mret (obj, Errorf releasing err)
        | None =>
            '(obj, err) ← Get env (ObjectKeyFromObject obj) obj;
            if negb (IsNotFound err) then mret (obj, Errorf gone err)
            else mret (obj, None)
        end
      else
        '(obj, err) ← Get env (ObjectKeyFromObject obj) obj;
        if negb (IsNotFound err) then mret (obj, Errorf gone err)
        else mret (obj, None)
  end.

Definition packageOf (o : Object) (otherwise : Package) : Package :=
  match o with
  | OPackage p => p
  | _ => otherwise
  end.

Definition forcedCleanup_obj (b : bootstrapper)
           (packageOperatorPackage : Package)
  : Go (Package * option error) :=
  '(obj, err) ← deleteStuck_obj "ClusterPackage"
                  (OPackage packageOperatorPackage);
  let packageOperatorPackage := packageOf obj packageOperatorPackage in
  match err with
  | Some _ => mret (packageOperatorPackage, err)
  | None =>
      err ← forcedCleanup_owned;
      mret (packageOperatorPackage, err)
  end.

Definition nukeIfNeeded_obj (b : bootstrapper)
           (packageOperatorPackage : Package)
  : Go (Package * option error) :=
  '(needsNuke, err) ← needsForcedCleanup b;
  match err with
  | Some _ =>
      mret (packageOperatorPackage, Errorf "check for forced cleanup" err)
  | None =>
      if (needsNuke : bool) then
        '(packageOperatorPackage, err) ←
          forcedCleanup_obj b packageOperatorPackage;
        match err with
        | Some _ => mret (packageOperatorPackage, Errorf "force cleanup" err)
        | None => mret (packageOperatorPackage, None)
        end
      else mret (packageOperatorPackage, None)
  end.

(** The function values and interfaces selfBootstrap is handed:
    b.loadFiles, b.loader.FromFiles, packagecontent.TemplateSpecFromPackage
    (declared outside the files at hand), os.Setenv and b.runManager. *)
Context {Files PackageContent : Type}.
Context (loadFiles : string → Go (Reply Files)).
Context (loader_FromFiles : Files → Go (Reply PackageContent)).
Context (TemplateSpecFromPackage : PackageContent → ObjectSetTemplateSpec).
Context (Setenv : string → string → option error).
Context (runManager : Go (option error)).

Definition selfBootstrap (b : bootstrapper) : Go (option error) :=
  r ← loadFiles "/package";
  match r with
  | Failed e => mret (Some e)
  | Found files =>
      r ← loader_FromFiles files;
      match r with
      | Failed e => mret (Some e)
      | Found packgeContent =>
          (* Install CRDs or the manager won't start. *)
          let templateSpec := TemplateSpecFromPackage packgeContent in
          let crds := crdsFromTemplateSpec templateSpec in
          err ← ensureCRDs crds;
          match err with
          | Some _ => mret err
          | None =>
              '(_, err) ← createPKOPackage b;
              match err with
              | Some _ => mret err
              | None =>
                  (* Stop when Package Operator is installed:
                     go b.cancelWhenPackageAvailable(ctx, cancel) *)
                  match Setenv "PKO_FORCE_ADOPTION" "1" with
                  | Some e => mret (Some e)
                  | None => runManager
                  end
              end
          end
      end
  end.

Definition Bootstrap (b : bootstrapper) : Go (option error) :=
  r ← Get_Package env
        {| keyNamespace := ""; keyName := packageOperatorClusterPackageName |};
  match r with
  | Found packageOperatorPackage =>
      (* Package Operator is already installed. *)
      '(packageOperatorPackage, err) ←
        nukeIfNeeded_obj b packageOperatorPackage;
      match err with
      | Some _ => mret err
      | None =>
          err ← fixMissingRevisionNumbers b;
          match err with
          | Some _ => mret (Errorf "fix missing revision numbers" err)
          | None => updatePKOPackage b packageOperatorPackage
          end
      end
  | Failed e =>
      (* Retry error via Job. *)
      let err := Some e in
      if negb (IsNotFound err) && negb (IsNoMatchError err)
      then mret (Errorf "error looking up Package Operator ClusterPackage"
                        err)
      else selfBootstrap b
  end.
End WithEnv.
End main.

(** ** package bootstrap:
       cmd/package-operator-manager/bootstrap/bootstrap.go *)

Module bootstrap.

Definition packageOperatorDeploymentName : string :=
  "package-operator-manager".

Record Bootstrapper := { pkoNamespace : string }.

Section WithEnv.
Context (env : Env).

Fixpoint availableTrue (conds : list DeploymentCondition)
  : bool * option error :=
  match conds with
  | [] => (true, None)
  | cond :: rest =>
      if (condType cond =? DeploymentAvailable)%string
         && (condStatus cond =? ConditionTrue)%string
      then (* Deployment is available -> nothing to do. *) (false, None)
      else availableTrue rest
  end.

Definition needsBootstrap (b : Bootstrapper) : Go (bool * option error) :=
  r ← Get_Deployment env
        {| keyNamespace := pkoNamespace b;
           keyName := packageOperatorDeploymentName |};
  let err := replyError r in
  if IsNotFound err then (* Deployment does not exist. *) mret (true, None)
  else
    match r with
    | Failed e => mret (false, Some e)
    | Found deploy => mret (availableTrue (depConditions deploy))
    end.

(** The function values Bootstrap is handed: the field b.init, os.Setenv
    and the runManager argument; controllers.ForceAdoptionEnvironmentVariable
    is declared outside the files at hand. *)
Context (init : Go (Reply Package)).
Context (ForceAdoptionEnvironmentVariable : string).
Context (Setenv : string → string → option error).
Context (runManager : Go (option error)).

(** The thread that runs bootstrap; the goroutine it starts is a thread
    of its own. *)
Definition bootstrap (b : Bootstrapper) : Go (option error) :=
  (* go b.cancelWhenPackageAvailable(ctx, cancel) *)
  match Setenv ForceAdoptionEnvironmentVariable "1" with
  | Some e => mret (Some e)
  | None =>
      err ← runManager;
      match err with
      | Some _ => mret (Errorf "running manager for self-bootstrap" err)
      | None => mret None
      end
  end.

Definition Bootstrap (b : Bootstrapper) : Go (option error) :=
  r ← init;
  match r with
  | Failed e => mret (Some e)
  | Found _ =>
      '(needsBootstrap, err) ← needsBootstrap b;
      match err with
      | Some _ => mret (Errorf "checking if self-bootstrap is needed" err)
      | None =>
          if negb needsBootstrap then mret None
          else bootstrap b
      end
  end.
End WithEnv.
End bootstrap.


(** ** package packages:
       internal/controllers/packages/package_controller.go *)

Module packages.

Definition loaderJobFinalizer : string := "package-operator.run/loader-job".

(** A value of the [reconciler] interface: its Reconcile method is
    answered by the environment under this name. *)
Record reconciler := { reconcilerName : string }.

Record GenericPackageController := {
  newPackage : Package;          (* what c.newPackage(c.scheme) builds *)
  recorder : bool;               (* c.recorder != nil *)
  reconcilers : list reconciler  (* the field [reconciler] *)
}.

Section WithEnv.
Context (env : Env).

(** r.Reconcile(ctx, pkg): the sub-reconciler works on the shared object
    and hands back a result and an error. *)
Definition Reconcile_sub (r : reconciler) (pkg : Package)
  : Go (Package * Result * option error) :=
  ask (λ tr, answerReconcile env tr (reconcilerName r) pkg)
      (CallReconcile (reconcilerName r) pkg).

Definition RecordPackageMetrics (pkg : Package) : Go unit :=
  ask (λ _, ()) (CallRecordPackageMetrics pkg).

(** Modelled from the spec: controllers.RemoveFinalizer, the helper that
    handleDeletion calls, is declared in internal/controllers, which is
    not among the files at hand.  Section 4.1: the deletion path is to
    "remove a legacy finalizer token if present and persist the update".
    The helper is handed the client and returns an error, so its
    invocation is one event the environment answers; when that answer is
    nil the token is no longer in the object's finalizer list. *)
Definition RemoveFinalizer (obj : Package) (finalizer : string)
  : Go (Package * option error) :=
  err ← write env (CallRemoveFinalizer (OPackage obj) finalizer);
  match err with
  | Some _ => mret (obj, err)
  | None =>
      let kept :=
        filter (λ f, f ≠ finalizer) (Finalizers (pkgMeta obj)) in
      mret (pkgWithFinalizers kept obj, None)
  end.

Definition updateStatus (c : GenericPackageController) (pkg : Package)
  : Go (Package * option error) :=
  let pkg := UpdatePhase env pkg in
  err ← Status_Update env (OPackage pkg);
  match err with
  | Some _ => mret (pkg, Errorf "updating Package status" err)
  | None => mret (pkg, None)
  end.

Definition handleDeletion (c : GenericPackageController) (pkg : Package)
  : Go (Package * option error) :=
  (* Remove finalizer from previous versions of PKO. *)
  '(pkg, err) ← RemoveFinalizer pkg loaderJobFinalizer;
  match err with
  | Some _ => mret (pkg, err)
  | None =>
      err ← Update env (OPackage pkg);
      mret (pkg, err)
  end.

(** The [for _, r := range c.reconciler] loop; [res] and [err] are the
    named results of Reconcile, which the loop assigns. *)
Fixpoint chain (rs : list reconciler) (pkg : Package) (res : Result)
         (err : option error) : Go (Package * Result * option error) :=
  match rs with
  | [] => mret (pkg, res, err)
  | r :: rest =>
      '(pkg, res, err) ← Reconcile_sub r pkg;
      if bool_decide (err ≠ None) || negb (IsZero res)
      then mret (pkg, res, err)
      else chain rest pkg res err
  end.

(** Reconcile after the Get and up to its return statement: the object
    as it is left, and the results. *)
Definition reconcileFetched (c : GenericPackageController) (pkg : Package)
  : Go (Package * Result * option error) :=
  let res := zeroResult in
  if negb (IsZeroTime (DeletionTimestamp (pkgMeta pkg))) then
    '(pkg, err) ← handleDeletion c pkg;
    match err with
    | Some _ => mret (pkg, res, err)
    | None => mret (pkg, res, None)
    end
  else
    '(pkg, res, err) ← chain (reconcilers c) pkg res None;
    match err with
    | Some _ => mret (pkg, res, err)
    | None =>
        '(pkg, err) ← updateStatus c pkg;
        mret (pkg, res, err)
    end.

Definition Reconcile (c : GenericPackageController) (req : ObjectKey)
  : Go (Result * option error) :=
  let res := zeroResult in
  r ← Get_Package env req;
  match r with
  | Failed e => mret (res, IgnoreNotFound (Some e))
  | Found pkg =>
      '(pkg, res, err) ← reconcileFetched c pkg;
      (* the deferred closure *)
      match err with
      | Some _ => mret (res, err)
      | None =>
          if recorder c
          then _ ← RecordPackageMetrics pkg; mret (res, err)
          else mret (res, err)
      end
  end.

End WithEnv.
End packages.


(** ** Scripted environments

    In the manner of the mock client of the test-suite
    (testutil.NewClient with [On(...).Return(...)]), for the examples
    below. *)

Module mock.

Definition notFound : error := StatusError StatusReasonNotFound "not found".
Definition alreadyExists : error :=
  StatusError StatusReasonAlreadyExists "already exists".
Definition conflict : error := StatusError StatusReasonConflict "conflict".
Definition timeout : error := errorString "i/o timeout".

(** The Deployment read, the Package read, the ClusterObjectSet list, the
    writes and the sub-reconcilers are scripted; the other reads miss and
    the ClusterObjectDeployment list is empty. *)
Definition cluster
    (deployment : Reply Deployment) (package : Trace → Reply Package)
    (sets : Reply (list ClusterObjectSet))
    (writes : Trace → Call → option error)
    (subs : string → Package → Package * Result * option error) : Env :=
  {| answerGetPackage := λ tr _, package tr;
     answerGetDeployment := λ _ _, deployment;
     answerGetCOD := λ _ _, Failed notFound;
     answerGetCOS := λ _ _, Failed notFound;
     answerGetUnstructured := λ _ _, Failed notFound;
     answerListCOD := λ _ _, Found [];
     answerListCOS := λ _ _, sets;
     answerWrite := writes;
     answerReconcile := λ _, subs;
     UpdatePhase := λ pkg, pkg;
     Getenv := λ _, "" |}.

Definition allWritesSucceed : Trace → Call → option error := λ _ _, None.

Definition idle : string → Package → Package * Result * option error :=
  λ _ pkg, (pkg, zeroResult, None).

Definition gone : Trace → Reply Package := λ _, Failed notFound.

Definition condition (ty st : string) : DeploymentCondition :=
  {| condType := ty; condStatus := st |}.

Definition deployment (conds : list DeploymentCondition) : Deployment :=
  {| depMeta := named "package-operator-manager"; depConditions := conds |}.

(** The Deployment is absent. *)
Definition absent : Env :=
  cluster (Failed notFound) gone (Found []) allWritesSucceed idle.

(** The Deployment exists with the given conditions. *)
Definition running (conds : list DeploymentCondition) : Env :=
  cluster (Found (deployment conds)) gone (Found []) allWritesSucceed idle.

(** The Get of the Deployment times out. *)
Definition unreachable : Env :=
  cluster (Failed timeout) gone (Found []) allWritesSucceed idle.



(** A cluster in which everything that is created exists already, and
    one in which no Create gets through. *)
Definition preinstalled : Env :=
  cluster (Failed notFound) gone (Found [])
    (λ _ c, match c with CallCreate _ => Some alreadyExists | _ => None end)
    idle.

Definition readOnly : Env :=
  cluster (Failed notFound) gone (Found [])
    (λ _ c, match c with CallCreate _ => Some timeout | _ => None end)
    idle.

Definition crd (name : string) : Unstructured :=
  {| uGroup := "apiextensions.k8s.io"; uKind := "CustomResourceDefinition";
     uMeta := named name |}.

Definition objectSet (name : string) (previous : list string) (revision : Z)
    (phase : string) : ClusterObjectSet :=
  {| cosMeta := named name;
     cosPrevious := (λ n, {| prevName := n |}) <$> previous;
     cosRevision := revision;
     cosPhase := phase |}.

(** The ClusterObjectSet list returns [items]. *)
Definition revisions (items : list ClusterObjectSet) : Env :=
  cluster (Failed notFound) gone (Found items) allWritesSucceed idle.

(** The revision graph of section 8: A has revision 1 and no previous
    reference; B is Pending at revision 0 with A as its previous
    reference.  A third object rides along that is not stuck. *)
Definition graph : list ClusterObjectSet :=
  [ objectSet "A" [] 1 "Available";
    objectSet "B" ["A"] 0 "Pending";
    objectSet "C" ["A"] 0 "Available" ].

(** B is Pending at revision 0; its previous reference A is not in the
    list any more. *)
Definition orphaned : list ClusterObjectSet :=
  [ objectSet "B" ["A"] 0 "Pending" ].

(** The two bootstrappers, set up for the same namespace. *)
Definition pko : main.bootstrapper :=
  {| main.selfBootstrapImage := "quay.io/package-operator/package:v1";
     main.pkoNamespace := "package-operator-system" |}.

Definition pko' : bootstrap.Bootstrapper :=
  {| bootstrap.pkoNamespace := "package-operator-system" |}.

(** The self-managed ClusterPackage as a previous installation left it. *)
Definition installed (finalizers : list string) : Package :=
  {| pkgMeta := withFinalizers finalizers (named "package-operator");
     pkgImage := "quay.io/package-operator/package:v0";
     pkgConfig := None;
     pkgConditions := [];
     pkgPhase := "Progressing" |}.

(** The controller as newGenericPackageController wires it: the unpack
    reconciler, then the ObjectDeployment status reconciler. *)
Definition controller : packages.GenericPackageController :=
  {| packages.newPackage :=
       {| pkgMeta := emptyMeta; pkgImage := ""; pkgConfig := None;
          pkgConditions := []; pkgPhase := "" |};
     packages.recorder := true;
     packages.reconcilers :=
       [ {| packages.reconcilerName := "unpackReconciler" |};
         {| packages.reconcilerName := "objectDeploymentStatusReconciler" |} ]
  |}.

Definition request : ObjectKey :=
  {| keyNamespace := ""; keyName := "package-operator" |}.

(** A Package in deletion that still carries the finalizer of the loader
    job next to another one. *)
Definition inDeletion : Package :=
  {| pkgMeta :=
       {| Name := "package-operator"; Namespace := ""; Labels := None;
          Finalizers := ["package-operator.run/loader-job";
                         "package-operator.run/cached"];
          DeletionTimestamp := Some 63800000000 |};
     pkgImage := "quay.io/package-operator/package:v0";
     pkgConfig := None;
     pkgConditions := [];
     pkgPhase := "Available" |}.

(** The first sub-reconciler asks for a requeue. *)
Definition requeueing
  : string → Package → Package * Result * option error :=
  λ _ pkg, (pkg, {| Requeue := true; RequeueAfter := 0 |}, None).

(** Every sub-reconciler fails. *)
Definition failing : string → Package → Package * Result * option error :=
  λ _ pkg, (pkg, zeroResult, Some timeout).

(** The Package read finds [pkg]. *)
Definition serving (pkg : Package)
    (writes : Trace → Call → option error)
    (subs : string → Package → Package * Result * option error) : Env :=
  cluster (Failed notFound) (λ _, Found pkg) (Found []) writes subs.

(** Status updates meet a conflict. *)
Definition statusConflict : Trace → Call → option error :=
  λ _ c, match c with CallStatusUpdate _ => Some conflict | _ => None end.

End mock.

(** ** Vocabulary of the statements *)

(** A condition of type Available with the given status. *)
Definition isAvailable (status : string) (cond : DeploymentCondition) : Prop :=
  condType cond = DeploymentAvailable ∧ condStatus cond = status.

(** The key under which both probes read the backing Deployment. *)
Definition deploymentKey (ns : string) : ObjectKey :=
  {| keyNamespace := ns; keyName := "package-operator-manager" |}.

(** The Go type of an object, as the client sees it. *)
Definition kindOf (o : Object) : Kind :=
  match o with
  | OPackage _ => KPackage
  | ODeployment _ => KDeployment
  | OClusterObjectDeployment _ => KClusterObjectDeployment
  | OClusterObjectSet _ => KClusterObjectSet
  | OUnstructured _ => KUnstructured
  end.

(** The error with which the environment answers a read. *)
Definition getError (env : Env) (hist : Trace) (k : Kind) (key : ObjectKey)
  : option error :=
  match k with
  | KPackage => replyError (answerGetPackage env hist key)
  | KDeployment => replyError (answerGetDeployment env hist key)
  | KClusterObjectDeployment => replyError (answerGetCOD env hist key)
  | KClusterObjectSet => replyError (answerGetCOS env hist key)
  | KUnstructured => replyError (answerGetUnstructured env hist key)
  end.

Definition isError (err : option error) : bool :=
  match err with
  | Some _ => true
  | None => false
  end.

(** A call of the cleanup cascade is refused when a Delete, an Update or
    a List is answered with an error, or when a Get, which the cascade
    only uses to check that an object is gone, is answered with anything
    but NotFound. *)
Definition refused (env : Env) (hist : Trace) (c : Call) : bool :=
  match c with
  | CallDelete _ | CallUpdate _ => isError (answerWrite env hist c)
  | CallList KClusterObjectDeployment labels =>
      isError (replyError (answerListCOD env hist labels))
  | CallList KClusterObjectSet labels =>
      isError (replyError (answerListCOS env hist labels))
  | CallGet k key => negb (IsNotFound (getError env hist k key))
  | _ => false
  end.

(** None of the calls [evs], made one after the other from the history
    [hist], is refused. *)
Fixpoint clean (env : Env) (hist : Trace) (evs : list Call) : bool :=
  match evs with
  | [] => true
  | c :: rest => negb (refused env hist c) && clean env (hist ++ [c]) rest
  end.


(** A run from [hist] that stops at the first refused call: it returns
    nil when no call was refused, and an error when its last call, and
    only that one, was. *)
Definition StopsAtFirstRefusal (env : Env) (hist : Trace)
    (out : Outcome (option error) * Trace) : Prop :=
  ∃ evs, out.2 = hist ++ evs ∧
    match out.1 with
    | Returned None => clean env hist evs = true
    | Returned (Some _) =>
        ∃ evs' c, evs = evs' ++ [c] ∧ clean env hist evs' = true
                  ∧ refused env (hist ++ evs') c = true
    | Panicked _ => False
    end.

(** The Create calls of ensureCRDs for a list of CRDs. *)
Definition crdCreates (label : string) (crds : list Unstructured) : list Call :=
  (λ crd, CallCreate (OUnstructured (main.withCacheLabel label crd))) <$> crds.

(** A Create is absorbed when it succeeds or fails with AlreadyExists. *)
Definition absorbed (err : option error) : Prop :=
  err = None ∨ IsAlreadyExists err = true.

(** Every Create of [calls], made one after the other from [hist], is
    absorbed. *)
Fixpoint allAbsorbed (env : Env) (hist : Trace) (calls : list Call) : Prop :=
  match calls with
  | [] => True
  | c :: rest =>
      absorbed (answerWrite env hist c) ∧ allAbsorbed env (hist ++ [c]) rest
  end.

(** The ClusterPackage that createPKOPackage builds. *)
Definition selfPackage (env : Env) (b : main.bootstrapper) : Package :=
  {| pkgMeta := named main.packageOperatorClusterPackageName;
     pkgImage := main.selfBootstrapImage b;
     pkgConfig := main.getPKOConfigFromEnvironment env;
     pkgConditions := [];
     pkgPhase := "" |}.

Definition isReconcileCall (c : Call) : bool :=
  match c with
  | CallReconcile _ _ => true
  | _ => false
  end.

Definition isStatusUpdate (c : Call) : bool :=
  match c with
  | CallStatusUpdate _ => true
  | _ => false
  end.

(** The calls a run from the history [hist] has added to it. *)
Definition newCalls {A} (hist : Trace) (out : Outcome A * Trace) : list Call :=
  drop (length hist) out.2.

(** The Package without the finalizer of the loader job. *)
Definition withoutLoaderJobFinalizer (pkg : Package) : Package :=
  pkgWithFinalizers
    (filter (λ f, f ≠ packages.loaderJobFinalizer)
            (Finalizers (pkgMeta pkg)))
    pkg.

(** *** Revision repair *)

Definition instanceLabels : MatchingLabels :=
  [("package-operator.run/instance", "package-operator")].

(** The largest of the revisions, and 0 when none is positive: the loop
    of highestRevisionNumber starts from the zero value of int64. *)
Definition maxRevision (revs : list Z) : Z := foldr Z.max 0 revs.

(** The revisions that the previous references have in the array
    [items], read through the pointers of [cosByName]; undefined when a
    reference names no entry of [cosByName]. *)
Fixpoint previousRevisions (cosByName : gmap string nat)
    (items : list ClusterObjectSet) (prevs : list PreviousRevisionReference)
  : option (list Z) :=
  match prevs with
  | [] => Some []
  | prev :: rest =>
      r ← main.derefRevision cosByName items (prevName prev);
      rs ← previousRevisions cosByName items rest;
      Some (r :: rs)
  end.

(** The backing array when the repair loop reaches index [i]: the
    entries before [i] are as the loop leaves them, the others as
    listed. *)
Definition visited (i : nat) (items final : list ClusterObjectSet)
  : list ClusterObjectSet :=
  take i final ++ drop i items.

(** The status patches of a repair that turns [items] into [final]: one
    for each object that looked stuck, in the order of the list, with the
    object as repaired. *)
Fixpoint patchCalls (items final : list ClusterObjectSet) : list Call :=
  match items, final with
  | cos :: items', cos' :: final' =>
      (if main.looksStuck cos
       then [CallStatusPatch (OClusterObjectSet cos')] else [])
      ++ patchCalls items' final'
  | _, _ => []
  end.

(** Every previous reference of an object that looks stuck names an
    object of the list. *)
Definition referencesResolve (items : list ClusterObjectSet) : Prop :=
  ∀ cos prev, cos ∈ items → main.looksStuck cos = true →
              prev ∈ cosPrevious cos →
              ∃ anc, anc ∈ items ∧ Name (cosMeta anc) = prevName prev.

(** No previous reference of an object that looks stuck names an object
    that looks stuck itself. *)
Definition ancestorsAssigned (items : list ClusterObjectSet) : Prop :=
  ∀ cos prev anc, cos ∈ items → main.looksStuck cos = true →
                  prev ∈ cosPrevious cos → anc ∈ items →
                  Name (cosMeta anc) = prevName prev →
                  main.looksStuck anc = false.



(** *** Further vocabulary *)

(** Whatever the history, the computation only adds calls, and each call
    it adds satisfies [P]. *)
Definition Emits {A} (P : Call → Prop) (m : Go A) : Prop :=
  ∀ tr, ∃ evs, (m tr).2 = tr ++ evs ∧ Forall P evs.

(** An object of a template that is a CustomResourceDefinition. *)
Definition isCRD (u : Unstructured) : Prop := main.GroupKind u = main.crdGK.

#[export] Instance isCRD_dec (u : Unstructured) : Decision (isCRD u) :=
  decide (main.GroupKind u = main.crdGK).

(** The objects of a template, phase by phase. *)
Definition templateObjects (templateSpec : ObjectSetTemplateSpec)
  : list Unstructured :=
  tplPhases templateSpec ≫= (λ phase, osoObject <$> phaseObjects phase).

(** The labels of an object, the nil map read as the empty one. *)
Definition labelsOf (u : Unstructured) : gmap string string :=
  default ∅ (Labels (uMeta u)).

(** A status patch of an object of [items] that looks stuck, which
    differs from the listed object in its revision at most. *)
Definition patchOfStuck (items : list ClusterObjectSet) (c : Call) : Prop :=
  ∃ cos r, c = CallStatusPatch (OClusterObjectSet (setRevision r cos))
           ∧ cos ∈ items ∧ main.looksStuck cos = true.

(** Every write of [calls], made one after the other from [hist], is
    answered without an error. *)
Fixpoint allSucceed (env : Env) (hist : Trace) (calls : list Call) : Prop :=
  match calls with
  | [] => True
  | c :: rest =>
      answerWrite env hist c = None ∧ allSucceed env (hist ++ [c]) rest
  end.

(** What the list call of the repair answers, nothing when it fails. *)
Definition listed (env : Env) (hist : Trace) : list ClusterObjectSet :=
  match answerListCOS env hist instanceLabels with
  | Found items => items
  | Failed _ => []
  end.

(** The calls of the cleanup cascade: Delete, Get, List of the owned
    objects, and Update of an object whose finalizer list is empty. *)
Definition cleanupCall (c : Call) : Prop :=
  match c with
  | CallDelete _ | CallGet _ _ => True
  | CallList k labels =>
      labels = main.ownedLabels
      ∧ (k = KClusterObjectDeployment ∨ k = KClusterObjectSet)
  | CallUpdate o => Finalizers (objMeta o) = []
  | _ => False
  end.

(** The three steps of the cascade on one object, when none of them is
    refused: Delete, Update with the finalizers released if there were
    any, and the Get that finds the object gone. *)
Definition cleanupBlock (o : Object) : list Call :=
  CallDelete o
  :: (if (0 <? length (Finalizers (objMeta o)))%nat
      then [CallUpdate (objWithFinalizers [] o)] else [])
  ++ [CallGet (kindOf o) (ObjectKeyFromObject o)].

(** The calls of the revision repair: its list, and status patches of
    ClusterObjectSets. *)
Definition repairCall (c : Call) : Prop :=
  match c with
  | CallList KClusterObjectSet labels => labels = instanceLabels
  | CallStatusPatch (OClusterObjectSet _) => True
  | _ => False
  end.

(** The key of the self-managed ClusterPackage. *)
Definition packageKey : ObjectKey :=
  {| keyNamespace := ""; keyName := main.packageOperatorClusterPackageName |}.

(** The ClusterPackage as updatePKOPackage sends it: image and
    configuration of this bootstrapper, everything else as it was. *)
Definition upgraded (env : Env) (b : main.bootstrapper) (pkg : Package)
  : Package :=
  {| pkgMeta := pkgMeta pkg;
     pkgImage := main.selfBootstrapImage b;
     pkgConfig := main.getPKOConfigFromEnvironment env;
     pkgConditions := pkgConditions pkg;
     pkgPhase := pkgPhase pkg |}.

(** The Create calls of a self-installation: the CRDs of the package in
    order, then the ClusterPackage. *)
Definition installCalls (env : Env) (label : string) (b : main.bootstrapper)
    (crds : list Unstructured) : list Call :=
  crdCreates label crds ++ [CallCreate (OPackage (selfPackage env b))].

Module mock_package.

(** A package whose only phase holds the CRD of ClusterPackage and a
    Namespace. *)
Definition template : ObjectSetTemplateSpec :=
  {| tplPhases :=
       [ {| phaseName := "crds";
            phaseObjects :=
              [ {| osoObject :=
                     mock.crd "clusterpackages.package-operator.run" |};
                {| osoObject :=
                     {| uGroup := ""; uKind := "Namespace";
                        uMeta := named "package-operator-system" |} |} ]
         |} ] |}.

(** Loading and parsing that succeed without a call to the API server. *)
Definition loadFiles (path : string) : Go (Reply unit) := mret (Found ()).

Definition FromFiles (files : unit) : Go (Reply unit) := mret (Found ()).

End mock_package.

Definition isMetricsCall (c : Call) : bool :=
  match c with
  | CallRecordPackageMetrics _ => true
  | _ => false
  end.

(** * Properties *)

(** ** Running computations *)

Ltac go_unfold :=
  unfold Create, Update, Patch, Delete, Status_Update, Status_Patch,
    Get_Package, Get_Deployment, Get_ClusterObjectDeployment,
    Get_ClusterObjectSet, Get_Unstructured,
    List_ClusterObjectDeployment, List_ClusterObjectSet in *;
  unfold write in *;
  unfold mbind, mret, Go_bind, Go_ret, ask, panic in *;
  cbn beta iota in *.

Lemma app_assoc_cons {A} (l : list A) (x : A) (k : list A) :
  (l ++ [x]) ++ k = l ++ x :: k.
Proof. by rewrite <- app_assoc. Qed.

(** ** The two probes of the backing Deployment *)

Lemma availableTrue_spec (conds : list DeploymentCondition) :
  bootstrap.availableTrue conds
  = (negb (bool_decide (Exists (isAvailable ConditionTrue) conds)), None).
Proof.
  induction conds as [|cond rest IH]; [done|].
  cbn [bootstrap.availableTrue]. rewrite IH. clear IH.
  destruct (String.eqb_spec (condType cond) DeploymentAvailable) as [Ht|Ht];
    destruct (String.eqb_spec (condStatus cond) ConditionTrue) as [Hs|Hs];
    cbn [andb].
  { rewrite bool_decide_eq_true_2; [done | by left]. }
  all: do 2 f_equal; apply bool_decide_ext; rewrite Exists_cons;
    unfold isAvailable; intuition congruence.
Qed.

Lemma availableFalse_spec (conds : list DeploymentCondition) :
  main.availableFalse conds
  = (bool_decide (Exists (isAvailable ConditionFalse) conds), None).
Proof.
  induction conds as [|cond rest IH]; [done|].
  cbn [main.availableFalse]. rewrite IH. clear IH.
  destruct (String.eqb_spec (condType cond) DeploymentAvailable) as [Ht|Ht];
    destruct (String.eqb_spec (condStatus cond) ConditionFalse) as [Hs|Hs];
    cbn [andb].
  { rewrite bool_decide_eq_true_2; [done | by left]. }
  all: f_equal; apply bool_decide_ext; rewrite Exists_cons;
    unfold isAvailable; intuition congruence.
Qed.

(** C5. needsBootstrap answers true when the Get of the Deployment
    reports NotFound, true when the Deployment is there but none of its
    conditions is Available with status True, and false when one is.  In
    each case the only call made is that Get and no error is returned. *)
Theorem needsBootstrap_cases (env : Env) (b : bootstrap.Bootstrapper)
    (tr : Trace) :
  let key := deploymentKey (bootstrap.pkoNamespace b) in
  let probed := tr ++ [CallGet KDeployment key] in
  (IsNotFound (replyError (answerGetDeployment env tr key)) = true →
     bootstrap.needsBootstrap env b tr = (Returned (true, None), probed))
  ∧ (∀ deploy, answerGetDeployment env tr key = Found deploy →
       ¬ Exists (isAvailable ConditionTrue) (depConditions deploy) →
       bootstrap.needsBootstrap env b tr = (Returned (true, None), probed))
  ∧ (∀ deploy, answerGetDeployment env tr key = Found deploy →
       Exists (isAvailable ConditionTrue) (depConditions deploy) →
       bootstrap.needsBootstrap env b tr = (Returned (false, None), probed)).
Proof.
  intros key probed. unfold bootstrap.needsBootstrap. go_unfold.
  change {| keyNamespace := bootstrap.pkoNamespace b;
            keyName := bootstrap.packageOperatorDeploymentName |} with key.
  fold probed.
  repeat split.
  - by intros ->.
  - intros deploy -> Hnone. simpl. rewrite availableTrue_spec.
    by rewrite bool_decide_eq_false_2.
  - intros deploy -> Hsome. simpl. rewrite availableTrue_spec.
    by rewrite bool_decide_eq_true_2.
Qed.

Lemma needsBootstrap_cases_witness :
  bootstrap.needsBootstrap mock.absent {| bootstrap.pkoNamespace := "pko" |} []
  = (Returned (true, None), [CallGet KDeployment (deploymentKey "pko")])
  ∧ bootstrap.needsBootstrap
      (mock.running [mock.condition "Progressing" "True";
                     mock.condition "Available" "Unknown"])
      {| bootstrap.pkoNamespace := "pko" |} []
    = (Returned (true, None), [CallGet KDeployment (deploymentKey "pko")])
  ∧ bootstrap.needsBootstrap
      (mock.running [mock.condition "Progressing" "True";
                     mock.condition "Available" "True"])
      {| bootstrap.pkoNamespace := "pko" |} []
    = (Returned (false, None), [CallGet KDeployment (deploymentKey "pko")]).
Proof.
  split; [|split].
  - apply (needsBootstrap_cases mock.absent
             {| bootstrap.pkoNamespace := "pko" |} []).
    reflexivity.
  - eapply (needsBootstrap_cases (mock.running _)
              {| bootstrap.pkoNamespace := "pko" |} []).
    + reflexivity.
    + simpl. unfold isAvailable. rewrite !Exists_cons, Exists_nil. simpl.
      intros [[H _]|[[_ H]|[]]]; discriminate H.
  - eapply (needsBootstrap_cases (mock.running _)
              {| bootstrap.pkoNamespace := "pko" |} []).
    + reflexivity.
    + simpl. right. left. split; reflexivity.
Defined.

(** ** The forced cleanup cascade *)

Lemma clean_app (env : Env) (hist evs1 evs2 : list Call) :
  clean env hist (evs1 ++ evs2)
  = clean env hist evs1 && clean env (hist ++ evs1) evs2.
Proof.
  revert hist. induction evs1 as [|c evs1 IH]; intros hist; simpl.
  - by rewrite app_nil_r.
  - rewrite IH, app_assoc_cons. by rewrite andb_assoc.
Qed.

Lemma Get_run (env : Env) (key : ObjectKey) (obj : Object) (tr : Trace) :
  ∃ obj', Get env key obj tr
          = (Returned (obj', getError env tr (kindOf obj) key),
             tr ++ [CallGet (kindOf obj) key]).
Proof.
  destruct obj; unfold Get; go_unfold; simpl;
    match goal with |- context [decoded _ _ ?r] => destruct r end;
    simpl; eauto.
Qed.

Lemma stops_here (env : Env) (hist : Trace) (c : Call) (e : error) :
  refused env hist c = true →
  StopsAtFirstRefusal env hist (Returned (Some e), hist ++ [c]).
Proof.
  intros Hc. exists [c]. split; [done|]. simpl.
  exists [], c. by rewrite app_nil_r.
Qed.

Lemma stops_seq (env : Env) (m1 m2 : Go (option error)) (hist : Trace) :
  StopsAtFirstRefusal env hist (m1 hist) →
  (∀ tr, StopsAtFirstRefusal env tr (m2 tr)) →
  StopsAtFirstRefusal env hist
    ((err ← m1; match err with Some _ => mret err | None => m2 end) hist).
Proof.
  intros (evs1 & Htr1 & H1) H2. go_unfold.
  destruct (m1 hist) as [[[e|]|msg] tr1]; simpl in *; subst tr1.
  - exists evs1. by split.
  - destruct (H2 (hist ++ evs1)) as (evs2 & Htr2 & H2').
    exists (evs1 ++ evs2). rewrite Htr2, app_assoc. split; [done|].
    destruct (m2 (hist ++ evs1)) as [[[e|]|msg] tr2]; simpl in *.
    + destruct H2' as (evs' & c & -> & Hclean & Hc).
      exists (evs1 ++ evs'), c. rewrite !app_assoc. split; [done|].
      rewrite <- !app_assoc in *. by rewrite clean_app, H1, Hclean.
    + by rewrite clean_app, H1, H2'.
    + done.
  - done.
Qed.

Ltac flat := rewrite <- ?app_assoc; cbn [app].

Lemma deleteStuck_stops (env : Env) (what : string) (obj : Object)
    (tr : Trace) :
  StopsAtFirstRefusal env tr (main.deleteStuck env what obj tr)
  ∧ ∃ rest, (main.deleteStuck env what obj tr).2
            = tr ++ CallDelete obj :: rest.
Proof.
  unfold main.deleteStuck. go_unfold.
  assert (Hd : refused env tr (CallDelete obj)
               = isError (answerWrite env tr (CallDelete obj))) by done.
  destruct (answerWrite env tr (CallDelete obj)) as [e|];
    cbn [isError] in Hd.
  { split; [|by exists []]. by apply stops_here. }
  destruct (0 <? length (Finalizers (objMeta obj)))%nat.
  - set (obj0 := objWithFinalizers [] obj).
    assert (Hu : refused env (tr ++ [CallDelete obj]) (CallUpdate obj0)
                 = isError (answerWrite env (tr ++ [CallDelete obj])
                              (CallUpdate obj0))) by done.
    destruct (answerWrite env (tr ++ [CallDelete obj]) (CallUpdate obj0))
      as [e|]; cbn [isError] in Hu.
    { cbn [fst snd Errorf]. flat. split; [|by eexists].
      exists [CallDelete obj; CallUpdate obj0]. split; [done|].
      exists [CallDelete obj], (CallUpdate obj0).
      cbn [clean app fst]. by rewrite Hd, Hu. }
    destruct (Get_run env (ObjectKeyFromObject obj0) obj0
                ((tr ++ [CallDelete obj]) ++ [CallUpdate obj0]))
      as [obj' ->].
    set (g := CallGet (kindOf obj0) (ObjectKeyFromObject obj0)).
    set (err := getError env _ _ _).
    assert (Herr : refused env ((tr ++ [CallDelete obj]) ++ [CallUpdate obj0])
                     g = negb (IsNotFound err)) by done.
    split; [|destruct (IsNotFound err); cbn [fst snd negb]; flat;
             by eexists].
    exists [CallDelete obj; CallUpdate obj0; g].
    destruct (IsNotFound err) eqn:Hnf; cbn [fst snd negb] in *.
    + split; [by flat|]. cbn [clean]. by rewrite Hd, Hu, Herr.
    + split; [by flat|]. destruct err as [e|]; cbn [Errorf].
      * exists [CallDelete obj; CallUpdate obj0], g. cbn [clean app].
        rewrite Hd, Hu. split; [done|]. split; [done|].
        by rewrite <- Herr, <- app_assoc.
      * exists [CallDelete obj; CallUpdate obj0], g. cbn [clean app].
        rewrite Hd, Hu. split; [done|]. split; [done|].
        by rewrite <- Herr, <- app_assoc.
  - destruct (Get_run env (ObjectKeyFromObject obj) obj
                (tr ++ [CallDelete obj])) as [obj' ->].
    set (g := CallGet (kindOf obj) (ObjectKeyFromObject obj)).
    set (err := getError env _ _ _).
    assert (Herr : refused env (tr ++ [CallDelete obj]) g
                   = negb (IsNotFound err)) by done.
    split; [|destruct (IsNotFound err); cbn [fst snd negb]; flat;
             by eexists].
    exists [CallDelete obj; g].
    destruct (IsNotFound err) eqn:Hnf; cbn [fst snd negb] in *.
    + split; [by flat|]. cbn [clean]. by rewrite Hd, Herr.
    + split; [by flat|]. destruct err as [e|]; cbn [Errorf].
      * exists [CallDelete obj], g. cbn [clean app]. by rewrite Hd, Herr.
      * exists [CallDelete obj], g. cbn [clean app]. by rewrite Hd, Herr.
Qed.

Lemma stops_cons (env : Env) (hist : Trace) (c : Call)
    (out : Outcome (option error) * Trace) :
  refused env hist c = false →
  StopsAtFirstRefusal env (hist ++ [c]) out →
  StopsAtFirstRefusal env hist out.
Proof.
  intros Hc (evs & Htr & H). exists (c :: evs).
  split; [by rewrite Htr, app_assoc_cons|].
  destruct out.1 as [[e|]|msg]; [| |done].
  - destruct H as (evs' & c' & -> & Hclean & Hc').
    exists (c :: evs'), c'. cbn [clean app]. rewrite Hc, Hclean.
    by rewrite app_assoc_cons in Hc'.
  - cbn [clean]. by rewrite Hc, H.
Qed.

Lemma deleteStuckEach_stops (env : Env) (what : string) (objs : list Object)
    (tr : Trace) :
  StopsAtFirstRefusal env tr (main.deleteStuckEach env what objs tr).
Proof.
  revert tr. induction objs as [|obj rest IH]; intros tr.
  - exists []. by rewrite app_nil_r.
  - cbn [main.deleteStuckEach]. apply stops_seq; [|done].
    apply deleteStuck_stops.
Qed.

Lemma forcedCleanup_owned_stops (env : Env) (tr : Trace) :
  StopsAtFirstRefusal env tr (main.forcedCleanup_owned env tr).
Proof.
  unfold main.forcedCleanup_owned. go_unfold.
  assert (Hl : refused env tr
                 (CallList KClusterObjectDeployment main.ownedLabels)
               = isError (replyError (answerListCOD env tr main.ownedLabels)))
    by done.
  destruct (answerListCOD env tr main.ownedLabels) as [cods|e];
    cbn [isError replyError] in Hl; [|by apply stops_here].
  apply (stops_cons _ _ _ _ Hl).
  apply (stops_seq env
           (main.deleteStuckEach env "ClusterObjectDeployment"
              (OClusterObjectDeployment <$> cods)));
    [apply deleteStuckEach_stops|].
  clear tr Hl. intros tr.
  assert (Hl : refused env tr (CallList KClusterObjectSet main.ownedLabels)
               = isError (replyError (answerListCOS env tr main.ownedLabels)))
    by done.
  destruct (answerListCOS env tr main.ownedLabels) as [sets|e];
    cbn [isError replyError] in Hl; [|by apply stops_here].
  apply (stops_cons _ _ _ _ Hl). apply deleteStuckEach_stops.
Qed.

Lemma forcedCleanup_stops (env : Env) (b : main.bootstrapper) (pkg : Package)
    (tr : Trace) :
  StopsAtFirstRefusal env tr (main.forcedCleanup env b pkg tr).
Proof.
  unfold main.forcedCleanup.
  apply stops_seq; [apply deleteStuck_stops|].
  apply forcedCleanup_owned_stops.
Qed.

Lemma forcedCleanup_deletes_first (env : Env) (b : main.bootstrapper)
    (pkg : Package) (tr : Trace) :
  ∃ rest, (main.forcedCleanup env b pkg tr).2
          = tr ++ CallDelete (OPackage pkg) :: rest.
Proof.
  unfold main.forcedCleanup.
  destruct (deleteStuck_stops env "ClusterPackage" (OPackage pkg) tr)
    as [_ [rest Hfirst]].
  unfold mbind, Go_bind.
  destruct (main.deleteStuck env "ClusterPackage" (OPackage pkg) tr)
    as [[[e|]|msg] tr1]; cbn [snd] in Hfirst; subst tr1;
    [by exists rest| |by exists rest].
  destruct (forcedCleanup_owned_stops env
              (tr ++ CallDelete (OPackage pkg) :: rest)) as (evs & -> & _).
  rewrite <- app_assoc. by eexists.
Qed.

(** ** When the cascade is triggered *)

Lemma needsForcedCleanup_run (env : Env) (b : main.bootstrapper) (tr : Trace) :
  let key := deploymentKey (main.pkoNamespace b) in
  main.needsForcedCleanup env b tr
  = (Returned
       match answerGetDeployment env tr key with
       | Failed e =>
           if IsNotFound (Some e) then (true, None) else (false, Some e)
       | Found deploy =>
           (bool_decide (Exists (isAvailable ConditionFalse)
                           (depConditions deploy)), None)
       end,
     tr ++ [CallGet KDeployment key]).
Proof.
  intros key. unfold main.needsForcedCleanup. go_unfold.
  change {| keyNamespace := main.pkoNamespace b;
            keyName := "package-operator-manager" |} with key.
  destruct (answerGetDeployment env tr key) as [deploy|e]; cbn [replyError].
  - cbn. by rewrite availableFalse_spec.
  - by destruct (IsNotFound (Some e)).
Qed.

(** C3, as the code has it.  nukeIfNeeded runs the cascade, whose first
    call is the Delete of the ClusterPackage, exactly when the Get of the
    Deployment reports NotFound or finds a Deployment with a condition
    Available of status False.  In every other case needsForcedCleanup
    answers false together with the error of the Get, which is nil when
    the Deployment was found, and no call follows the Get: nukeIfNeeded
    returns nil for a Deployment that was found, and hands back any
    other error of the Get under the message "check for forced
    cleanup". *)
Theorem nukeIfNeeded_trigger (env : Env) (b : main.bootstrapper)
    (pkg : Package) (tr : Trace) :
  let key := deploymentKey (main.pkoNamespace b) in
  let probed := tr ++ [CallGet KDeployment key] in
  let r := answerGetDeployment env tr key in
  let triggered :=
    IsNotFound (replyError r) = true
    ∨ ∃ deploy, r = Found deploy
        ∧ Exists (isAvailable ConditionFalse) (depConditions deploy) in
  (triggered →
     main.needsForcedCleanup env b tr = (Returned (true, None), probed)
     ∧ ∃ rest, (main.nukeIfNeeded env b pkg tr).2
               = probed ++ CallDelete (OPackage pkg) :: rest)
  ∧ (¬ triggered →
     main.needsForcedCleanup env b tr
     = (Returned (false, replyError r), probed)
     ∧ main.nukeIfNeeded env b pkg tr
       = (Returned
            match r with
            | Failed e => Some (wrapError "check for forced cleanup" e)
            | Found _ => None
            end,
          probed)).
Proof.
  intros key probed r triggered.
  pose proof (needsForcedCleanup_run env b tr) as Hrun.
  cbn zeta in Hrun. fold key r probed in Hrun.
  unfold main.nukeIfNeeded, mbind, Go_bind. rewrite Hrun. clear Hrun.
  split.
  - intros Htrig.
    assert (match r with
            | Failed e =>
                if IsNotFound (Some e) then (true, None) else (false, Some e)
            | Found deploy =>
                (bool_decide (Exists (isAvailable ConditionFalse)
                                (depConditions deploy)), None)
            end = (true, None)) as ->.
    { destruct Htrig as [Hnf|(deploy & -> & Hex)].
      - destruct r as [deploy|e]; [done|]. cbn [replyError] in Hnf.
        by rewrite Hnf.
      - by rewrite bool_decide_eq_true_2. }
    split; [done|].
    destruct (forcedCleanup_deletes_first env b pkg probed) as [rest Hrest].
    exists rest. cbv beta iota.
    destruct (main.forcedCleanup env b pkg probed) as [[[e|]|msg] tr'];
      cbn [snd] in *; by subst.
  - intros Hno. subst triggered.
    destruct r as [deploy|e] eqn:Hr; cbn [replyError] in *.
    + rewrite bool_decide_eq_false_2; [done|].
      intros Hex. apply Hno. right. by exists deploy.
    + destruct (IsNotFound (Some e)) eqn:Hnf; [by destruct Hno; left|].
      done.
Qed.

Lemma nukeIfNeeded_trigger_witness :
  (main.needsForcedCleanup
     (mock.running [mock.condition "Available" "False"]) mock.pko []
   = (Returned (true, None),
      [CallGet KDeployment (deploymentKey "package-operator-system")])
   ∧ ∃ rest,
       (main.nukeIfNeeded (mock.running [mock.condition "Available" "False"])
          mock.pko (mock.installed []) []).2
       = [CallGet KDeployment (deploymentKey "package-operator-system")]
         ++ CallDelete (OPackage (mock.installed [])) :: rest)
  ∧ (main.needsForcedCleanup
       (mock.running [mock.condition "Available" "True"]) mock.pko []
     = (Returned (false, None),
        [CallGet KDeployment (deploymentKey "package-operator-system")])
     ∧ main.nukeIfNeeded (mock.running [mock.condition "Available" "True"])
         mock.pko (mock.installed []) []
       = (Returned None,
          [CallGet KDeployment (deploymentKey "package-operator-system")]))
  ∧ (main.needsForcedCleanup mock.unreachable mock.pko []
     = (Returned (false, Some mock.timeout),
        [CallGet KDeployment (deploymentKey "package-operator-system")])
     ∧ main.nukeIfNeeded mock.unreachable mock.pko (mock.installed []) []
       = (Returned
            (Some (wrapError "check for forced cleanup" mock.timeout)),
          [CallGet KDeployment (deploymentKey "package-operator-system")])).
Proof.
  split; [|split].
  - apply (nukeIfNeeded_trigger
             (mock.running [mock.condition "Available" "False"])
             mock.pko (mock.installed []) []).
    right. eexists. split; [reflexivity|]. left. split; reflexivity.
  - apply (nukeIfNeeded_trigger
             (mock.running [mock.condition "Available" "True"])
             mock.pko (mock.installed []) []).
    intros [Hnf|(deploy & Hd & Hex)]; [discriminate Hnf|].
    injection Hd as <-. cbn in Hex. rewrite Exists_cons, Exists_nil in Hex.
    destruct Hex as [[_ H]|[]]. discriminate H.
  - apply (nukeIfNeeded_trigger mock.unreachable mock.pko
             (mock.installed []) []).
    intros [Hnf|(deploy & Hd & Hex)]; [discriminate Hnf|discriminate Hd].
Defined.

(** C3, as the claim has it, fails: with the Deployment absent (the Get
    reports NotFound) needsForcedCleanup answers true and nukeIfNeeded
    runs the whole cascade, beginning with the Delete of the
    ClusterPackage. *)
Lemma needsForcedCleanup_absent_counterexample :
  IsNotFound
    (replyError (answerGetDeployment mock.absent []
                   (deploymentKey "package-operator-system"))) = true
  ∧ main.needsForcedCleanup mock.absent mock.pko []
    = (Returned (true, None),
       [CallGet KDeployment (deploymentKey "package-operator-system")])
  ∧ main.nukeIfNeeded mock.absent mock.pko (mock.installed []) []
    = (Returned None,
       [CallGet KDeployment (deploymentKey "package-operator-system");
        CallDelete (OPackage (mock.installed []));
        CallGet KPackage
          {| keyNamespace := ""; keyName := "package-operator" |};
        CallList KClusterObjectDeployment main.ownedLabels;
        CallList KClusterObjectSet main.ownedLabels]).
Proof. repeat split. Qed.

Lemma needsBootstrap_run (env : Env) (b : bootstrap.Bootstrapper) (tr : Trace) :
  let key := deploymentKey (bootstrap.pkoNamespace b) in
  bootstrap.needsBootstrap env b tr
  = (Returned
       match answerGetDeployment env tr key with
       | Failed e =>
           if IsNotFound (Some e) then (true, None) else (false, Some e)
       | Found deploy =>
           (negb (bool_decide (Exists (isAvailable ConditionTrue)
                                 (depConditions deploy))), None)
       end,
     tr ++ [CallGet KDeployment key]).
Proof.
  intros key. unfold bootstrap.needsBootstrap. go_unfold.
  change {| keyNamespace := bootstrap.pkoNamespace b;
            keyName := bootstrap.packageOperatorDeploymentName |} with key.
  destruct (answerGetDeployment env tr key) as [deploy|e]; cbn [replyError].
  - cbn. by rewrite availableTrue_spec.
  - by destruct (IsNotFound (Some e)).
Qed.

(** C10. A Deployment that is there but has no condition of type
    Available at all: needsForcedCleanup answers false and needsBootstrap
    answers true, each after the one Get and without an error. *)
Theorem probes_disagree_without_available_condition (env : Env)
    (b : main.bootstrapper) (b' : bootstrap.Bootstrapper) (tr : Trace)
    (deploy : Deployment) :
  bootstrap.pkoNamespace b' = main.pkoNamespace b →
  answerGetDeployment env tr (deploymentKey (main.pkoNamespace b))
  = Found deploy →
  (∀ cond, cond ∈ depConditions deploy →
           condType cond ≠ DeploymentAvailable) →
  main.needsForcedCleanup env b tr
  = (Returned (false, None),
     tr ++ [CallGet KDeployment (deploymentKey (main.pkoNamespace b))])
  ∧ bootstrap.needsBootstrap env b' tr
    = (Returned (true, None),
       tr ++ [CallGet KDeployment (deploymentKey (main.pkoNamespace b))]).
Proof.
  intros Hns Hget Hnone.
  assert (Hno : ∀ st, ¬ Exists (isAvailable st) (depConditions deploy)).
  { intros st [cond [Hin [Hty _]]]%Exists_exists. by apply (Hnone cond). }
  split.
  - rewrite needsForcedCleanup_run. cbn zeta. rewrite Hget.
    by rewrite bool_decide_eq_false_2.
  - rewrite needsBootstrap_run. cbn zeta. rewrite Hns, Hget.
    by rewrite bool_decide_eq_false_2.
Qed.

Lemma probes_disagree_without_available_condition_witness :
  main.needsForcedCleanup (mock.running []) mock.pko []
  = (Returned (false, None),
     [CallGet KDeployment (deploymentKey "package-operator-system")])
  ∧ bootstrap.needsBootstrap (mock.running []) mock.pko' []
    = (Returned (true, None),
       [CallGet KDeployment (deploymentKey "package-operator-system")]).
Proof.
  apply (probes_disagree_without_available_condition
           (mock.running []) mock.pko mock.pko' [] (mock.deployment [])).
  - reflexivity.
  - reflexivity.
  - intros cond Hin. cbn in Hin. by apply elem_of_nil in Hin.
Defined.




(** ** Self-install: create or leave alone *)

Lemma absorbed_test (err : option error) :
  absorbed err →
  bool_decide (err ≠ None) && negb (IsAlreadyExists err) = false.
Proof.
  intros [->|H]; [done|]. rewrite H. by rewrite andb_false_r.
Qed.

Lemma not_absorbed_test (e : error) :
  IsAlreadyExists (Some e) = false →
  bool_decide (Some e ≠ None) && negb (IsAlreadyExists (Some e)) = true.
Proof. intros ->. by rewrite bool_decide_eq_true_2. Qed.

Lemma ensureCRDs_run (env : Env) (label : string) (crds : list Unstructured) :
  ∀ tr, allAbsorbed env tr (crdCreates label crds) →
        main.ensureCRDs env label crds tr
        = (Returned None, tr ++ crdCreates label crds).
Proof.
  induction crds as [|crd rest IH]; intros tr Hall.
  - cbn. by rewrite app_nil_r.
  - destruct Hall as [Hhead Hrest]. cbn [main.ensureCRDs]. go_unfold.
    fold (crdCreates label rest).
    rewrite (absorbed_test _ Hhead). rewrite (IH _ Hrest).
    by rewrite app_assoc_cons.
Qed.

(** C8. createPKOPackage returns the ClusterPackage and no error when its
    Create succeeds or fails with AlreadyExists, and hands any other
    error of the Create to the caller, under the message "creating
    Package Operator ClusterPackage".  ensureCRDs creates the CRDs in
    order, each with the cache label set; as long as every Create
    succeeds or fails with AlreadyExists it goes on, and returns nil
    after the last; the first other error is returned as it is and no
    further CRD is created. *)
Theorem create_absorbs_AlreadyExists (env : Env) (label : string)
    (b : main.bootstrapper) (tr : Trace) :
  let create := CallCreate (OPackage (selfPackage env b)) in
  (absorbed (answerWrite env tr create) →
     main.createPKOPackage env b tr
     = (Returned (Some (selfPackage env b), None), tr ++ [create]))
  ∧ (∀ e, answerWrite env tr create = Some e →
       IsAlreadyExists (Some e) = false →
       main.createPKOPackage env b tr
       = (Returned
            (None,
             Some (wrapError "creating Package Operator ClusterPackage" e)),
          tr ++ [create]))
  ∧ (∀ crds, allAbsorbed env tr (crdCreates label crds) →
       main.ensureCRDs env label crds tr
       = (Returned None, tr ++ crdCreates label crds))
  ∧ (∀ done crd rest e,
       let before := tr ++ crdCreates label done in
       let failing :=
         CallCreate (OUnstructured (main.withCacheLabel label crd)) in
       allAbsorbed env tr (crdCreates label done) →
       answerWrite env before failing = Some e →
       IsAlreadyExists (Some e) = false →
       main.ensureCRDs env label (done ++ crd :: rest) tr
       = (Returned (Some e), before ++ [failing])).
Proof.
  intros create. repeat split.
  - intros Habs. unfold main.createPKOPackage. go_unfold.
    fold (selfPackage env b). fold create. by rewrite (absorbed_test _ Habs).
  - intros e He Hother. unfold main.createPKOPackage. go_unfold.
    fold (selfPackage env b). fold create.
    by rewrite He, (not_absorbed_test _ Hother).
  - intros crds. apply ensureCRDs_run.
  - intros done. revert tr. induction done as [|crd0 done IH];
      intros tr crd rest e before failing Hall He Hother.
    + subst before. cbn in He |- *. rewrite app_nil_r in *. go_unfold.
      fold failing. by rewrite He, (not_absorbed_test _ Hother).
    + destruct Hall as [Hhead Hrest]. cbn [app main.ensureCRDs]. go_unfold.
      rewrite (absorbed_test _ Hhead).
      subst before. cbn [crdCreates fmap list_fmap] in *.
      fold (crdCreates label done) in *.
      rewrite <- (app_assoc_cons tr _ (crdCreates label done)) in *.
      by apply IH.
Qed.

Lemma create_absorbs_AlreadyExists_witness :
  main.createPKOPackage mock.preinstalled mock.pko []
  = (Returned (Some (selfPackage mock.preinstalled mock.pko), None),
     [CallCreate (OPackage (selfPackage mock.preinstalled mock.pko))])
  ∧ main.createPKOPackage mock.readOnly mock.pko []
    = (Returned
         (None,
          Some (wrapError "creating Package Operator ClusterPackage"
                  mock.timeout)),
       [CallCreate (OPackage (selfPackage mock.readOnly mock.pko))])
  ∧ main.ensureCRDs mock.preinstalled "package-operator.run/cache"
      [mock.crd "packages.package-operator.run";
       mock.crd "objectsets.package-operator.run"] []
    = (Returned None,
       crdCreates "package-operator.run/cache"
         [mock.crd "packages.package-operator.run";
          mock.crd "objectsets.package-operator.run"])
  ∧ main.ensureCRDs mock.readOnly "package-operator.run/cache"
      ([] ++ mock.crd "packages.package-operator.run"
          :: [mock.crd "objectsets.package-operator.run"]) []
    = (Returned (Some mock.timeout),
       [CallCreate
          (OUnstructured
             (main.withCacheLabel "package-operator.run/cache"
                (mock.crd "packages.package-operator.run")))]).
Proof.
  split; [|split; [|split]].
  - apply (create_absorbs_AlreadyExists mock.preinstalled "" mock.pko []).
    by right.
  - apply (create_absorbs_AlreadyExists mock.readOnly "" mock.pko []
             : _ ∧ (∀ e, _) ∧ _); reflexivity.
  - apply (create_absorbs_AlreadyExists mock.preinstalled
             "package-operator.run/cache" mock.pko []).
    cbn. repeat split; by right.
  - apply (create_absorbs_AlreadyExists mock.readOnly
             "package-operator.run/cache" mock.pko []
             : _ ∧ _ ∧ _ ∧ (∀ done crd rest e, _)); reflexivity.
Defined.

(** ** The generic package controller *)

Lemma newCalls_app {A} (hist evs : list Call) (o : Outcome A) :
  newCalls hist (o, hist ++ evs) = evs.
Proof. unfold newCalls. cbn [snd]. by rewrite drop_app_length. Qed.

(** The chain always returns; it only calls sub-reconcilers; every
    sub-reconciler it called but the last returned a zero result and no
    error, and what the last one returned is what the chain returns. *)
Lemma chain_run (env : Env) (rs : list packages.reconciler) :
  ∀ pkg res err tr,
  ∃ pkg' res' err' evs,
    packages.chain env rs pkg res err tr
    = (Returned (pkg', res', err'), tr ++ evs)
    ∧ forallb isReconcileCall evs = true
    ∧ (evs = [] → (pkg', res', err') = (pkg, res, err))
    ∧ ∀ i r p, evs !! i = Some (CallReconcile r p) →
        let a := answerReconcile env (tr ++ take i evs) r p in
        if decide (S i = length evs) then a = (pkg', res', err')
        else a.2 = None.
Proof.
  induction rs as [|r rest IH]; intros pkg res err tr.
  - exists pkg, res, err, []. cbn. rewrite app_nil_r. by repeat split.
  - cbn [packages.chain]. unfold packages.Reconcile_sub. go_unfold.
    set (c := CallReconcile (packages.reconcilerName r) pkg).
    destruct (answerReconcile env tr (packages.reconcilerName r) pkg)
      as [[pkg1 res1] err1] eqn:Hans.
    destruct (bool_decide (err1 ≠ None) || negb (IsZero res1)) eqn:Hstop.
    + exists pkg1, res1, err1, [c]. repeat split; [done|].
      intros [|i] r' p Hi; [|done]. cbn in Hi. injection Hi as <- <-.
      cbn. by rewrite app_nil_r.
    + apply orb_false_elim in Hstop as [Herr _].
      apply bool_decide_eq_false in Herr.
      assert (err1 = None) as -> by (by destruct err1; [destruct Herr|]).
      destruct (IH pkg1 res1 None (tr ++ [c]))
        as (pkg' & res' & err' & evs & Hrun & Hall & Hnil & Hans').
      exists pkg', res', err', (c :: evs). rewrite Hrun, app_assoc_cons.
      repeat split; [done|done|].
      intros [|i] r' p Hi.
      * cbn in Hi. injection Hi as <- <-. cbn [take length].
        rewrite app_nil_r, Hans. destruct evs as [|c' evs'].
        -- rewrite decide_True by done. by rewrite Hnil.
        -- by rewrite decide_False by done.
      * cbn [lookup list_lookup] in Hi. specialize (Hans' i r' p Hi).
        cbn [take length]. rewrite <- app_assoc_cons.
        cbn zeta in *. destruct (decide (S i = length evs)).
        -- by rewrite decide_True by lia.
        -- by rewrite decide_False by lia.
Qed.

Lemma Reconcile_forward_run (env : Env) (c : packages.GenericPackageController)
    (req : ObjectKey) (tr : Trace) (pkg pkg' : Package) (res : Result)
    (err : option error) (evs : list Call) :
  answerGetPackage env tr req = Found pkg →
  IsZeroTime (DeletionTimestamp (pkgMeta pkg)) = true →
  packages.chain env (packages.reconcilers c) pkg zeroResult None
    (tr ++ [CallGet KPackage req])
  = (Returned (pkg', res, err), (tr ++ [CallGet KPackage req]) ++ evs) →
  let fetched := tr ++ CallGet KPackage req :: evs in
  let upd := UpdatePhase env pkg' in
  packages.Reconcile env c req tr
  = match err with
    | Some e => (Returned (res, Some e), fetched)
    | None =>
        match answerWrite env fetched (CallStatusUpdate (OPackage upd)) with
        | Some e =>
            (Returned (res, Some (wrapError "updating Package status" e)),
             fetched ++ [CallStatusUpdate (OPackage upd)])
        | None =>
            (Returned (res, None),
             fetched ++ CallStatusUpdate (OPackage upd)
               :: (if packages.recorder c
                   then [CallRecordPackageMetrics upd] else []))
        end
    end.
Proof.
  intros Hget Hlive Hchain fetched upd.
  unfold packages.Reconcile, packages.reconcileFetched. go_unfold.
  rewrite Hget, Hlive. cbn [negb]. rewrite Hchain.
  rewrite app_assoc_cons. fold fetched.
  destruct err as [e|]; [done|].
  unfold packages.updateStatus. go_unfold. fold upd.
  destruct (answerWrite env fetched (CallStatusUpdate (OPackage upd)))
    as [e|]; [done|].
  unfold packages.RecordPackageMetrics. go_unfold.
  destruct (packages.recorder c); [by rewrite app_assoc_cons|done].
Qed.

Lemma Reconcile_deletion_run (env : Env) (c : packages.GenericPackageController)
    (req : ObjectKey) (tr : Trace) (pkg : Package) :
  answerGetPackage env tr req = Found pkg →
  IsZeroTime (DeletionTimestamp (pkgMeta pkg)) = false →
  let helper :=
    CallRemoveFinalizer (OPackage pkg) packages.loaderJobFinalizer in
  let pkg' := withoutLoaderJobFinalizer pkg in
  let tr1 := tr ++ [CallGet KPackage req; helper] in
  packages.Reconcile env c req tr
  = match answerWrite env (tr ++ [CallGet KPackage req]) helper with
    | Some e => (Returned (zeroResult, Some e), tr1)
    | None =>
        match answerWrite env tr1 (CallUpdate (OPackage pkg')) with
        | Some e =>
            (Returned (zeroResult, Some e),
             tr1 ++ [CallUpdate (OPackage pkg')])
        | None =>
            (Returned (zeroResult, None),
             tr1 ++ CallUpdate (OPackage pkg')
               :: (if packages.recorder c
                   then [CallRecordPackageMetrics pkg'] else []))
        end
    end.
Proof.
  intros Hget Hdel helper pkg' tr1.
  unfold packages.Reconcile, packages.reconcileFetched,
    packages.handleDeletion, packages.RemoveFinalizer. go_unfold.
  rewrite Hget, Hdel. cbn [negb]. fold helper.
  destruct (answerWrite env (tr ++ [CallGet KPackage req]) helper) as [e|].
  { subst tr1. by flat. }
  fold (withoutLoaderJobFinalizer pkg). fold pkg'.
  rewrite app_assoc_cons. fold tr1.
  destruct (answerWrite env tr1 (CallUpdate (OPackage pkg'))) as [e|];
    [done|].
  unfold packages.RecordPackageMetrics. go_unfold.
  destruct (packages.recorder c); [by rewrite app_assoc_cons|done].
Qed.

Lemma chain_error_source (env : Env) (tr : Trace) (evs : list Call)
    (pkg' : Package) (res : Result) (e : error) :
  forallb isReconcileCall evs = true →
  (evs = [] → (pkg', res, Some e) = (pkg', res, None)) →
  (∀ i r p, evs !! i = Some (CallReconcile r p) →
     let a := answerReconcile env (tr ++ take i evs) r p in
     if decide (S i = length evs) then a = (pkg', res, Some e)
     else a.2 = None) →
  ∃ i r p, evs !! i = Some (CallReconcile r p) ∧ S i = length evs
           ∧ answerReconcile env (tr ++ take i evs) r p = (pkg', res, Some e).
Proof.
  intros Hall Hnil Hans.
  destruct (decide (evs = [])) as [->|Hne]; [by specialize (Hnil eq_refl)|].
  assert (∃ i, S i = length evs) as [i Hi].
  { destruct evs; [done|]. by eexists. }
  destruct (lookup_lt_is_Some_2 evs i) as [c Hc]; [lia|].
  assert (isReconcileCall c = true) as Hrc.
  { rewrite forallb_forall in Hall. apply Hall.
    apply list_elem_of_In, list_elem_of_lookup. by exists i. }
  destruct c as [| | | | | | | | |r p|]; try discriminate Hrc.
  exists i, r, p. split; [done|]. split; [done|].
  specialize (Hans i r p Hc). cbn zeta in Hans.
  by rewrite decide_True in Hans.
Qed.

(** C4, as the code has it.  On a Package that is not in deletion the
    chain calls sub-reconcilers only and always returns.  Status
    projection (UpdatePhase followed by Status().Update) runs exactly
    when the chain returned no error, that is, when none of the
    sub-reconcilers it called returned one; whether one of them stopped
    the chain with a non-empty result does not matter.  When it runs it
    is the first call after the chain, on the object as the chain
    left it. *)
Theorem status_projection_iff_no_error (env : Env)
    (c : packages.GenericPackageController) (req : ObjectKey) (tr : Trace)
    (pkg : Package) :
  answerGetPackage env tr req = Found pkg →
  IsZeroTime (DeletionTimestamp (pkgMeta pkg)) = true →
  let fetched := tr ++ [CallGet KPackage req] in
  let out := packages.Reconcile env c req tr in
  ∃ pkg' res err evs,
    packages.chain env (packages.reconcilers c) pkg zeroResult None fetched
    = (Returned (pkg', res, err), fetched ++ evs)
    ∧ forallb isReconcileCall evs = true
    ∧ (err = None ↔
       ∀ i r p, evs !! i = Some (CallReconcile r p) →
                (answerReconcile env (fetched ++ take i evs) r p).2 = None)
    ∧ (existsb isStatusUpdate (newCalls tr out) = true ↔ err = None)
    ∧ (err = None →
       ∃ rest, newCalls tr out
               = CallGet KPackage req :: evs
                 ++ CallStatusUpdate (OPackage (UpdatePhase env pkg')) :: rest).
Proof.
  intros Hget Hlive fetched out.
  destruct (chain_run env (packages.reconcilers c) pkg zeroResult None fetched)
    as (pkg' & res & err & evs & Hrun & Hall & Hnil & Hans).
  exists pkg', res, err, evs. split; [done|]. split; [done|].
  pose proof (Reconcile_forward_run env c req tr pkg pkg' res err evs
                Hget Hlive Hrun) as Hout.
  cbn zeta in Hout. fold out in Hout.
  assert (Hnone : ∀ l, forallb isReconcileCall l = true →
                       existsb isStatusUpdate l = false).
  { induction l as [|x l IHl]; [done|]. cbn. intros [Hx Hl]%andb_prop.
    rewrite (IHl Hl). by destruct x. }
  split; [|split].
  - split.
    + intros -> i r p Hi. specialize (Hans i r p Hi). cbn zeta in Hans.
      destruct (decide (S i = length evs)); [by rewrite Hans|done].
    + intros Hok. destruct err as [e|]; [|done].
      destruct (chain_error_source env fetched evs pkg' res e Hall)
        as (i & r & p & Hi & _ & Ha);
        [intros Hev; specialize (Hnil Hev); discriminate Hnil|done|].
      specialize (Hok i r p Hi). by rewrite Ha in Hok.
  - destruct err as [e|].
    + rewrite Hout, newCalls_app. cbn [existsb isStatusUpdate orb].
      by rewrite (Hnone _ Hall).
    + split; [done|]. intros _.
      destruct (answerWrite env _ _) in Hout; rewrite Hout;
        rewrite <- app_assoc, newCalls_app; cbn [app existsb];
        rewrite existsb_app; cbn; by rewrite orb_true_r.
  - intros ->.
    destruct (answerWrite env _ _) in Hout; rewrite Hout;
      rewrite <- app_assoc, newCalls_app; cbn [app]; by eexists.
Qed.

Lemma status_projection_iff_no_error_witness :
  ∃ pkg' res err evs,
    packages.chain (mock.serving (mock.installed []) mock.allWritesSucceed
                      mock.failing)
      (packages.reconcilers mock.controller) (mock.installed [])
      zeroResult None [CallGet KPackage mock.request]
    = (Returned (pkg', res, err), [CallGet KPackage mock.request] ++ evs)
    ∧ err = Some mock.timeout
    ∧ existsb isStatusUpdate
        (newCalls []
           (packages.Reconcile
              (mock.serving (mock.installed []) mock.allWritesSucceed
                 mock.failing) mock.controller mock.request []))
      = false.
Proof.
  destruct (status_projection_iff_no_error
              (mock.serving (mock.installed []) mock.allWritesSucceed
                 mock.failing)
              mock.controller mock.request [] (mock.installed [])
              eq_refl eq_refl)
    as (pkg' & res & err & evs & Hrun & _ & _ & Hiff & _).
  exists pkg', res, err, evs. split; [exact Hrun|].
  cbn in Hrun. injection Hrun as _ _ <- _. split; reflexivity.
Defined.

(** C4, as the claim has it, fails: the first sub-reconciler stops the
    chain with a non-empty result (the second one is not called), and the
    status is projected and persisted all the same. *)
Lemma status_projection_after_stop_counterexample :
  packages.Reconcile
    (mock.serving (mock.installed []) mock.allWritesSucceed mock.requeueing)
    mock.controller mock.request []
  = (Returned ({| Requeue := true; RequeueAfter := 0 |}, None),
     [CallGet KPackage mock.request;
      CallReconcile "unpackReconciler" (mock.installed []);
      CallStatusUpdate (OPackage (mock.installed []));
      CallRecordPackageMetrics (mock.installed [])]).
Proof. reflexivity. Qed.

(** C6.  For a Package whose deletion timestamp is not zero, Reconcile
    calls no sub-reconciler and does not project status, whatever the
    chain holds.  After the Get it calls the finalizer helper for the
    finalizer of the loader job and, when the helper succeeds, persists
    with Update the object without that finalizer; an error of either
    call is returned, and each call is made once.  (A run without error
    ends, as every such run of Reconcile, with the metrics hook when a
    recorder is set.) *)
Theorem Reconcile_in_deletion (env : Env)
    (c : packages.GenericPackageController) (req : ObjectKey) (tr : Trace)
    (pkg : Package) :
  answerGetPackage env tr req = Found pkg →
  IsZeroTime (DeletionTimestamp (pkgMeta pkg)) = false →
  let helper :=
    CallRemoveFinalizer (OPackage pkg) packages.loaderJobFinalizer in
  let pkg' := withoutLoaderJobFinalizer pkg in
  let tr1 := tr ++ [CallGet KPackage req; helper] in
  let out := packages.Reconcile env c req tr in
  forallb (λ call, negb (isReconcileCall call) && negb (isStatusUpdate call))
    (newCalls tr out) = true
  ∧ (packages.loaderJobFinalizer ∉ Finalizers (pkgMeta pkg'))
  ∧ (∀ f, f ≠ packages.loaderJobFinalizer →
          (f ∈ Finalizers (pkgMeta pkg') ↔ f ∈ Finalizers (pkgMeta pkg)))
  ∧ out
    = match answerWrite env (tr ++ [CallGet KPackage req]) helper with
      | Some e => (Returned (zeroResult, Some e), tr1)
      | None =>
          match answerWrite env tr1 (CallUpdate (OPackage pkg')) with
          | Some e =>
              (Returned (zeroResult, Some e),
               tr1 ++ [CallUpdate (OPackage pkg')])
          | None =>
              (Returned (zeroResult, None),
               tr1 ++ CallUpdate (OPackage pkg')
                 :: (if packages.recorder c
                     then [CallRecordPackageMetrics pkg'] else []))
          end
      end.
Proof.
  intros Hget Hdel helper pkg' tr1 out.
  pose proof (Reconcile_deletion_run env c req tr pkg Hget Hdel) as Hout.
  cbn zeta in Hout. fold helper pkg' tr1 out in Hout.
  split; [|split; [|split]]; [| | |exact Hout].
  - rewrite Hout. subst tr1.
    destruct (answerWrite env _ helper);
      [by rewrite newCalls_app|].
    destruct (answerWrite env _ (CallUpdate _));
      [by rewrite <- app_assoc, newCalls_app|].
    rewrite <- app_assoc, newCalls_app.
    by destruct (packages.recorder c).
  - subst pkg'. unfold withoutLoaderJobFinalizer. cbn.
    rewrite list_elem_of_filter. by intros [? _].
  - intros f Hf. subst pkg'. unfold withoutLoaderJobFinalizer. cbn.
    rewrite list_elem_of_filter. by intuition.
Qed.

Lemma Reconcile_in_deletion_witness :
  packages.Reconcile
    (mock.serving mock.inDeletion mock.allWritesSucceed mock.failing)
    mock.controller mock.request []
  = (Returned (zeroResult, None),
     [CallGet KPackage mock.request;
      CallRemoveFinalizer (OPackage mock.inDeletion)
        "package-operator.run/loader-job";
      CallUpdate (OPackage (withoutLoaderJobFinalizer mock.inDeletion));
      CallRecordPackageMetrics (withoutLoaderJobFinalizer mock.inDeletion)])
  ∧ Finalizers (pkgMeta (withoutLoaderJobFinalizer mock.inDeletion))
    = ["package-operator.run/cached"].
Proof.
  split; [|reflexivity].
  apply (Reconcile_in_deletion
           (mock.serving mock.inDeletion mock.allWritesSucceed mock.failing)
           mock.controller mock.request [] mock.inDeletion);
    reflexivity.
Defined.

(** C9, as the code has it.  A Get that fails with NotFound ends
    Reconcile with a zero result and no error, and nothing else is
    called; any other error of the Get is returned as it is.  In the
    deletion path the error of the finalizer helper or of the Update is
    returned as it is.  In the forward path the error of a sub-reconciler
    (the last one called) is returned as it is, while an error of the
    final Status().Update is returned wrapped under the message
    "updating Package status". *)
Theorem Reconcile_error_policy (env : Env)
    (c : packages.GenericPackageController) (req : ObjectKey) (tr : Trace) :
  let fetched := tr ++ [CallGet KPackage req] in
  let out := packages.Reconcile env c req tr in
  (∀ e, answerGetPackage env tr req = Failed e →
        out = (Returned (zeroResult, IgnoreNotFound (Some e)), fetched)
        ∧ (IsNotFound (Some e) = true → IgnoreNotFound (Some e) = None)
        ∧ (IsNotFound (Some e) = false → IgnoreNotFound (Some e) = Some e))
  ∧ (∀ pkg, answerGetPackage env tr req = Found pkg →
       IsZeroTime (DeletionTimestamp (pkgMeta pkg)) = false →
       let helper :=
         CallRemoveFinalizer (OPackage pkg) packages.loaderJobFinalizer in
       let update := CallUpdate (OPackage (withoutLoaderJobFinalizer pkg)) in
       (∀ e, answerWrite env fetched helper = Some e →
             out.1 = Returned (zeroResult, Some e))
       ∧ (∀ e, answerWrite env fetched helper = None →
               answerWrite env (fetched ++ [helper]) update = Some e →
               out.1 = Returned (zeroResult, Some e)))
  ∧ (∀ pkg, answerGetPackage env tr req = Found pkg →
       IsZeroTime (DeletionTimestamp (pkgMeta pkg)) = true →
       ∃ pkg' res err evs,
         packages.chain env (packages.reconcilers c) pkg zeroResult None
           fetched
         = (Returned (pkg', res, err), fetched ++ evs)
         ∧ (∀ e, err = Some e →
              out.1 = Returned (res, Some e)
              ∧ ∃ i r p, evs !! i = Some (CallReconcile r p)
                  ∧ S i = length evs
                  ∧ (answerReconcile env (fetched ++ take i evs) r p).2
                    = Some e)
         ∧ (err = None →
            let update :=
              CallStatusUpdate (OPackage (UpdatePhase env pkg')) in
            (∀ e, answerWrite env (fetched ++ evs) update = Some e →
                  out.1 = Returned
                            (res,
                             Some (wrapError "updating Package status" e)))
            ∧ (answerWrite env (fetched ++ evs) update = None →
               out.1 = Returned (res, None)))).
Proof.
  intros fetched out. split; [|split].
  - intros e He. split.
    + subst out. unfold packages.Reconcile. go_unfold. by rewrite He.
    + unfold IgnoreNotFound. split; by intros ->.
  - intros pkg Hget Hdel helper update.
    pose proof (Reconcile_deletion_run env c req tr pkg Hget Hdel) as Hout.
    cbn zeta in Hout. fold helper out fetched in Hout.
    split.
    + intros e He. by rewrite Hout, He.
    + intros e Hh He. rewrite Hout, Hh.
      subst update fetched. revert He. flat. by intros ->.
  - intros pkg Hget Hlive.
    destruct (chain_run env (packages.reconcilers c) pkg zeroResult None
                fetched)
      as (pkg' & res & err & evs & Hrun & Hall & Hnil & Hans).
    exists pkg', res, err, evs. split; [done|].
    pose proof (Reconcile_forward_run env c req tr pkg pkg' res err evs
                  Hget Hlive Hrun) as Hout.
    cbn zeta in Hout. fold out in Hout.
    split.
    + intros e ->. split; [by rewrite Hout|].
      destruct (chain_error_source env fetched evs pkg' res e Hall)
        as (i & r & p & Hi & Hlast & Ha);
        [intros Hev; specialize (Hnil Hev); discriminate Hnil|done|].
      exists i, r, p. by rewrite Ha.
    + intros -> update. subst fetched. revert Hout. flat. intros Hout.
      split.
      * intros e He. fold update in Hout. by rewrite Hout, He.
      * intros He. fold update in Hout. by rewrite Hout, He.
Qed.

Lemma Reconcile_error_policy_witness :
  packages.Reconcile mock.absent mock.controller mock.request []
  = (Returned (zeroResult, None), [CallGet KPackage mock.request])
  ∧ (packages.Reconcile
       (mock.serving mock.inDeletion
          (λ _ call, match call with
                     | CallUpdate _ => Some mock.conflict
                     | _ => None
                     end) mock.idle)
       mock.controller mock.request []).1
    = Returned (zeroResult, Some mock.conflict).
Proof.
  split.
  - destruct (Reconcile_error_policy mock.absent mock.controller
                mock.request []) as [Hget _].
    destruct (Hget mock.notFound eq_refl) as [Hout _]. exact Hout.
  - destruct (Reconcile_error_policy
                (mock.serving mock.inDeletion
                   (λ _ call, match call with
                              | CallUpdate _ => Some mock.conflict
                              | _ => None
                              end) mock.idle)
                mock.controller mock.request []) as (_ & Hdel & _).
    destruct (Hdel mock.inDeletion eq_refl eq_refl) as [_ Hupd].
    exact (Hupd mock.conflict eq_refl eq_refl).
Defined.

(** C9, as the claim has it, fails: an error of the store, here the
    Conflict that answers the final Status().Update, does not reach the
    caller unmodified; Reconcile returns an error that wraps it under the
    message of updateStatus. *)
Lemma Reconcile_wraps_status_error_counterexample :
  answerWrite
    (mock.serving (mock.installed []) mock.statusConflict mock.idle)
    [CallGet KPackage mock.request;
     CallReconcile "unpackReconciler" (mock.installed []);
     CallReconcile "objectDeploymentStatusReconciler" (mock.installed [])]
    (CallStatusUpdate (OPackage (mock.installed [])))
  = Some mock.conflict
  ∧ packages.Reconcile
      (mock.serving (mock.installed []) mock.statusConflict mock.idle)
      mock.controller mock.request []
    = (Returned
         (zeroResult,
          Some (wrapError "updating Package status" mock.conflict)),
       [CallGet KPackage mock.request;
        CallReconcile "unpackReconciler" (mock.installed []);
        CallReconcile "objectDeploymentStatusReconciler" (mock.installed []);
        CallStatusUpdate (OPackage (mock.installed []))])
  ∧ wrapError "updating Package status" mock.conflict ≠ mock.conflict.
Proof. repeat split. discriminate. Qed.

(** ** Revision repair *)

Lemma highestRevisionNumber_from_spec (cosByName : gmap string nat)
    (items : list ClusterObjectSet) (prevs : list PreviousRevisionReference) :
  ∀ (m : Z) (revs : list Z),
    0 ≤ m →
    previousRevisions cosByName items prevs = Some revs →
    main.highestRevisionNumber_from m cosByName items prevs
    = Returned (Z.max m (maxRevision revs)).
Proof.
  induction prevs as [|prev rest IH]; intros m revs Hm Hrevs.
  - injection Hrevs as <-. cbn. f_equal. lia.
  - cbn in Hrevs |- *.
    destruct (main.derefRevision cosByName items (prevName prev)) as [r|];
      [|done].
    cbn in Hrevs.
    destruct (previousRevisions cosByName items rest) as [rs|] eqn:Hrs;
      [|done].
    injection Hrevs as <-. cbn [maxRevision foldr]. fold (maxRevision rs).
    destruct (Z.gtb_spec r m).
    + rewrite (IH r rs); [|lia|done]. f_equal. lia.
    + rewrite (IH m rs); [|lia|done]. f_equal. lia.
Qed.

Lemma highestRevisionNumber_spec (cosByName : gmap string nat)
    (items : list ClusterObjectSet) (prevs : list PreviousRevisionReference)
    (revs : list Z) :
  previousRevisions cosByName items prevs = Some revs →
  main.highestRevisionNumber cosByName items prevs
  = Returned (maxRevision revs).
Proof.
  intros Hrevs. unfold main.highestRevisionNumber.
  rewrite (highestRevisionNumber_from_spec _ _ _ 0 revs); [|lia|done].
  f_equal. assert (0 ≤ maxRevision revs); [|lia].
  clear. unfold maxRevision. induction revs; cbn; lia.
Qed.

Lemma highestRevisionNumber_miss (cosByName : gmap string nat)
    (items : list ClusterObjectSet) (prevs : list PreviousRevisionReference) :
  ∀ m, previousRevisions cosByName items prevs = None →
       main.highestRevisionNumber_from m cosByName items prevs
       = Panicked nilDeref.
Proof.
  induction prevs as [|prev rest IH]; intros m Hrevs; [done|].
  cbn in Hrevs |- *.
  destruct (main.derefRevision cosByName items (prevName prev)) as [r|];
    [|done].
  cbn in Hrevs.
  destruct (previousRevisions cosByName items rest) as [rs|] eqn:Hrs;
    [done|].
  destruct (r >? m); by apply IH.
Qed.

Lemma previousRevisions_resolved (cosByName : gmap string nat)
    (items : list ClusterObjectSet) (prevs : list PreviousRevisionReference) :
  (∀ prev, prev ∈ prevs →
     ∃ j, cosByName !! prevName prev = Some j ∧ (j < length items)%nat) →
  ∃ revs, previousRevisions cosByName items prevs = Some revs.
Proof.
  induction prevs as [|prev rest IH]; intros Hres; [by eexists|].
  destruct (Hres prev) as (j & Hj & Hlt); [by left|].
  destruct (lookup_lt_is_Some_2 items j Hlt) as [cos Hcos].
  destruct IH as [rs Hrs]; [intros p Hp; apply Hres; by right|].
  exists (cosRevision cos :: rs). cbn. unfold main.derefRevision.
  rewrite Hj. cbn. rewrite Hcos. cbn. by rewrite Hrs.
Qed.


(** What the pointers of cosByName point at. *)
Lemma indexFrom_sound (items : list ClusterObjectSet) :
  ∀ (i : nat) (m : gmap string nat) (n : string) (j : nat),
    main.indexFrom i items m !! n = Some j →
    m !! n = Some j
    ∨ ((i ≤ j < i + length items)%nat
       ∧ ∃ cos, items !! (j - i)%nat = Some cos ∧ Name (cosMeta cos) = n).
Proof.
  induction items as [|c rest IH]; intros i m n j Hj; [by left|].
  cbn [main.indexFrom] in Hj. apply IH in Hj as [Hj|[Hlt (cos & Hcos & Hn)]].
  - destruct (decide (Name (cosMeta c) = n)) as [Heq|Hne].
    + rewrite Heq, lookup_insert_eq in Hj. injection Hj as <-.
      right. split; [cbn; lia|]. exists c. by rewrite Nat.sub_diag.
    + rewrite lookup_insert_ne in Hj by done. by left.
  - right. split; [cbn; lia|]. exists cos. split; [|done].
    replace (j - i)%nat with (S (j - S i)) by lia. done.
Qed.

Lemma indexFrom_is_Some (items : list ClusterObjectSet) :
  ∀ (i : nat) (m : gmap string nat) (n : string),
    is_Some (m !! n) ∨ (∃ cos, cos ∈ items ∧ Name (cosMeta cos) = n) →
    is_Some (main.indexFrom i items m !! n).
Proof.
  induction items as [|c rest IH]; intros i m n Hn.
  - destruct Hn as [Hm|(cos & Hin & _)]; [done|]. by apply elem_of_nil in Hin.
  - cbn [main.indexFrom]. apply IH.
    destruct Hn as [Hm|(cos & Hin & Hname)].
    + left. rewrite lookup_insert_is_Some. destruct (decide (Name (cosMeta c) = n)); auto.
    + apply elem_of_cons in Hin as [->|Hin].
      * left. rewrite Hname, lookup_insert_eq. by eexists.
      * right. by exists cos.
Qed.

Lemma indexByName_sound (items : list ClusterObjectSet) (n : string) (j : nat) :
  main.indexByName items !! n = Some j →
  ∃ cos, items !! j = Some cos ∧ Name (cosMeta cos) = n.
Proof.
  intros Hj. apply indexFrom_sound in Hj as [Hj|[_ (cos & Hcos & Hn)]].
  - by rewrite lookup_empty in Hj.
  - exists cos. by rewrite Nat.sub_0_r in Hcos.
Qed.

Lemma indexByName_resolves (items : list ClusterObjectSet) (n : string) :
  (∃ cos, cos ∈ items ∧ Name (cosMeta cos) = n) →
  ∃ j, main.indexByName items !! n = Some j ∧ (j < length items)%nat.
Proof.
  intros Hn. destruct (indexFrom_is_Some items 0 ∅ n) as [j Hj]; [by right|].
  exists j. split; [done|].
  apply indexByName_sound in Hj as (cos & Hcos & _).
  by apply lookup_lt_Some in Hcos.
Qed.

Lemma take_of_take_S {A} (l1 l2 : list A) (k : nat) :
  take (S k) l1 = take (S k) l2 → take k l1 = take k l2.
Proof.
  intros H.
  assert (E : ∀ l : list A, take k l = take k (take (S k) l)).
  { intros l. rewrite take_take. f_equal. lia. }
  by rewrite (E l1), (E l2), H.
Qed.

(** The repair loop from index [k] on, when every patch succeeds and the
    references of the objects still to visit resolve. *)
Lemma repairLoop_run (env : Env) (cosByName : gmap string nat) :
  (∀ tr cos, answerWrite env tr (CallStatusPatch (OClusterObjectSet cos))
             = None) →
  ∀ (n k : nat) (mem : list ClusterObjectSet) (tr : Trace),
    length mem = (k + n)%nat →
    (∀ i cos prev, (k ≤ i)%nat → mem !! i = Some cos →
       main.looksStuck cos = true → prev ∈ cosPrevious cos →
       ∃ j, cosByName !! prevName prev = Some j ∧ (j < length mem)%nat) →
    ∃ final,
      main.repairLoop env cosByName (seq k n) mem tr
      = (Returned (final, None),
         tr ++ patchCalls (drop k mem) (drop k final))
      ∧ length final = length mem
      ∧ take k final = take k mem
      ∧ ∀ i cos, (k ≤ i)%nat → mem !! i = Some cos →
          if main.looksStuck cos
          then ∃ revs,
              previousRevisions cosByName (visited i mem final)
                (cosPrevious cos) = Some revs
              ∧ final !! i
                = Some (setRevision (int64_add (maxRevision revs) 1) cos)
          else final !! i = Some cos.
Proof.
  intros Hpatch. induction n as [|n IH]; intros k mem tr Hlen Hres.
  - exists mem. cbn. rewrite drop_ge by lia. rewrite app_nil_r.
    repeat split; [done..|]. intros i cos Hi Hcos.
    apply lookup_lt_Some in Hcos. lia.
  - destruct (lookup_lt_is_Some_2 mem k) as [cos Hcos]; [lia|].
    cbn [seq main.repairLoop]. rewrite Hcos.
    destruct (main.looksStuck cos) eqn:Hstuck.
    + destruct (previousRevisions_resolved cosByName mem (cosPrevious cos))
        as [revs Hrevs]; [by intros prev Hprev; apply (Hres k cos prev)|].
      rewrite (highestRevisionNumber_spec _ _ _ _ Hrevs). go_unfold.
      rewrite Hpatch.
      set (cos' := setRevision (int64_add (maxRevision revs) 1) cos).
      set (mem' := <[k:=cos']> mem).
      assert (Hlen' : length mem' = length mem) by apply length_insert.
      destruct (IH (S k) mem'
                  (tr ++ [CallStatusPatch (OClusterObjectSet cos')]))
        as (final & Hrun & Hflen & Htake & Hall).
      { rewrite Hlen'. lia. }
      { intros i c prev Hi Hc. rewrite Hlen'.
        subst mem'. rewrite list_lookup_insert_ne in Hc by lia.
        apply (Hres i c prev); [lia|done]. }
      assert (Hk : final !! k = Some cos').
      { rewrite <- (lookup_take_lt final (S k)) by lia. rewrite Htake.
        rewrite lookup_take_lt by lia. subst mem'.
        apply list_lookup_insert_eq. lia. }
      assert (Htake' : take k final = take k mem).
      { rewrite (take_of_take_S _ _ _ Htake). subst mem'.
        by rewrite take_insert_ge by lia. }
      exists final. rewrite Hrun. split; [|split; [|split]].
      * rewrite (drop_S mem cos k Hcos), (drop_S final cos' k Hk).
        cbn [patchCalls]. rewrite Hstuck. subst mem'.
        rewrite drop_insert_lt by lia. by rewrite <- app_assoc.
      * by rewrite Hflen.
      * done.
      * intros i c Hi Hc. destruct (decide (i = k)) as [->|Hne].
        -- rewrite Hcos in Hc. injection Hc as <-. rewrite Hstuck.
           exists revs. split; [|done]. unfold visited.
           by rewrite Htake', take_drop.
        -- assert (Hc' : mem' !! i = Some c).
           { subst mem'. by rewrite list_lookup_insert_ne by lia. }
           specialize (Hall i c ltac:(lia) Hc'). unfold visited in *.
           subst mem'. by rewrite drop_insert_lt in Hall by lia.
    + destruct (IH (S k) mem tr) as (final & Hrun & Hflen & Htake & Hall).
      { lia. }
      { intros i c prev Hi Hc. apply (Hres i c prev); [lia|done]. }
      assert (Hk : final !! k = Some cos).
      { rewrite <- (lookup_take_lt final (S k)) by lia. rewrite Htake.
        by rewrite lookup_take_lt by lia. }
      exists final. rewrite Hrun. split; [|split; [|split]].
      * rewrite (drop_S mem cos k Hcos), (drop_S final cos k Hk).
        cbn [patchCalls]. by rewrite Hstuck.
      * done.
      * by apply take_of_take_S.
      * intros i c Hi Hc. destruct (decide (i = k)) as [->|Hne].
        -- rewrite Hcos in Hc. injection Hc as <-. by rewrite Hstuck.
        -- apply Hall; [lia|done].
Qed.

Lemma visited_lookup (i j : nat) (items final : list ClusterObjectSet) :
  length final = length items → (i ≤ length items)%nat →
  visited i items final !! j
  = if decide (j < i)%nat then final !! j else items !! j.
Proof.
  intros Hlen Hi. unfold visited.
  assert (Htake : length (take i final) = i) by (rewrite length_take; lia).
  destruct (decide (j < i)%nat).
  - rewrite lookup_app_l by lia. by rewrite lookup_take_lt.
  - rewrite lookup_app_r by lia. rewrite lookup_drop, Htake.
    f_equal. lia.
Qed.


Lemma maxRevision_bounds (revs : list Z) (bound : Z) :
  0 < bound → (∀ r, r ∈ revs → r < bound) →
  0 ≤ maxRevision revs < bound.
Proof.
  intros Hb. unfold maxRevision. induction revs as [|r rs IH]; intros Hall.
  - cbn. lia.
  - cbn. assert (r < bound) by (apply Hall; by left).
    assert (0 ≤ foldr Z.max 0 rs < bound).
    { apply IH. intros r' Hr'. apply Hall. by right. }
    lia.
Qed.

Lemma int64_add_1_exact (m : Z) :
  0 ≤ m < MaxInt64 → int64_add m 1 = m + 1.
Proof.
  unfold int64_add, wrap64, MaxInt64. intros Hm.
  rewrite Z.mod_small; lia.
Qed.


Ltac in_cases H :=
  repeat (apply elem_of_cons in H as [->|H]);
  [..|by apply elem_of_nil in H].


(** The loop reads the previous references from the array it is
    updating: C, stuck behind the stuck B, is numbered after the
    repaired B. *)
Example repair_reads_repaired_ancestors :
  main.fixMissingRevisionNumbers_items
    (mock.revisions [ mock.objectSet "A" [] 1 "Available";
                      mock.objectSet "B" ["A"] 0 "Pending";
                      mock.objectSet "C" ["B"] 0 "Pending" ])
    mock.pko []
  = (Returned ([ mock.objectSet "A" [] 1 "Available";
                 mock.objectSet "B" ["A"] 2 "Pending";
                 mock.objectSet "C" ["B"] 3 "Pending" ], None),
     [ CallList KClusterObjectSet instanceLabels;
       CallStatusPatch
         (OClusterObjectSet (mock.objectSet "B" ["A"] 2 "Pending"));
       CallStatusPatch
         (OClusterObjectSet (mock.objectSet "C" ["B"] 3 "Pending")) ]).
Proof. reflexivity. Qed.

Lemma previousRevisions_unresolved (cosByName : gmap string nat)
    (items : list ClusterObjectSet) (prevs : list PreviousRevisionReference)
    (prev : PreviousRevisionReference) :
  prev ∈ prevs → cosByName !! prevName prev = None →
  previousRevisions cosByName items prevs = None.
Proof.
  intros Hin Hmiss. induction prevs as [|p rest IH];
    [by apply elem_of_nil in Hin|].
  cbn. apply elem_of_cons in Hin as [<-|Hin].
  - unfold main.derefRevision. by rewrite Hmiss.
  - rewrite (IH Hin).
    by destruct (main.derefRevision cosByName items (prevName p)).
Qed.

(** C2, on the code.  When the first object of the list looks stuck and
    one of its previous references names no object of the list, the map
    lookup yields the nil pointer, highestRevisionNumber reads the
    revision through it, and fixMissingRevisionNumbers panics right
    after the list call: the ancestor does not count as revision 0, and
    nothing is patched. *)
Theorem fixMissingRevisionNumbers_missing_ancestor_panics (env : Env)
    (b : main.bootstrapper) (tr : Trace) (cos : ClusterObjectSet)
    (rest : list ClusterObjectSet) (prev : PreviousRevisionReference) :
  answerListCOS env tr instanceLabels = Found (cos :: rest) →
  main.looksStuck cos = true →
  prev ∈ cosPrevious cos →
  (∀ anc, anc ∈ cos :: rest → Name (cosMeta anc) ≠ prevName prev) →
  main.fixMissingRevisionNumbers env b tr
  = (Panicked nilDeref, tr ++ [CallList KClusterObjectSet instanceLabels]).
Proof.
  intros Hlist Hstuck Hprev Hmissing.
  assert (Hmiss : main.indexByName (cos :: rest) !! prevName prev = None).
  { destruct (main.indexByName (cos :: rest) !! prevName prev) as [j|] eqn:Hj;
      [|done].
    apply indexByName_sound in Hj as (anc & Hanc & Hname).
    destruct (Hmissing anc); [|done]. apply list_elem_of_lookup. by exists j. }
  unfold main.fixMissingRevisionNumbers, main.fixMissingRevisionNumbers_items.
  go_unfold. fold instanceLabels. rewrite Hlist.
  cbn [length seq main.repairLoop lookup list_lookup]. rewrite Hstuck.
  unfold main.highestRevisionNumber.
  rewrite highestRevisionNumber_miss; [done|].
  by apply (previousRevisions_unresolved _ _ _ prev).
Qed.

Lemma fixMissingRevisionNumbers_missing_ancestor_panics_witness :
  main.fixMissingRevisionNumbers (mock.revisions mock.orphaned) mock.pko []
  = (Panicked nilDeref, [CallList KClusterObjectSet instanceLabels]).
Proof.
  apply (fixMissingRevisionNumbers_missing_ancestor_panics
           (mock.revisions mock.orphaned) mock.pko []
           (mock.objectSet "B" ["A"] 0 "Pending") [] {| prevName := "A" |}).
  - reflexivity.
  - reflexivity.
  - by left.
  - intros anc Hanc. in_cases Hanc. discriminate.
Defined.

(** * Further properties *)

(** ** Which calls a computation makes *)

Lemma Emits_ret {A} (P : Call → Prop) (a : A) : Emits P (mret a).
Proof. intros tr. exists []. by rewrite app_nil_r. Qed.

Lemma Emits_panic {A} (P : Call → Prop) (msg : string) :
  Emits P (panic msg : Go A).
Proof. intros tr. exists []. by rewrite app_nil_r. Qed.

Lemma Emits_ask {A} (P : Call → Prop) (answer : Trace → A) (c : Call) :
  P c → Emits P (ask answer c).
Proof. intros Hc tr. exists [c]. split; [done|]. by apply Forall_singleton. Qed.

Lemma Emits_bind {A B} (P : Call → Prop) (m : Go A) (k : A → Go B) :
  Emits P m → (∀ a, Emits P (k a)) → Emits P (m ≫= k).
Proof.
  intros Hm Hk tr. destruct (Hm tr) as (evs1 & Htr1 & H1).
  unfold mbind, Go_bind. destruct (m tr) as [[a|msg] tr1];
    cbn [snd] in Htr1; subst tr1.
  - destruct (Hk a (tr ++ evs1)) as (evs2 & -> & H2).
    exists (evs1 ++ evs2). rewrite app_assoc. split; [done|].
    by apply Forall_app.
  - by exists evs1.
Qed.

Lemma Emits_mono {A} (P Q : Call → Prop) (m : Go A) :
  (∀ c, P c → Q c) → Emits P m → Emits Q m.
Proof.
  intros HPQ Hm tr. destruct (Hm tr) as (evs & Htr & H).
  exists evs. split; [done|]. by eapply Forall_impl.
Qed.

Lemma Emits_newCalls {A} (P : Call → Prop) (m : Go A) (tr : Trace) :
  Emits P m → Forall P (newCalls tr (m tr)).
Proof.
  intros Hm. destruct (Hm tr) as (evs & Htr & H).
  unfold newCalls. by rewrite Htr, drop_app_length.
Qed.

(** ** The CRDs of a template *)

Lemma crdsFromObjects_filter (objs : list ObjectSetObject) :
  ∀ crds, main.crdsFromObjects crds objs
          = crds ++ filter isCRD (osoObject <$> objs).
Proof.
  induction objs as [|obj rest IH]; intros crds.
  - cbn. by rewrite app_nil_r.
  - cbn [main.crdsFromObjects fmap list_fmap].
    rewrite filter_cons. unfold isCRD at 1. case_bool_decide as Hgk.
    + rewrite decide_False by done. apply IH.
    + rewrite decide_True by done.
      rewrite IH. by rewrite <- app_assoc.
Qed.

Lemma crdsFromPhases_filter (phases : list ObjectSetTemplatePhase) :
  ∀ crds, main.crdsFromPhases crds phases
          = crds ++ filter isCRD
                      (phases ≫= (λ phase, osoObject <$> phaseObjects phase)).
Proof.
  induction phases as [|phase rest IH]; intros crds.
  - cbn. by rewrite app_nil_r.
  - cbn [main.crdsFromPhases mbind list_bind].
    rewrite IH, crdsFromObjects_filter, filter_app. by rewrite <- app_assoc.
Qed.

Lemma crdsFromTemplateSpec_spec (templateSpec : ObjectSetTemplateSpec) :
  main.crdsFromTemplateSpec templateSpec
  = filter isCRD (templateObjects templateSpec).
Proof.
  unfold main.crdsFromTemplateSpec. by rewrite crdsFromPhases_filter.
Qed.

(** X1.  crdsFromTemplateSpec returns the objects of the template whose
    group and kind are those of a CustomResourceDefinition, all of them
    and nothing else, in the order of the phases and of the objects
    within a phase. *)
Theorem crdsFromTemplateSpec_filter (templateSpec : ObjectSetTemplateSpec) :
  main.crdsFromTemplateSpec templateSpec
  = filter isCRD (templateObjects templateSpec)
  ∧ ∀ u, u ∈ main.crdsFromTemplateSpec templateSpec
         ↔ isCRD u ∧ u ∈ templateObjects templateSpec.
Proof.
  split; [apply crdsFromTemplateSpec_spec|].
  intros u. rewrite crdsFromTemplateSpec_spec. apply list_elem_of_filter.
Qed.

(** ** ensureCRDs, for any answers *)

Lemma ensureCRDs_prefix (env : Env) (label : string)
    (crds : list Unstructured) :
  ∀ tr, ∃ n err,
    main.ensureCRDs env label crds tr
    = (Returned err, tr ++ take n (crdCreates label crds))
    ∧ (n ≤ length crds)%nat
    ∧ (err = None → n = length crds).
Proof.
  induction crds as [|crd rest IH]; intros tr.
  - exists 0%nat, None. cbn. by rewrite app_nil_r.
  - cbn [main.ensureCRDs]. go_unfold.
    set (c := CallCreate (OUnstructured (main.withCacheLabel label crd))).
    destruct (bool_decide (answerWrite env tr c ≠ None)
              && negb (IsAlreadyExists (answerWrite env tr c))) eqn:Hstop.
    + exists 1%nat, (answerWrite env tr c). cbn. split; [done|].
      split; [lia|]. intros Hnone. rewrite Hnone in Hstop. done.
    + destruct (IH (tr ++ [c])) as (n & err & Hrun & Hn & Hnone).
      exists (S n), err. rewrite Hrun. cbn [crdCreates fmap list_fmap take].
      fold c. fold (crdCreates label rest). rewrite app_assoc_cons.
      split; [done|]. split; [cbn; lia|]. intros H. cbn. f_equal. auto.
Qed.

Lemma withCacheLabel_labels (label : string) (crd : Unstructured) :
  main.GroupKind (main.withCacheLabel label crd) = main.GroupKind crd
  ∧ Name (uMeta (main.withCacheLabel label crd)) = Name (uMeta crd)
  ∧ labelsOf (main.withCacheLabel label crd) !! label = Some "True"
  ∧ ∀ k, k ≠ label →
         labelsOf (main.withCacheLabel label crd) !! k = labelsOf crd !! k.
Proof.
  unfold labelsOf, main.withCacheLabel. cbn. repeat split.
  - apply lookup_insert_eq.
  - intros k Hk. by rewrite lookup_insert_ne.
Qed.

(** X2.  Whatever the client answers, ensureCRDs run on the CRDs of a
    template returns (it does not panic) and calls nothing but Create, on
    an initial stretch of those CRDs in their order; so every object it
    creates is a CustomResourceDefinition of the template.  Each is
    created with the cache label set to "True" and with its group, kind,
    name and other labels as in the template. *)
Theorem ensureCRDs_creates_only_labelled_CRDs (env : Env) (label : string)
    (templateSpec : ObjectSetTemplateSpec) (tr : Trace) :
  let crds := main.crdsFromTemplateSpec templateSpec in
  let out := main.ensureCRDs env label crds tr in
  (∃ err, out.1 = Returned err)
  ∧ (∃ n, newCalls tr out = take n (crdCreates label crds))
  ∧ ∀ c, c ∈ newCalls tr out →
      ∃ crd, crd ∈ templateObjects templateSpec ∧ isCRD crd
        ∧ c = CallCreate (OUnstructured (main.withCacheLabel label crd))
        ∧ isCRD (main.withCacheLabel label crd)
        ∧ Name (uMeta (main.withCacheLabel label crd)) = Name (uMeta crd)
        ∧ labelsOf (main.withCacheLabel label crd) !! label = Some "True"
        ∧ ∀ k, k ≠ label →
               labelsOf (main.withCacheLabel label crd) !! k
               = labelsOf crd !! k.
Proof.
  intros crds out.
  destruct (ensureCRDs_prefix env label crds tr) as (n & err & Hrun & _ & _).
  fold out in Hrun. rewrite Hrun, newCalls_app. cbn [fst].
  split; [by exists err|]. split; [by exists n|].
  intros c Hc. apply elem_of_take in Hc as (i & Hi & _).
  unfold crdCreates in Hi. rewrite list_lookup_fmap in Hi.
  destruct (crds !! i) as [crd|] eqn:Hcrd; [|done].
  cbn in Hi. injection Hi as <-.
  assert (Hin : crd ∈ crds) by (apply list_elem_of_lookup; by exists i).
  subst crds. rewrite crdsFromTemplateSpec_spec in Hin.
  apply list_elem_of_filter in Hin as [Hcrd_is Hin].
  destruct (withCacheLabel_labels label crd) as (Hgk & Hname & Hlabel & Hrest).
  exists crd. unfold isCRD. rewrite Hgk. by repeat split.
Qed.

(** ** More on the revision repair *)

Lemma previousRevisions_Some (cosByName : gmap string nat)
    (items : list ClusterObjectSet) (prevs : list PreviousRevisionReference)
    (revs : list Z) :
  previousRevisions cosByName items prevs = Some revs ↔
  Forall2 (λ prev r,
             main.derefRevision cosByName items (prevName prev) = Some r)
          prevs revs.
Proof.
  revert revs. induction prevs as [|prev rest IH]; intros revs; cbn.
  - split; [by intros [= <-]|by intros ->%Forall2_nil_inv_l].
  - destruct (main.derefRevision cosByName items (prevName prev)) as [r|]
      eqn:Hr; cbn.
    + destruct (previousRevisions cosByName items rest) as [rs|] eqn:Hrs; cbn.
      * split.
        -- intros [= <-]. constructor; [done|]. by apply IH.
        -- intros (r' & rs' & Hr' & Hrs' & ->)%Forall2_cons_inv_l.
           rewrite Hr in Hr'. injection Hr' as <-.
           apply IH in Hrs'. by injection Hrs' as <-.
      * split; [done|].
        intros (r' & rs' & _ & Hrs' & ->)%Forall2_cons_inv_l.
        by apply IH in Hrs'.
    + split; [done|].
      intros (r' & rs' & Hr' & _ & ->)%Forall2_cons_inv_l.
      by rewrite Hr in Hr'.
Qed.

Lemma previousRevisions_None (cosByName : gmap string nat)
    (items : list ClusterObjectSet) (prevs : list PreviousRevisionReference) :
  previousRevisions cosByName items prevs = None ↔
  ∃ prev, prev ∈ prevs
          ∧ main.derefRevision cosByName items (prevName prev) = None.
Proof.
  induction prevs as [|prev rest IH]; cbn.
  - split; [done|]. by intros (prev & Hin%elem_of_nil & _).
  - destruct (main.derefRevision cosByName items (prevName prev)) as [r|]
      eqn:Hr; cbn.
    + destruct (previousRevisions cosByName items rest) as [rs|] eqn:Hrs; cbn.
      * split; [done|]. intros (p & [->|Hin]%elem_of_cons & Hp).
        -- by rewrite Hr in Hp.
        -- assert (Some rs = None) by (apply IH; by exists p). done.
      * split; [|done]. intros _.
        destruct (proj1 IH eq_refl) as (p & Hin & Hp).
        exists p. split; [by right|done].
    + split; [|done]. intros _. exists prev. split; [by left|done].
Qed.

Lemma maxRevision_is_maximum (revs : list Z) :
  0 ≤ maxRevision revs
  ∧ (∀ r, r ∈ revs → r ≤ maxRevision revs)
  ∧ (maxRevision revs = 0 ∨ maxRevision revs ∈ revs).
Proof.
  unfold maxRevision. induction revs as [|r rs (H0 & Hall & Hin)]; cbn.
  - split; [lia|]. split; [|by left]. by intros r Hr%elem_of_nil.
  - split; [lia|]. split.
    + intros r' [->|Hr']%elem_of_cons; [lia|]. specialize (Hall r' Hr'). lia.
    + destruct (Z.max_spec r (foldr Z.max 0 rs)) as [[_ ->]|[_ ->]].
      * destruct Hin as [->|Hin]; [by left|]. right. by right.
      * right. by left.
Qed.

(** X3.  highestRevisionNumber panics exactly when one of the previous
    references names no entry of the map (or its pointer is dangling).
    Otherwise it returns the largest revision among the referenced
    objects, or 0 when there is no reference or none with a positive
    revision: the result is at least 0, at least every referenced
    revision, and is 0 or the revision of one of the references. *)
Theorem highestRevisionNumber_is_maximum (cosByName : gmap string nat)
    (items : list ClusterObjectSet) (prevs : list PreviousRevisionReference) :
  let rev := λ prev, main.derefRevision cosByName items (prevName prev) in
  ((∃ prev, prev ∈ prevs ∧ rev prev = None) ↔
   main.highestRevisionNumber cosByName items prevs = Panicked nilDeref)
  ∧ ((∀ prev, prev ∈ prevs → is_Some (rev prev)) →
     ∃ h, main.highestRevisionNumber cosByName items prevs = Returned h
          ∧ 0 ≤ h
          ∧ (∀ prev r, prev ∈ prevs → rev prev = Some r → r ≤ h)
          ∧ (h = 0 ∨ ∃ prev, prev ∈ prevs ∧ rev prev = Some h)).
Proof.
  intros rev. split.
  - split.
    + intros Hmiss. apply previousRevisions_None in Hmiss.
      by apply highestRevisionNumber_miss.
    + intros Hpanic.
      destruct (previousRevisions cosByName items prevs) as [revs|] eqn:Hrevs.
      * by rewrite (highestRevisionNumber_spec _ _ _ _ Hrevs) in Hpanic.
      * by apply previousRevisions_None.
  - intros Hall.
    destruct (previousRevisions cosByName items prevs) as [revs|] eqn:Hrevs.
    2:{ apply previousRevisions_None in Hrevs as (prev & Hin & Hnone).
        destruct (Hall prev Hin) as [r Hr]. unfold rev in Hr. congruence. }
    exists (maxRevision revs).
    split; [by apply highestRevisionNumber_spec|].
    destruct (maxRevision_is_maximum revs) as (H0 & Hle & Hin).
    apply previousRevisions_Some in Hrevs.
    split; [done|]. split.
    + intros prev r Hprev Hr.
      apply list_elem_of_lookup in Hprev as [i Hi].
      destruct (Forall2_lookup_l _ _ _ _ _ Hrevs Hi) as (r' & Hr' & Hrev').
      unfold rev in Hr. rewrite Hr in Hrev'. injection Hrev' as <-.
      apply Hle. apply list_elem_of_lookup. by exists i.
    + destruct Hin as [->|Hin]; [by left|]. right.
      apply list_elem_of_lookup in Hin as [i Hi].
      destruct (Forall2_lookup_r _ _ _ _ _ Hrevs Hi) as (prev & Hprev & Hrev').
      exists prev. split; [|done]. apply list_elem_of_lookup. by exists i.
Qed.

Lemma highestRevisionNumber_is_maximum_witness :
  ∃ h, main.highestRevisionNumber (main.indexByName mock.graph) mock.graph
         [ {| prevName := "A" |}; {| prevName := "B" |} ]
       = Returned h
       ∧ h = 1.
Proof.
  destruct (highestRevisionNumber_is_maximum
              (main.indexByName mock.graph) mock.graph
              [ {| prevName := "A" |}; {| prevName := "B" |} ])
    as [_ Hmax].
  destruct Hmax as (h & Hh & _).
  { intros prev Hprev.
    repeat (apply elem_of_cons in Hprev as [->|Hprev]); [by eexists..|].
    by apply elem_of_nil in Hprev. }
  exists h. split; [exact Hh|].
  cbn in Hh. by injection Hh as <-.
Defined.

Lemma allSucceed_snoc (env : Env) (hist pre : list Call) (c : Call) :
  allSucceed env hist pre → answerWrite env (hist ++ pre) c = None →
  allSucceed env hist (pre ++ [c]).
Proof.
  revert hist. induction pre as [|c' pre IH]; intros hist Hpre Hc; cbn.
  - by rewrite app_nil_r in Hc.
  - destruct Hpre as [Hc' Hpre]. split; [done|]. apply IH; [done|].
    by rewrite app_assoc_cons.
Qed.

Lemma highestRevisionNumber_panic (cosByName : gmap string nat)
    (items : list ClusterObjectSet) (prevs : list PreviousRevisionReference)
    (msg : string) :
  main.highestRevisionNumber cosByName items prevs = Panicked msg →
  msg = nilDeref.
Proof.
  destruct (previousRevisions cosByName items prevs) as [revs|] eqn:Hrevs.
  - by rewrite (highestRevisionNumber_spec _ _ _ _ Hrevs).
  - unfold main.highestRevisionNumber.
    rewrite highestRevisionNumber_miss by done. by intros [= <-].
Qed.

(** The repair loop from index [k] on, for any answers: what it calls and
    where it stops. *)
Lemma repairLoop_calls (env : Env) (cosByName : gmap string nat)
    (items : list ClusterObjectSet) :
  ∀ (n k : nat) (mem : list ClusterObjectSet) (tr : Trace),
    length mem = (k + n)%nat →
    (∀ i, (k ≤ i)%nat → mem !! i = items !! i) →
    ∃ evs,
      (main.repairLoop env cosByName (seq k n) mem tr).2 = tr ++ evs
      ∧ Forall (patchOfStuck items) evs
      ∧ (length evs
         ≤ length (filter (λ cos, main.looksStuck cos = true) (drop k items)))%nat
      ∧ match (main.repairLoop env cosByName (seq k n) mem tr).1 with
        | Returned (_, None) => allSucceed env tr evs
        | Returned (_, Some err) =>
            ∃ pre c e, evs = pre ++ [c] ∧ allSucceed env tr pre
                       ∧ answerWrite env (tr ++ pre) c = Some e
                       ∧ err = wrapError "patch for missing revision number" e
        | Panicked msg => msg = nilDeref ∧ allSucceed env tr evs
        end.
Proof.
  induction n as [|n IH]; intros k mem tr Hlen Hsame.
  - exists []. cbn. rewrite app_nil_r. repeat split; [done|lia].
  - destruct (lookup_lt_is_Some_2 mem k) as [cos Hcos]; [lia|].
    assert (Hitem : items !! k = Some cos) by (by rewrite <- Hsame).
    cbn [seq main.repairLoop]. rewrite Hcos.
    rewrite (drop_S items cos k Hitem), filter_cons.
    destruct (main.looksStuck cos) eqn:Hstuck.
    + rewrite decide_True by done. cbn [length].
      destruct (main.highestRevisionNumber cosByName mem (cosPrevious cos))
        as [h|msg] eqn:Hh.
      2:{ exists []. cbn. rewrite app_nil_r.
          apply highestRevisionNumber_panic in Hh.
          repeat split; [done|lia|done]. }
      go_unfold.
      set (cos' := setRevision (int64_add h 1) cos).
      set (c := CallStatusPatch (OClusterObjectSet cos')).
      assert (Hc : patchOfStuck items c).
      { exists cos, (int64_add h 1). repeat split; [|done].
        apply list_elem_of_lookup. by exists k. }
      destruct (answerWrite env tr c) as [e|] eqn:Hans.
      * exists [c]. cbn [fst snd]. split; [done|].
        split; [apply Forall_singleton; exact Hc|]. split; [cbn; lia|].
        exists [], c, e. cbn. by rewrite app_nil_r.
      * destruct (IH (S k) (<[k:=cos']> mem) (tr ++ [c]))
          as (evs & Htr & Hall & Hcount & Hstop).
        { rewrite length_insert. lia. }
        { intros i Hi. rewrite list_lookup_insert_ne by lia.
          apply Hsame. lia. }
        exists (c :: evs). rewrite Htr, app_assoc_cons.
        split; [done|]. split; [by constructor|]. split; [cbn; lia|].
        destruct (main.repairLoop env cosByName (seq (S k) n) _ _).1
          as [[final [err|]]|msg].
        -- destruct Hstop as (pre & c' & e & -> & Hpre & He & ->).
           exists (c :: pre), c', e. split; [done|].
           split; [by split|]. split; [|done].
           by rewrite <- app_assoc_cons.
        -- by split.
        -- destruct Hstop. by repeat split.
    + rewrite decide_False by (by intros ?). apply IH; [lia|].
      intros i Hi. apply Hsame. lia.
Qed.

Lemma fixMissingRevisionNumbers_items_run (env : Env) (b : main.bootstrapper)
    (tr : Trace) :
  main.fixMissingRevisionNumbers_items env b tr
  = match answerListCOS env tr instanceLabels with
    | Found items =>
        main.repairLoop env (main.indexByName items) (seq 0 (length items))
          items (tr ++ [CallList KClusterObjectSet instanceLabels])
    | Failed e =>
        (Returned ([], Some (wrapError "list PKO ClusterObjectSet" e)),
         tr ++ [CallList KClusterObjectSet instanceLabels])
    end.
Proof.
  unfold main.fixMissingRevisionNumbers_items. go_unfold.
  fold instanceLabels. by destruct (answerListCOS env tr instanceLabels).
Qed.

Lemma fixMissingRevisionNumbers_run (env : Env) (b : main.bootstrapper)
    (tr : Trace) :
  main.fixMissingRevisionNumbers env b tr
  = (match (main.fixMissingRevisionNumbers_items env b tr).1 with
     | Returned (_, err) => Returned err
     | Panicked msg => Panicked msg
     end,
     (main.fixMissingRevisionNumbers_items env b tr).2).
Proof.
  unfold main.fixMissingRevisionNumbers, mbind, Go_bind.
  by destruct (main.fixMissingRevisionNumbers_items env b tr)
    as [[[final err]|msg] tr'].
Qed.

(** X4.  Whatever the client answers, fixMissingRevisionNumbers calls the
    list once and after it nothing but Status().Patch, at most once for
    each listed object that looks stuck, and always on such an object
    with nothing but its revision changed.  It never updates, deletes or
    creates, and it patches no object that does not look stuck. *)
Theorem fixMissingRevisionNumbers_patches_only_stuck (env : Env)
    (b : main.bootstrapper) (tr : Trace) :
  let out := main.fixMissingRevisionNumbers env b tr in
  ∃ evs,
    newCalls tr out = CallList KClusterObjectSet instanceLabels :: evs
    ∧ Forall (patchOfStuck (listed env tr)) evs
    ∧ (length evs
       ≤ length (filter (λ cos, main.looksStuck cos = true) (listed env tr)))%nat.
Proof.
  intros out. subst out. rewrite fixMissingRevisionNumbers_run.
  rewrite fixMissingRevisionNumbers_items_run. unfold listed.
  destruct (answerListCOS env tr instanceLabels) as [items|e].
  - destruct (repairLoop_calls env (main.indexByName items) items
                (length items) 0%nat items
                (tr ++ [CallList KClusterObjectSet instanceLabels]))
      as (evs & Htr & Hall & Hcount & _); [done..|].
    exists evs. unfold newCalls. cbn [snd]. rewrite Htr.
    rewrite <- app_assoc, drop_app_length. by rewrite drop_0 in Hcount.
  - exists []. unfold newCalls. cbn [snd]. rewrite drop_app_length.
    repeat split; [done|]. cbn. lia.
Qed.

(** X5.  fixMissingRevisionNumbers stops at the first call that fails.
    An error of the list is returned under the message "list PKO
    ClusterObjectSet" and nothing is patched.  Otherwise the patches it
    made all succeeded, except that, when it returns an error, the last
    one failed and the error returned is that failure under the message
    "patch for missing revision number": the stuck objects further down
    the list are left unpatched.  The only panic is the nil dereference
    of highestRevisionNumber. *)
Theorem fixMissingRevisionNumbers_stops_at_first_failure (env : Env)
    (b : main.bootstrapper) (tr : Trace) :
  let out := main.fixMissingRevisionNumbers env b tr in
  let list := CallList KClusterObjectSet instanceLabels in
  (∀ e, answerListCOS env tr instanceLabels = Failed e →
        out = (Returned (Some (wrapError "list PKO ClusterObjectSet" e)),
               tr ++ [list]))
  ∧ (∀ items, answerListCOS env tr instanceLabels = Found items →
       ∃ evs, out.2 = tr ++ list :: evs
         ∧ match out.1 with
           | Returned None => allSucceed env (tr ++ [list]) evs
           | Returned (Some err) =>
               ∃ pre c e,
                 evs = pre ++ [c] ∧ allSucceed env (tr ++ [list]) pre
                 ∧ answerWrite env (tr ++ list :: pre) c = Some e
                 ∧ err = wrapError "patch for missing revision number" e
           | Panicked msg => msg = nilDeref ∧ allSucceed env (tr ++ [list]) evs
           end).
Proof.
  intros out list. subst out. rewrite fixMissingRevisionNumbers_run.
  rewrite fixMissingRevisionNumbers_items_run. fold list. split.
  - by intros e ->.
  - intros items ->.
    destruct (repairLoop_calls env (main.indexByName items) items
                (length items) 0%nat items (tr ++ [list]))
      as (evs & Htr & _ & _ & Hstop); [done..|].
    exists evs. cbn [fst snd]. rewrite Htr, app_assoc_cons.
    split; [done|].
    destruct (main.repairLoop env _ _ items (tr ++ [list])).1
      as [[final [err|]]|msg]; [|done..].
    destruct Hstop as (pre & c & e & -> & Hpre & He & ->).
    exists pre, c, e. by rewrite app_assoc_cons in He.
Qed.

Lemma fixMissingRevisionNumbers_stops_at_first_failure_witness :
  main.fixMissingRevisionNumbers
    (mock.cluster (Failed mock.notFound) mock.gone (Failed mock.timeout)
       mock.allWritesSucceed mock.idle) mock.pko []
  = (Returned (Some (wrapError "list PKO ClusterObjectSet" mock.timeout)),
     [CallList KClusterObjectSet instanceLabels])
  ∧ ∃ evs,
      (main.fixMissingRevisionNumbers
         (mock.cluster (Failed mock.notFound) mock.gone (Found mock.graph)
            (λ _ _, Some mock.conflict) mock.idle) mock.pko []).2
      = [] ++ CallList KClusterObjectSet instanceLabels :: evs
      ∧ evs = [CallStatusPatch
                 (OClusterObjectSet (mock.objectSet "B" ["A"] 2 "Pending"))].
Proof.
  split.
  - destruct (fixMissingRevisionNumbers_stops_at_first_failure
                (mock.cluster (Failed mock.notFound) mock.gone
                   (Failed mock.timeout) mock.allWritesSucceed mock.idle)
                mock.pko []) as [Hlist _].
    exact (Hlist mock.timeout eq_refl).
  - destruct (fixMissingRevisionNumbers_stops_at_first_failure
                (mock.cluster (Failed mock.notFound) mock.gone
                   (Found mock.graph) (λ _ _, Some mock.conflict) mock.idle)
                mock.pko []) as [_ Hpatch].
    destruct (Hpatch mock.graph eq_refl) as (evs & Htr & _).
    exists evs. split; [exact Htr|].
    cbn in Htr. by injection Htr as <-.
Defined.

(** A repair whose calls all succeed and whose references resolve. *)
Lemma repair_final (env : Env) (b : main.bootstrapper) (tr : Trace)
    (items : list ClusterObjectSet) :
  answerListCOS env tr instanceLabels = Found items →
  (∀ tr' cos, answerWrite env tr' (CallStatusPatch (OClusterObjectSet cos))
              = None) →
  referencesResolve items →
  ∃ final,
    main.fixMissingRevisionNumbers_items env b tr
    = (Returned (final, None),
       tr ++ CallList KClusterObjectSet instanceLabels
          :: patchCalls items final)
    ∧ length final = length items
    ∧ ∀ i cos, items !! i = Some cos →
        if main.looksStuck cos
        then ∃ revs,
            previousRevisions (main.indexByName items)
              (visited i items final) (cosPrevious cos) = Some revs
            ∧ final !! i
              = Some (setRevision (int64_add (maxRevision revs) 1) cos)
        else final !! i = Some cos.
Proof.
  intros Hlist Hpatch Hres.
  destruct (repairLoop_run env (main.indexByName items) Hpatch
              (length items) 0%nat items
              (tr ++ [CallList KClusterObjectSet instanceLabels]))
    as (final & Hrun & Hlen & _ & Hall); [done| |].
  { intros i cos prev _ Hcos Hstuck Hprev. apply indexByName_resolves.
    apply (Hres cos prev); [|done..].
    apply list_elem_of_lookup. by exists i. }
  rewrite !drop_0 in Hrun. exists final. split; [|split; [done|]].
  - rewrite fixMissingRevisionNumbers_items_run, Hlist, Hrun.
    by rewrite app_assoc_cons.
  - intros i cos Hcos. apply Hall; [lia|done].
Qed.

Lemma repairLoop_healthy (env : Env) (cosByName : gmap string nat) :
  ∀ (n k : nat) (mem : list ClusterObjectSet) (tr : Trace),
    length mem = (k + n)%nat →
    Forall (λ cos, main.looksStuck cos = false) mem →
    main.repairLoop env cosByName (seq k n) mem tr
    = (Returned (mem, None), tr).
Proof.
  induction n as [|n IH]; intros k mem tr Hlen Hok; [done|].
  destruct (lookup_lt_is_Some_2 mem k) as [cos Hcos]; [lia|].
  cbn [seq main.repairLoop]. rewrite Hcos.
  rewrite (proj1 (Forall_lookup _ _) Hok k cos Hcos).
  apply IH; [lia|done].
Qed.

Lemma wrap64_range (z : Z) : - 2 ^ 63 ≤ wrap64 z < 2 ^ 63.
Proof.
  unfold wrap64.
  pose proof (Z.mod_pos_bound (z + 2 ^ 63) (2 ^ 64) ltac:(lia)). lia.
Qed.

Lemma int64_add_1_nonzero (m : Z) :
  0 ≤ m ≤ MaxInt64 → int64_add m 1 ≠ 0.
Proof.
  intros Hm. destruct (decide (m = MaxInt64)) as [->|Hne].
  - by vm_compute.
  - rewrite int64_add_1_exact by lia. lia.
Qed.

Lemma setRevision_not_stuck (r : Z) (cos : ClusterObjectSet) :
  r ≠ 0 → main.looksStuck (setRevision r cos) = false.
Proof.
  intros Hr. unfold main.looksStuck. cbn.
  by rewrite (proj2 (Z.eqb_neq r 0) Hr).
Qed.

Lemma previousRevisions_from (cosByName : gmap string nat)
    (mem : list ClusterObjectSet) (prevs : list PreviousRevisionReference)
    (revs : list Z) (r : Z) :
  previousRevisions cosByName mem prevs = Some revs → r ∈ revs →
  ∃ prev j cos, prev ∈ prevs ∧ cosByName !! prevName prev = Some j
                ∧ mem !! j = Some cos ∧ cosRevision cos = r.
Proof.
  intros Hrevs%previousRevisions_Some [i Hi]%list_elem_of_lookup.
  destruct (Forall2_lookup_r _ _ _ _ _ Hrevs Hi) as (prev & Hprev & Hr).
  unfold main.derefRevision in Hr.
  destruct (cosByName !! prevName prev) as [j|] eqn:Hj; [|done].
  cbn in Hr. destruct (mem !! j) as [cos|] eqn:Hcos; [|done].
  cbn in Hr. injection Hr as <-.
  exists prev, j, cos. repeat split; [|done..].
  apply list_elem_of_lookup. by exists i.
Qed.

Lemma visited_from (i j : nat) (items final : list ClusterObjectSet)
    (cos : ClusterObjectSet) :
  length final = length items → (i ≤ length items)%nat →
  visited i items final !! j = Some cos →
  final !! j = Some cos ∨ items !! j = Some cos.
Proof.
  intros Hlen Hi. rewrite visited_lookup by done.
  destruct (decide (j < i)%nat); auto.
Qed.

(** X6.  After a repair whose calls succeed and whose references
    resolve, with the listed revisions in the range of int64, no object
    of the list looks stuck any more; and on a list without an object
    that looks stuck, whatever else the client answers, the repair is the
    list call alone and returns nil.  So the repair of a repaired list
    changes nothing. *)
Theorem fixMissingRevisionNumbers_idempotent (env : Env)
    (b : main.bootstrapper) (tr : Trace) (items : list ClusterObjectSet) :
  answerListCOS env tr instanceLabels = Found items →
  (∀ tr' cos, answerWrite env tr' (CallStatusPatch (OClusterObjectSet cos))
              = None) →
  referencesResolve items →
  (∀ cos, cos ∈ items → cosRevision cos ≤ MaxInt64) →
  ∃ final,
    (main.fixMissingRevisionNumbers_items env b tr).1
    = Returned (final, None)
    ∧ Forall (λ cos, main.looksStuck cos = false) final
    ∧ ∀ env' b' tr',
        answerListCOS env' tr' instanceLabels = Found final →
        main.fixMissingRevisionNumbers env' b' tr'
        = (Returned None,
           tr' ++ [CallList KClusterObjectSet instanceLabels]).
Proof.
  intros Hlist Hpatch Hres Hbound.
  destruct (repair_final env b tr items Hlist Hpatch Hres)
    as (final & Hrun & Hlen & Hall).
  exists final. split; [by rewrite Hrun|].
  assert (Hfinal_bound : ∀ j c, final !! j = Some c → cosRevision c ≤ MaxInt64).
  { intros j c Hc.
    destruct (items !! j) as [cos|] eqn:Hcos.
    2:{ apply lookup_lt_Some in Hc. apply lookup_ge_None in Hcos. lia. }
    specialize (Hall j cos Hcos).
    destruct (main.looksStuck cos).
    - destruct Hall as (revs & _ & Hj). rewrite Hj in Hc. injection Hc as <-.
      cbn. unfold int64_add, MaxInt64.
      pose proof (wrap64_range (maxRevision revs + 1)). lia.
    - rewrite Hall in Hc. injection Hc as <-.
      apply Hbound. apply list_elem_of_lookup. by exists j. }
  assert (Hhealthy : Forall (λ cos, main.looksStuck cos = false) final).
  { apply Forall_lookup. intros i c Hc.
    destruct (items !! i) as [cos|] eqn:Hcos.
    2:{ apply lookup_lt_Some in Hc. apply lookup_ge_None in Hcos. lia. }
    specialize (Hall i cos Hcos).
    destruct (main.looksStuck cos) eqn:Hstuck.
    - destruct Hall as (revs & Hrevs & Hi). rewrite Hi in Hc.
      injection Hc as <-. apply setRevision_not_stuck.
      apply int64_add_1_nonzero.
      assert (0 ≤ maxRevision revs < MaxInt64 + 1); [|lia].
      apply maxRevision_bounds; [done|]. intros r Hr.
      destruct (previousRevisions_from _ _ _ _ _ Hrevs Hr)
        as (prev & j & anc & _ & _ & Hanc & <-).
      apply visited_from in Hanc as [Hanc|Hanc];
        [| |done|apply lookup_lt_Some in Hcos; lia].
      + specialize (Hfinal_bound j anc Hanc). lia.
      + assert (cosRevision anc ≤ MaxInt64); [|lia].
        apply Hbound. apply list_elem_of_lookup. by exists j.
    - rewrite Hall in Hc. by injection Hc as <-. }
  split; [done|]. intros env' b' tr' Hlist'.
  rewrite fixMissingRevisionNumbers_run, fixMissingRevisionNumbers_items_run.
  rewrite Hlist'. by rewrite repairLoop_healthy.
Qed.

Lemma fixMissingRevisionNumbers_idempotent_witness :
  ∃ final,
    (main.fixMissingRevisionNumbers_items (mock.revisions mock.graph)
       mock.pko []).1 = Returned (final, None)
    ∧ main.fixMissingRevisionNumbers (mock.revisions final) mock.pko []
      = (Returned None, [CallList KClusterObjectSet instanceLabels]).
Proof.
  destruct (fixMissingRevisionNumbers_idempotent
              (mock.revisions mock.graph) mock.pko [] mock.graph
              eq_refl (λ _ _, eq_refl))
    as (final & Hrun & _ & Hagain).
  { intros cos prev Hcos Hstuck Hprev. in_cases Hcos; try discriminate Hstuck.
    cbn in Hprev. in_cases Hprev.
    exists (mock.objectSet "A" [] 1 "Available"). split; [by left|done]. }
  { intros cos Hcos. in_cases Hcos; by vm_compute. }
  exists final. split; [exact Hrun|].
  exact (Hagain (mock.revisions final) mock.pko [] eq_refl).
Defined.

Lemma indexFrom_names (l1 l2 : list ClusterObjectSet) :
  (λ cos, Name (cosMeta cos)) <$> l1 = (λ cos, Name (cosMeta cos)) <$> l2 →
  ∀ i m, main.indexFrom i l1 m = main.indexFrom i l2 m.
Proof.
  revert l2. induction l1 as [|c1 l1 IH]; intros [|c2 l2] Hnames i m;
    try done.
  cbn in Hnames. injection Hnames as Hname Hrest. cbn.
  rewrite Hname. by apply IH.
Qed.

Lemma repair_keeps_names (items final : list ClusterObjectSet) :
  length final = length items →
  (∀ i cos, items !! i = Some cos →
     ∃ r, final !! i = Some (setRevision r cos)) →
  main.indexByName final = main.indexByName items.
Proof.
  intros Hlen Hall. apply indexFrom_names. apply list_eq. intros i.
  rewrite !list_lookup_fmap.
  destruct (items !! i) as [cos|] eqn:Hcos.
  - destruct (Hall i cos Hcos) as [r ->]. done.
  - apply lookup_ge_None in Hcos.
    rewrite (proj2 (lookup_ge_None final i)); [done|lia].
Qed.

(** X7.  After a repair whose calls succeed, when the previous references
    of the stuck objects resolve to objects that are not stuck themselves
    and the listed revisions are below the largest int64, the revision
    of every repaired object is strictly greater than the revision of
    each of its previous references, looked up by name in the repaired
    list. *)
Theorem fixMissingRevisionNumbers_restores_order (env : Env)
    (b : main.bootstrapper) (tr : Trace) (items : list ClusterObjectSet) :
  answerListCOS env tr instanceLabels = Found items →
  (∀ tr' cos, answerWrite env tr' (CallStatusPatch (OClusterObjectSet cos))
              = None) →
  referencesResolve items →
  ancestorsAssigned items →
  (∀ cos, cos ∈ items → cosRevision cos < MaxInt64) →
  ∃ final,
    (main.fixMissingRevisionNumbers_items env b tr).1
    = Returned (final, None)
    ∧ ∀ i cos prev,
        items !! i = Some cos → main.looksStuck cos = true →
        prev ∈ cosPrevious cos →
        ∃ cos' r,
          final !! i = Some cos'
          ∧ main.derefRevision (main.indexByName final) final (prevName prev)
            = Some r
          ∧ r < cosRevision cos'.
Proof.
  intros Hlist Hpatch Hres Hanc Hbound.
  destruct (repair_final env b tr items Hlist Hpatch Hres)
    as (final & Hrun & Hlen & Hall).
  exists final. split; [by rewrite Hrun|].
  assert (Hidx : main.indexByName final = main.indexByName items).
  { apply repair_keeps_names; [done|]. intros i cos Hcos.
    specialize (Hall i cos Hcos). destruct (main.looksStuck cos).
    - destruct Hall as (revs & _ & Hi). by eexists.
    - exists (cosRevision cos). by destruct cos. }
  (* an ancestor of a stuck object is the same before, during and after *)
  assert (Hsame : ∀ i cos prev j,
            items !! i = Some cos → main.looksStuck cos = true →
            prev ∈ cosPrevious cos →
            main.indexByName items !! prevName prev = Some j →
            ∃ anc, items !! j = Some anc ∧ final !! j = Some anc
                   ∧ visited i items final !! j = Some anc).
  { intros i cos prev j Hcos Hstuck Hprev Hj.
    destruct (indexByName_sound items _ j Hj) as (anc & Hanc_j & Hname).
    assert (Hfree : main.looksStuck anc = false).
    { apply (Hanc cos prev anc); try done;
        apply list_elem_of_lookup; by eexists. }
    pose proof (Hall j anc Hanc_j) as Hj'. rewrite Hfree in Hj'.
    exists anc. repeat split; [done..|].
    rewrite visited_lookup; [|done|apply lookup_lt_Some in Hcos; lia].
    by destruct (decide (j < i)%nat). }
  intros i cos prev Hcos Hstuck Hprev.
  pose proof (Hall i cos Hcos) as Hi. rewrite Hstuck in Hi.
  destruct Hi as (revs & Hrevs & Hi).
  destruct (Hres cos prev) as (anc0 & Hanc0 & Hname0); [|done..|].
  { apply list_elem_of_lookup. by exists i. }
  destruct (indexByName_resolves items (prevName prev)) as (j & Hj & _);
    [by exists anc0|].
  destruct (Hsame i cos prev j Hcos Hstuck Hprev Hj)
    as (anc & Hanc_j & Hfinal_j & Hvis_j).
  exists (setRevision (int64_add (maxRevision revs) 1) cos), (cosRevision anc).
  split; [done|]. split.
  { unfold main.derefRevision. rewrite Hidx, Hj. cbn. by rewrite Hfinal_j. }
  cbn.
  assert (Hmax : 0 ≤ maxRevision revs < MaxInt64).
  { apply maxRevision_bounds; [done|]. intros r Hr.
    destruct (previousRevisions_from _ _ _ _ _ Hrevs Hr)
      as (prev' & j' & c' & Hprev' & Hj' & Hc' & <-).
    destruct (Hsame i cos prev' j' Hcos Hstuck Hprev' Hj')
      as (anc' & Hanc' & _ & Hvis').
    rewrite Hvis' in Hc'. injection Hc' as <-.
    apply Hbound. apply list_elem_of_lookup. by exists j'. }
  rewrite int64_add_1_exact by done.
  assert (cosRevision anc ≤ maxRevision revs); [|lia].
  apply maxRevision_is_maximum.
  apply previousRevisions_Some in Hrevs.
  apply list_elem_of_lookup in Hprev as [n Hn].
  destruct (Forall2_lookup_l _ _ _ _ _ Hrevs Hn) as (r & Hr & Hderef).
  unfold main.derefRevision in Hderef. rewrite Hj in Hderef. cbn in Hderef.
  rewrite Hvis_j in Hderef. cbn in Hderef. injection Hderef as <-.
  apply list_elem_of_lookup. by exists n.
Qed.

Lemma fixMissingRevisionNumbers_restores_order_witness :
  ∃ final cos' r,
    (main.fixMissingRevisionNumbers_items (mock.revisions mock.graph)
       mock.pko []).1 = Returned (final, None)
    ∧ final !! 1%nat = Some cos'
    ∧ main.derefRevision (main.indexByName final) final "A" = Some r
    ∧ r < cosRevision cos'.
Proof.
  destruct (fixMissingRevisionNumbers_restores_order
              (mock.revisions mock.graph) mock.pko [] mock.graph
              eq_refl (λ _ _, eq_refl))
    as (final & Hrun & Horder).
  { intros cos prev Hcos Hstuck Hprev. in_cases Hcos; try discriminate Hstuck.
    cbn in Hprev. in_cases Hprev.
    exists (mock.objectSet "A" [] 1 "Available"). split; [by left|done]. }
  { intros cos prev anc Hcos Hstuck Hprev Hanc Hname.
    in_cases Hcos; try discriminate Hstuck.
    cbn in Hprev. in_cases Hprev. in_cases Hanc; try discriminate Hname.
    reflexivity. }
  { intros cos Hcos. in_cases Hcos; by vm_compute. }
  destruct (Horder 1%nat (mock.objectSet "B" ["A"] 0 "Pending")
              {| prevName := "A" |} eq_refl eq_refl)
    as (cos' & r & Hcos' & Hr & Hlt); [by left|].
  by exists final, cos', r.
Defined.

(** ** More on the forced cleanup *)

Ltac emits_step :=
  match goal with
  | |- Emits _ (mret _) => apply Emits_ret
  | |- Emits _ (panic _) => apply Emits_panic
  | |- Emits _ (ask _ _) => apply Emits_ask
  | |- Emits _ (mbind _ _) => apply Emits_bind; [|intros ?]
  | |- Emits _ (match ?x with _ => _ end) => destruct x
  end.

Ltac emits :=
  unfold Create, Update, Patch, Delete, Status_Update, Status_Patch,
    Get_Package, Get_Deployment, Get_ClusterObjectDeployment,
    Get_ClusterObjectSet, Get_Unstructured,
    List_ClusterObjectDeployment, List_ClusterObjectSet, write;
  repeat emits_step.

Lemma objWithFinalizers_same (fs : list string) (o : Object) :
  kindOf (objWithFinalizers fs o) = kindOf o
  ∧ ObjectKeyFromObject (objWithFinalizers fs o) = ObjectKeyFromObject o
  ∧ Finalizers (objMeta (objWithFinalizers fs o)) = fs.
Proof. by destruct o. Qed.

Lemma Emits_Get (P : Call → Prop) (env : Env) (key : ObjectKey) (obj : Object) :
  (∀ k, P (CallGet k key)) → Emits P (Get env key obj).
Proof. intros HP. unfold Get. destruct obj; emits; apply HP. Qed.

Lemma deleteStuck_emits (env : Env) (what : string) (obj : Object) :
  Emits cleanupCall (main.deleteStuck env what obj).
Proof.
  unfold main.deleteStuck. emits; try done.
  - apply objWithFinalizers_same.
  - by apply Emits_Get.
  - by apply Emits_Get.
Qed.

Lemma deleteStuckEach_emits (env : Env) (what : string) (objs : list Object) :
  Emits cleanupCall (main.deleteStuckEach env what objs).
Proof.
  induction objs as [|obj rest IH]; cbn [main.deleteStuckEach].
  - apply Emits_ret.
  - apply Emits_bind; [apply deleteStuck_emits|].
    intros [e|]; [apply Emits_ret|done].
Qed.

Lemma forcedCleanup_owned_emits (env : Env) :
  Emits cleanupCall (main.forcedCleanup_owned env).
Proof.
  unfold main.forcedCleanup_owned.
  apply Emits_bind; [apply Emits_ask; cbn; auto|].
  intros [cods|e]; [|apply Emits_ret].
  apply Emits_bind; [apply deleteStuckEach_emits|].
  intros [e|]; [apply Emits_ret|].
  apply Emits_bind; [apply Emits_ask; cbn; auto|].
  intros [sets|e]; [|apply Emits_ret].
  apply deleteStuckEach_emits.
Qed.

Lemma forcedCleanup_emits (env : Env) (b : main.bootstrapper) (pkg : Package) :
  Emits cleanupCall (main.forcedCleanup env b pkg).
Proof.
  unfold main.forcedCleanup.
  apply Emits_bind; [apply deleteStuck_emits|].
  intros [e|]; [apply Emits_ret|apply forcedCleanup_owned_emits].
Qed.

(** X8.  Whatever the client answers, forcedCleanup returns (it does not
    panic) and calls nothing but Delete, Get, the two Lists of the owned
    objects, and Update of an object whose finalizer list it has emptied:
    it never creates or patches, and no Update of it carries a
    finalizer. *)
Theorem forcedCleanup_calls (env : Env) (b : main.bootstrapper)
    (pkg : Package) (tr : Trace) :
  let out := main.forcedCleanup env b pkg tr in
  (∃ err, out.1 = Returned err)
  ∧ Forall cleanupCall (newCalls tr out).
Proof.
  intros out. split.
  - destruct (forcedCleanup_stops env b pkg tr) as (evs & _ & Hout).
    fold out in Hout. destruct out.1 as [err|msg]; [by exists err|done].
  - apply Emits_newCalls, forcedCleanup_emits.
Qed.

Lemma deleteStuck_success (env : Env) (what : string) (obj : Object)
    (tr : Trace) :
  (main.deleteStuck env what obj tr).1 = Returned None →
  (main.deleteStuck env what obj tr).2 = tr ++ cleanupBlock obj.
Proof.
  unfold main.deleteStuck, cleanupBlock. go_unfold.
  destruct (answerWrite env tr (CallDelete obj)) as [e|]; [done|].
  destruct (0 <? length (Finalizers (objMeta obj)))%nat.
  - set (obj0 := objWithFinalizers [] obj).
    destruct (answerWrite env (tr ++ [CallDelete obj]) (CallUpdate obj0))
      as [e|]; [done|].
    destruct (Get_run env (ObjectKeyFromObject obj0) obj0
                ((tr ++ [CallDelete obj]) ++ [CallUpdate obj0]))
      as [obj' ->].
    destruct (objWithFinalizers_same [] obj) as (Hk & Hkey & _).
    fold obj0 in Hk, Hkey. rewrite Hk, Hkey.
    destruct (IsNotFound _); cbn [negb fst snd].
    + intros _. by flat.
    + by destruct (getError _ _ _ _).
  - destruct (Get_run env (ObjectKeyFromObject obj) obj
                (tr ++ [CallDelete obj])) as [obj' ->].
    destruct (IsNotFound _); cbn [negb fst snd].
    + intros _. by flat.
    + by destruct (getError _ _ _ _).
Qed.

Lemma deleteStuckEach_success (env : Env) (what : string)
    (objs : list Object) :
  ∀ tr, (main.deleteStuckEach env what objs tr).1 = Returned None →
        (main.deleteStuckEach env what objs tr).2
        = tr ++ (objs ≫= cleanupBlock).
Proof.
  induction objs as [|obj rest IH]; intros tr.
  - cbn. by rewrite app_nil_r.
  - cbn [main.deleteStuckEach mbind list_bind]. unfold mbind at 1 2, Go_bind.
    pose proof (deleteStuck_success env what obj tr) as Hblock.
    destruct (main.deleteStuck env what obj tr) as [[[e|]|msg] tr1];
      [done| |done].
    cbn [fst snd] in Hblock. rewrite (Hblock eq_refl).
    intros Hrest. rewrite (IH _ Hrest). by rewrite app_assoc.
Qed.

(** X9.  A run of forcedCleanup that returns nil went through the three
    steps in order and completed each before the next: the
    ClusterPackage is deleted, released and found gone, then the owned
    ClusterObjectDeployments are listed and each in turn is deleted,
    released and found gone, and only then the owned ClusterObjectSets
    are listed and treated the same way. *)
Theorem forcedCleanup_order (env : Env) (b : main.bootstrapper)
    (pkg : Package) (tr : Trace) :
  (main.forcedCleanup env b pkg tr).1 = Returned None →
  ∃ cods sets,
    let tr1 := tr ++ cleanupBlock (OPackage pkg) in
    let tr2 :=
      tr1 ++ CallList KClusterObjectDeployment main.ownedLabels
          :: ((OClusterObjectDeployment <$> cods) ≫= cleanupBlock) in
    answerListCOD env tr1 main.ownedLabels = Found cods
    ∧ answerListCOS env tr2 main.ownedLabels = Found sets
    ∧ (main.forcedCleanup env b pkg tr).2
      = tr2 ++ CallList KClusterObjectSet main.ownedLabels
            :: ((OClusterObjectSet <$> sets) ≫= cleanupBlock).
Proof.
  destruct (main.forcedCleanup env b pkg tr) as [out tr'] eqn:Hrun.
  cbn [fst snd]. intros ->. revert Hrun.
  unfold main.forcedCleanup. unfold mbind at 1, Go_bind.
  pose proof (deleteStuck_success env "ClusterPackage" (OPackage pkg) tr)
    as Hblock.
  destruct (main.deleteStuck env "ClusterPackage" (OPackage pkg) tr)
    as [[[e|]|msg] tr1]; [done| |done].
  cbn [fst snd] in Hblock. rewrite (Hblock eq_refl). clear Hblock tr1.
  set (tr1 := tr ++ cleanupBlock (OPackage pkg)).
  unfold main.forcedCleanup_owned. go_unfold.
  destruct (answerListCOD env tr1 main.ownedLabels) as [cods|e]; [|done].
  pose proof (deleteStuckEach_success env "ClusterObjectDeployment"
                (OClusterObjectDeployment <$> cods)
                (tr1 ++ [CallList KClusterObjectDeployment main.ownedLabels]))
    as Hcods.
  destruct (main.deleteStuckEach env "ClusterObjectDeployment" _ _)
    as [[[e|]|msg] tr2]; [done| |done].
  cbn [fst snd] in Hcods. rewrite (Hcods eq_refl). clear Hcods tr2.
  rewrite app_assoc_cons.
  set (tr2 := tr1 ++ _ :: _).
  destruct (answerListCOS env tr2 main.ownedLabels) as [sets|e] eqn:Hsets;
    [|done].
  intros Hrun. exists cods, sets. cbn zeta. fold tr1. fold tr2.
  split; [done|]. split; [done|].
  pose proof (deleteStuckEach_success env "ClusterObjectSet"
                (OClusterObjectSet <$> sets)
                (tr2 ++ [CallList KClusterObjectSet main.ownedLabels]))
    as Hlast.
  rewrite Hrun in Hlast. cbn [fst snd] in Hlast.
  rewrite (Hlast eq_refl). by rewrite app_assoc_cons.
Qed.

Lemma forcedCleanup_order_witness :
  (main.forcedCleanup
     (mock.revisions [mock.objectSet "package-operator-1" [] 1 "Available"])
     mock.pko (mock.installed ["package-operator.run/cached"]) []).2
  = [ CallDelete (OPackage (mock.installed ["package-operator.run/cached"]));
      CallUpdate (OPackage (mock.installed []));
      CallGet KPackage mock.request;
      CallList KClusterObjectDeployment main.ownedLabels;
      CallList KClusterObjectSet main.ownedLabels;
      CallDelete
        (OClusterObjectSet
           (mock.objectSet "package-operator-1" [] 1 "Available"));
      CallGet KClusterObjectSet
        {| keyNamespace := ""; keyName := "package-operator-1" |} ].
Proof.
  destruct (forcedCleanup_order
              (mock.revisions
                 [mock.objectSet "package-operator-1" [] 1 "Available"])
              mock.pko (mock.installed ["package-operator.run/cached"]) []
              eq_refl)
    as (cods & sets & Hcods & Hsets & Htrace).
  cbn zeta in *. rewrite Htrace.
  injection Hcods as <-. injection Hsets as <-. reflexivity.
Defined.

(** ** Bootstrap over an existing installation *)

Lemma Get_failed (env : Env) (key : ObjectKey) (obj obj' : Object)
    (e : error) (tr : Trace) :
  (Get env key obj tr).1 = Returned (obj', Some e) → obj' = obj.
Proof.
  unfold Get. destruct obj; go_unfold; cbn [fst];
    match goal with |- context [decoded _ _ ?r] => destruct r end;
    cbn; congruence.
Qed.

Lemma deleteStuck_obj_emits (env : Env) (what : string) (obj : Object) :
  Emits cleanupCall (main.deleteStuck_obj env what obj).
Proof.
  unfold main.deleteStuck_obj. emits; try done.
  - apply objWithFinalizers_same.
  - by apply Emits_Get.
  - by apply Emits_Get.
Qed.

Lemma deleteStuck_obj_kept (env : Env) (what : string) (obj obj' : Object)
    (tr : Trace) :
  (main.deleteStuck_obj env what obj tr).1 = Returned (obj', None) →
  obj' = obj ∨ obj' = objWithFinalizers [] obj.
Proof.
  unfold main.deleteStuck_obj. go_unfold.
  destruct (answerWrite env tr (CallDelete obj)) as [e|]; [by cbn|].
  destruct (0 <? length (Finalizers (objMeta obj)))%nat.
  - set (obj0 := objWithFinalizers [] obj).
    destruct (answerWrite env _ (CallUpdate obj0)) as [e|]; [by cbn|].
    destruct (Get env (ObjectKeyFromObject obj0) obj0 _)
      as [[[o err]|msg] tr1] eqn:HG; [|done].
    destruct (IsNotFound err) eqn:Hnf; cbn [negb fst];
      [|by destruct err].
    destruct err as [e|]; [|done]. intros [= <-]. right.
    eapply Get_failed. by rewrite HG.
  - destruct (Get env (ObjectKeyFromObject obj) obj _)
      as [[[o err]|msg] tr1] eqn:HG; [|done].
    destruct (IsNotFound err) eqn:Hnf; cbn [negb fst];
      [|by destruct err].
    destruct err as [e|]; [|done]. intros [= <-]. left.
    eapply Get_failed. by rewrite HG.
Qed.

Lemma needsForcedCleanup_emits (env : Env) (b : main.bootstrapper) :
  Emits cleanupCall (main.needsForcedCleanup env b).
Proof.
  intros tr. rewrite needsForcedCleanup_run. cbn zeta.
  exists [CallGet KDeployment (deploymentKey (main.pkoNamespace b))].
  split; [done|]. by apply Forall_singleton.
Qed.

Lemma nukeIfNeeded_obj_emits (env : Env) (b : main.bootstrapper)
    (pkg : Package) :
  Emits cleanupCall (main.nukeIfNeeded_obj env b pkg).
Proof.
  unfold main.nukeIfNeeded_obj.
  apply Emits_bind; [apply needsForcedCleanup_emits|].
  intros [needsNuke [e|]]; [apply Emits_ret|].
  destruct needsNuke; [|apply Emits_ret].
  apply Emits_bind.
  - unfold main.forcedCleanup_obj.
    apply Emits_bind; [apply deleteStuck_obj_emits|].
    intros [obj [e|]]; [apply Emits_ret|].
    apply Emits_bind; [apply forcedCleanup_owned_emits|].
    intros err. apply Emits_ret.
  - intros [pkg' [e|]]; apply Emits_ret.
Qed.

Lemma nukeIfNeeded_obj_kept (env : Env) (b : main.bootstrapper)
    (pkg pkg' : Package) (tr : Trace) :
  (main.nukeIfNeeded_obj env b pkg tr).1 = Returned (pkg', None) →
  pkg' = pkg ∨ pkg' = pkgWithFinalizers [] pkg.
Proof.
  unfold main.nukeIfNeeded_obj. unfold mbind at 1, Go_bind.
  rewrite needsForcedCleanup_run. cbn zeta.
  set (probed := tr ++ _).
  assert (∃ needsNuke err,
            match answerGetDeployment env tr
                    (deploymentKey (main.pkoNamespace b)) with
            | Found deploy =>
                (bool_decide
                   (Exists (isAvailable ConditionFalse)
                      (depConditions deploy)), None)
            | Failed e =>
                if IsNotFound (Some e) then (true, None) else (false, Some e)
            end = (needsNuke, err)) as (needsNuke & err & ->)
    by (by eexists _, _; apply surjective_pairing).
  destruct err as [e|]; [by cbn|].
  destruct needsNuke; [|by intros [= <-]; left].
  unfold main.forcedCleanup_obj. unfold mbind at 1 2, Go_bind.
  pose proof (deleteStuck_obj_kept env "ClusterPackage" (OPackage pkg)) as Hk.
  destruct (main.deleteStuck_obj env "ClusterPackage" (OPackage pkg) probed)
    as [[[obj [e|]]|msg] tr1] eqn:Hd; [by cbn| |done].
  specialize (Hk obj probed). rewrite Hd in Hk. specialize (Hk eq_refl).
  unfold mbind, Go_bind.
  destruct (main.forcedCleanup_owned env tr1) as [[[e|]|msg] tr2];
    [by cbn| |done].
  cbn. intros [= <-]. destruct Hk as [->| ->]; auto.
Qed.

(** The two encodings of nukeIfNeeded agree on the error and on the
    calls. *)
Lemma deleteStuck_obj_agrees (env : Env) (what : string) (obj : Object)
    (tr : Trace) :
  main.deleteStuck env what obj tr
  = (match (main.deleteStuck_obj env what obj tr).1 with
     | Returned (_, err) => Returned err
     | Panicked msg => Panicked msg
     end, (main.deleteStuck_obj env what obj tr).2).
Proof.
  unfold main.deleteStuck, main.deleteStuck_obj. go_unfold.
  destruct (answerWrite env tr (CallDelete obj)) as [e|]; [done|].
  destruct (0 <? length (Finalizers (objMeta obj)))%nat.
  - destruct (answerWrite env _ (CallUpdate _)) as [e|]; [done|].
    destruct (Get env _ _ _) as [[[o err]|msg] tr1]; [|done].
    by destruct (negb (IsNotFound err)).
  - destruct (Get env _ _ _) as [[[o err]|msg] tr1]; [|done].
    by destruct (negb (IsNotFound err)).
Qed.

Lemma nukeIfNeeded_obj_agrees (env : Env) (b : main.bootstrapper)
    (pkg : Package) (tr : Trace) :
  main.nukeIfNeeded env b pkg tr
  = (match (main.nukeIfNeeded_obj env b pkg tr).1 with
     | Returned (_, err) => Returned err
     | Panicked msg => Panicked msg
     end, (main.nukeIfNeeded_obj env b pkg tr).2).
Proof.
  unfold main.nukeIfNeeded, main.nukeIfNeeded_obj,
    main.forcedCleanup, main.forcedCleanup_obj.
  unfold mbind, mret, Go_bind, Go_ret.
  destruct (main.needsForcedCleanup env b tr)
    as [[[needsNuke [e|]]|msg] tr1]; [done| |done].
  destruct needsNuke; [|done].
  rewrite deleteStuck_obj_agrees.
  destruct (main.deleteStuck_obj env "ClusterPackage" (OPackage pkg) tr1)
    as [[[obj [e|]]|msg] tr2]; [done| |done].
  cbn [fst snd].
  by destruct (main.forcedCleanup_owned env tr2) as [[[e|]|msg] tr3].
Qed.

Lemma fixMissingRevisionNumbers_emits (env : Env) (b : main.bootstrapper) :
  Emits repairCall (main.fixMissingRevisionNumbers env b).
Proof.
  intros tr. rewrite fixMissingRevisionNumbers_run.
  rewrite fixMissingRevisionNumbers_items_run. cbn [snd].
  destruct (answerListCOS env tr instanceLabels) as [items|e].
  - destruct (repairLoop_calls env (main.indexByName items) items
                (length items) 0%nat items
                (tr ++ [CallList KClusterObjectSet instanceLabels]))
      as (evs & -> & Hall & _); [done..|].
    exists (CallList KClusterObjectSet instanceLabels :: evs).
    rewrite app_assoc_cons. split; [done|]. constructor; [done|].
    eapply Forall_impl; [exact Hall|].
    by intros c (cos & r & -> & _).
  - exists [CallList KClusterObjectSet instanceLabels]. split; [done|].
    by apply Forall_singleton.
Qed.

(** X10.  When the Get of the self-managed ClusterPackage succeeds,
    Bootstrap never self-installs: what it does is the same whatever
    loader, environment setter and manager it was given, and after the
    Get it makes calls of the cleanup cascade and of the revision repair
    only, followed by at most one Patch.  The Patch is its last call and
    sends the fetched object, or that object with its finalizers emptied,
    which is how the cascade leaves it, with the image and the
    configuration of this bootstrapper; its answer is what Bootstrap
    returns.  Without the Patch, Bootstrap does not return nil. *)
Theorem Bootstrap_upgrades_in_place (env : Env) (label : string)
    {Files PackageContent : Type}
    (loadFiles : string → Go (Reply Files))
    (loader_FromFiles : Files → Go (Reply PackageContent))
    (TemplateSpecFromPackage : PackageContent → ObjectSetTemplateSpec)
    (Setenv : string → string → option error)
    (runManager : Go (option error))
    (b : main.bootstrapper) (tr : Trace) (pkg : Package) :
  answerGetPackage env tr packageKey = Found pkg →
  let out :=
    main.Bootstrap env label loadFiles loader_FromFiles
      TemplateSpecFromPackage Setenv runManager b tr in
  (∀ (loadFiles' : string → Go (Reply Files))
     (loader_FromFiles' : Files → Go (Reply PackageContent))
     (TemplateSpecFromPackage' : PackageContent → ObjectSetTemplateSpec)
     (Setenv' : string → string → option error)
     (runManager' : Go (option error)),
     main.Bootstrap env label loadFiles' loader_FromFiles'
       TemplateSpecFromPackage' Setenv' runManager' b tr = out)
  ∧ ∃ evs,
      newCalls tr out = CallGet KPackage packageKey :: evs
      ∧ ((Forall (λ c, cleanupCall c ∨ repairCall c) evs
          ∧ out.1 ≠ Returned None)
         ∨ ∃ pre base,
             let patch := CallPatch (OPackage (upgraded env b base)) in
             evs = pre ++ [patch]
             ∧ Forall (λ c, cleanupCall c ∨ repairCall c) pre
             ∧ (base = pkg ∨ base = pkgWithFinalizers [] pkg)
             ∧ out.1
               = Returned
                   (answerWrite env (tr ++ CallGet KPackage packageKey :: pre)
                      patch)).
Proof.
  intros Hget out. split.
  { intros. subst out. unfold main.Bootstrap. go_unfold.
    fold packageKey. by rewrite Hget. }
  subst out. unfold main.Bootstrap.
  unfold mbind, mret, Go_bind, Go_ret, Get_Package, ask. fold packageKey.
  rewrite Hget. set (tr0 := tr ++ [CallGet KPackage packageKey]).
  destruct (nukeIfNeeded_obj_emits env b pkg tr0) as (evs1 & Htr1 & H1).
  pose proof (nukeIfNeeded_obj_kept env b pkg) as Hkept.
  destruct (main.nukeIfNeeded_obj env b pkg tr0)
    as [[[base [e|]]|msg] tr1] eqn:Hnuke; cbn [snd] in Htr1; subst tr1.
  - exists evs1. subst tr0. rewrite <- app_assoc. cbn [app].
    rewrite newCalls_app. split; [done|]. left.
    split; [|done]. eapply Forall_impl; [exact H1|]. auto.
  - specialize (Hkept base tr0). rewrite Hnuke in Hkept.
    specialize (Hkept eq_refl).
    destruct (fixMissingRevisionNumbers_emits env b (tr0 ++ evs1))
      as (evs2 & Htr2 & H2).
    destruct (main.fixMissingRevisionNumbers env b (tr0 ++ evs1))
      as [[[e|]|msg] tr2]; cbn [snd] in Htr2; subst tr2.
    + exists (evs1 ++ evs2). subst tr0. rewrite <- !app_assoc. cbn [app].
      rewrite newCalls_app. split; [done|]. left. split; [|done].
      apply Forall_app. split; (eapply Forall_impl; [eassumption|]); auto.
    + exists ((evs1 ++ evs2)
              ++ [CallPatch (OPackage (upgraded env b base))]).
      unfold main.updatePKOPackage, Patch, write, ask.
      fold (upgraded env b base). subst tr0. rewrite <- !app_assoc.
      cbn [app]. rewrite newCalls_app. split; [done|].
      right. exists (evs1 ++ evs2), base. cbn zeta.
      split; [by rewrite <- app_assoc|].
      split.
      { apply Forall_app. split; (eapply Forall_impl; [eassumption|]); auto. }
      done.
    + exists (evs1 ++ evs2). subst tr0. rewrite <- !app_assoc. cbn [app].
      rewrite newCalls_app. split; [done|]. left. split; [|done].
      apply Forall_app. split; (eapply Forall_impl; [eassumption|]); auto.
  - exists evs1. subst tr0. rewrite <- app_assoc. cbn [app].
    rewrite newCalls_app. split; [done|]. left.
    split; [|done]. eapply Forall_impl; [exact H1|]. auto.
Qed.

Lemma Bootstrap_upgrades_in_place_witness :
  let env :=
    mock.serving (mock.installed ["package-operator.run/cached"])
      mock.allWritesSucceed mock.idle in
  let out :=
    main.Bootstrap env "package-operator.run/cache"
      (λ _ : string, mret (Failed mock.timeout : Reply unit))
      (λ _ : unit, mret (Failed mock.timeout : Reply unit))
      (λ _ : unit, {| tplPhases := [] |})
      (λ _ _, None) (mret None) mock.pko [] in
  ∃ evs,
    newCalls [] out = CallGet KPackage packageKey :: evs
    ∧ ((Forall (λ c, cleanupCall c ∨ repairCall c) evs
        ∧ out.1 ≠ Returned None)
       ∨ ∃ pre base,
           let patch := CallPatch (OPackage (upgraded env mock.pko base)) in
           evs = pre ++ [patch]
           ∧ Forall (λ c, cleanupCall c ∨ repairCall c) pre
           ∧ (base = mock.installed ["package-operator.run/cached"]
              ∨ base
                = pkgWithFinalizers []
                    (mock.installed ["package-operator.run/cached"]))
           ∧ out.1
             = Returned
                 (answerWrite env ([] ++ CallGet KPackage packageKey :: pre)
                    patch)).
Proof.
  exact (proj2
           (Bootstrap_upgrades_in_place
              (mock.serving (mock.installed ["package-operator.run/cached"])
                 mock.allWritesSucceed mock.idle)
              "package-operator.run/cache"
              (λ _ : string, mret (Failed mock.timeout : Reply unit))
              (λ _ : unit, mret (Failed mock.timeout : Reply unit))
              (λ _ : unit, {| tplPhases := [] |})
              (λ _ _, None) (mret None) mock.pko []
              (mock.installed ["package-operator.run/cached"]) eq_refl)).
Defined.

(** ** Bootstrap on a cluster without installation *)

(** X11.  When the Get of the self-managed ClusterPackage fails,
    Bootstrap looks at the error.  An error that is neither NotFound nor
    a missing kind ends Bootstrap at once: the Get stays its only call,
    nothing is loaded or created, and the error is returned under the
    message "error looking up Package Operator ClusterPackage".  On
    NotFound, and as well when the API server does not know the kind
    ClusterPackage yet, Bootstrap is the self-installation run after the
    Get; an error of loading the files under /package or of parsing them
    is then returned as it is. *)
Theorem Bootstrap_lookup_failure (env : Env) (label : string)
    {Files PackageContent : Type}
    (loadFiles : string → Go (Reply Files))
    (loader_FromFiles : Files → Go (Reply PackageContent))
    (TemplateSpecFromPackage : PackageContent → ObjectSetTemplateSpec)
    (Setenv : string → string → option error)
    (runManager : Go (option error))
    (b : main.bootstrapper) (tr : Trace) (e : error) :
  answerGetPackage env tr packageKey = Failed e →
  let out :=
    main.Bootstrap env label loadFiles loader_FromFiles
      TemplateSpecFromPackage Setenv runManager b tr in
  let tr0 := tr ++ [CallGet KPackage packageKey] in
  (IsNotFound (Some e) = false → IsNoMatchError (Some e) = false →
     out
     = (Returned
          (Some
             (wrapError "error looking up Package Operator ClusterPackage"
                e)),
        tr0))
  ∧ (IsNotFound (Some e) = true ∨ IsNoMatchError (Some e) = true →
     out
     = main.selfBootstrap env label loadFiles loader_FromFiles
         TemplateSpecFromPackage Setenv runManager b tr0
     ∧ (∀ e' tr1,
          loadFiles "/package" tr0 = (Returned (Failed e'), tr1) →
          out = (Returned (Some e'), tr1))
     ∧ (∀ files tr1 e' tr2,
          loadFiles "/package" tr0 = (Returned (Found files), tr1) →
          loader_FromFiles files tr1 = (Returned (Failed e'), tr2) →
          out = (Returned (Some e'), tr2))).
Proof.
  intros Hget out tr0.
  assert (out
          = (if negb (IsNotFound (Some e)) && negb (IsNoMatchError (Some e))
             then
               mret
                 (Errorf "error looking up Package Operator ClusterPackage"
                    (Some e))
             else
               main.selfBootstrap env label loadFiles loader_FromFiles
                 TemplateSpecFromPackage Setenv runManager b) tr0) as Hout.
  { subst out tr0. unfold main.Bootstrap.
    unfold mbind at 1, Go_bind. unfold Get_Package, ask.
    fold packageKey. by rewrite Hget. }
  split.
  - intros Hnf Hnm. by rewrite Hout, Hnf, Hnm.
  - intros Hor.
    assert (negb (IsNotFound (Some e)) && negb (IsNoMatchError (Some e))
            = false) as Htest.
    { destruct Hor as [-> | ->]; [done|]. by rewrite andb_false_r. }
    rewrite Htest in Hout. split; [done|]. split.
    + intros e' tr1 Hload. rewrite Hout. unfold main.selfBootstrap.
      unfold mbind at 1, Go_bind. by rewrite Hload.
    + intros files tr1 e' tr2 Hload Hparse. rewrite Hout.
      unfold main.selfBootstrap.
      unfold mbind at 1, Go_bind. rewrite Hload.
      unfold mbind at 1, Go_bind. by rewrite Hparse.
Qed.

Lemma Bootstrap_lookup_failure_witness :
  main.Bootstrap mock.absent "package-operator.run/cache"
    (λ _ : string, mret (Failed mock.timeout : Reply unit))
    (λ _ : unit, mret (Failed mock.timeout : Reply unit))
    (λ _ : unit, {| tplPhases := [] |})
    (λ _ _, None) (mret None) mock.pko []
  = (Returned (Some mock.timeout), [CallGet KPackage packageKey]).
Proof.
  exact (proj1
           (proj2
              (proj2
                 (Bootstrap_lookup_failure mock.absent
                    "package-operator.run/cache"
                    (λ _ : string, mret (Failed mock.timeout : Reply unit))
                    (λ _ : unit, mret (Failed mock.timeout : Reply unit))
                    (λ _ : unit, {| tplPhases := [] |})
                    (λ _ _, None) (mret None) mock.pko [] mock.notFound
                    eq_refl)
                 (or_introl eq_refl)))
           mock.timeout [CallGet KPackage packageKey] eq_refl).
Defined.

Lemma allAbsorbed_app (env : Env) (calls calls' : list Call) :
  ∀ tr, allAbsorbed env tr (calls ++ calls')
        ↔ allAbsorbed env tr calls ∧ allAbsorbed env (tr ++ calls) calls'.
Proof.
  induction calls as [|c calls IH]; intros tr; cbn [app allAbsorbed].
  - rewrite app_nil_r. tauto.
  - rewrite IH, <- app_assoc. cbn [app]. tauto.
Qed.

Lemma not_absorbed (err : option error) :
  ¬ absorbed err → ∃ e, err = Some e ∧ IsAlreadyExists (Some e) = false.
Proof.
  intros Hnot. destruct err as [e|]; [|by destruct Hnot; left].
  exists e. split; [done|].
  destruct (IsAlreadyExists (Some e)) eqn:H; [|done].
  by destruct Hnot; right.
Qed.

Lemma absorbed_dec (err : option error) : absorbed err ∨ ¬ absorbed err.
Proof.
  unfold absorbed. destruct err as [e|]; [|by left; left].
  destruct (IsAlreadyExists (Some e)); [by left; right|].
  right. by intros [|].
Qed.

(** ensureCRDs either gets every Create absorbed and returns nil, or
    stops at the first Create that is not and returns its error. *)
Lemma ensureCRDs_cases (env : Env) (label : string)
    (crds : list Unstructured) :
  ∀ tr,
    (allAbsorbed env tr (crdCreates label crds)
     ∧ main.ensureCRDs env label crds tr
       = (Returned None, tr ++ crdCreates label crds))
    ∨ (∃ done crd rest e,
         let failing :=
           CallCreate (OUnstructured (main.withCacheLabel label crd)) in
         crds = done ++ crd :: rest
         ∧ allAbsorbed env tr (crdCreates label done)
         ∧ answerWrite env (tr ++ crdCreates label done) failing = Some e
         ∧ IsAlreadyExists (Some e) = false
         ∧ main.ensureCRDs env label crds tr
           = (Returned (Some e), tr ++ crdCreates label done ++ [failing])).
Proof.
  induction crds as [|crd rest IH]; intros tr.
  - left. split; [done|]. cbn. by rewrite app_nil_r.
  - set (c := CallCreate (OUnstructured (main.withCacheLabel label crd))).
    destruct (absorbed_dec (answerWrite env tr c)) as [Habs|Hnot].
    + destruct (IH (tr ++ [c]))
        as [[Hall Hrun]|(done & crd' & rest' & e & -> & Hall & He & Hae & Hrun)].
      * left. split; [by split|].
        cbn [main.ensureCRDs]. go_unfold. fold c.
        rewrite (absorbed_test _ Habs), Hrun.
        cbn [crdCreates fmap list_fmap]. by rewrite <- app_assoc.
      * right. exists (crd :: done), crd', rest', e. cbn zeta in *.
        cbn [crdCreates fmap list_fmap app]. fold c.
        fold (crdCreates label done).
        rewrite <- app_assoc in He. cbn [app] in He.
        split; [done|]. split; [by split|]. split; [done|]. split; [done|].
        cbn [main.ensureCRDs]. go_unfold. fold c.
        rewrite (absorbed_test _ Habs), Hrun.
        by rewrite <- app_assoc.
    + right. destruct (not_absorbed _ Hnot) as (e & He & Hae).
      exists [], crd, rest, e. cbn zeta. cbn [crdCreates fmap list_fmap app].
      rewrite app_nil_r. fold c.
      split; [done|]. split; [done|]. split; [done|]. split; [done|].
      cbn [main.ensureCRDs]. go_unfold. fold c.
      by rewrite He, (not_absorbed_test _ Hae).
Qed.

(** X12.  Once the files under /package are loaded and parsed,
    selfBootstrap creates the CRDs of the package in their order and then
    the ClusterPackage, and goes on as long as each Create succeeds or
    fails with AlreadyExists.  Only when all of them did so, the
    environment variable PKO_FORCE_ADOPTION is set to 1 and the manager
    is run, in a history that holds every one of these Creates; what the
    manager returns is what selfBootstrap returns, and an error of
    setting the variable is returned instead of running it.  The first
    Create with another error is the last call: its error is returned,
    as it is for a CRD and under the message "creating Package Operator
    ClusterPackage" for the ClusterPackage, and neither the variable nor
    the manager has any part in the run. *)
Theorem selfBootstrap_installs_before_manager (env : Env) (label : string)
    {Files PackageContent : Type}
    (loadFiles : string → Go (Reply Files))
    (loader_FromFiles : Files → Go (Reply PackageContent))
    (TemplateSpecFromPackage : PackageContent → ObjectSetTemplateSpec)
    (Setenv : string → string → option error)
    (runManager : Go (option error))
    (b : main.bootstrapper) (tr tr1 tr2 : Trace)
    (files : Files) (content : PackageContent) :
  loadFiles "/package" tr = (Returned (Found files), tr1) →
  loader_FromFiles files tr1 = (Returned (Found content), tr2) →
  let calls :=
    installCalls env label b
      (main.crdsFromTemplateSpec (TemplateSpecFromPackage content)) in
  let out :=
    main.selfBootstrap env label loadFiles loader_FromFiles
      TemplateSpecFromPackage Setenv runManager b tr in
  (allAbsorbed env tr2 calls
   ∧ out = match Setenv "PKO_FORCE_ADOPTION" "1" with
           | Some e => (Returned (Some e), tr2 ++ calls)
           | None => runManager (tr2 ++ calls)
           end)
  ∨ (∃ done c rest e,
       calls = done ++ c :: rest
       ∧ allAbsorbed env tr2 done
       ∧ answerWrite env (tr2 ++ done) c = Some e
       ∧ IsAlreadyExists (Some e) = false
       ∧ out
         = (Returned
              (Some
                 match rest with
                 | [] =>
                     wrapError "creating Package Operator ClusterPackage" e
                 | _ :: _ => e
                 end),
            tr2 ++ done ++ [c])
       ∧ ∀ (Setenv' : string → string → option error)
           (runManager' : Go (option error)),
           main.selfBootstrap env label loadFiles loader_FromFiles
             TemplateSpecFromPackage Setenv' runManager' b tr = out).
Proof.
  intros Hload Hparse calls out.
  set (crds := main.crdsFromTemplateSpec (TemplateSpecFromPackage content)).
  set (create := CallCreate (OPackage (selfPackage env b))).
  assert (∀ (Setenv' : string → string → option error)
            (runManager' : Go (option error)),
            main.selfBootstrap env label loadFiles loader_FromFiles
              TemplateSpecFromPackage Setenv' runManager' b tr
            = (err ← main.ensureCRDs env label crds;
               match err with
               | Some _ => mret err
               | None =>
                   '(_, err) ← main.createPKOPackage env b;
                   match err with
                   | Some _ => mret err
                   | None =>
                       match Setenv' "PKO_FORCE_ADOPTION" "1" with
                       | Some e => mret (Some e)
                       | None => runManager'
                       end
                   end
               end) tr2) as Hrun.
  { intros. unfold main.selfBootstrap.
    unfold mbind at 1, Go_bind. rewrite Hload.
    unfold mbind at 1, Go_bind. by rewrite Hparse. }
  subst out.
  destruct (ensureCRDs_cases env label crds tr2)
    as [[Hall Hcrds]|(done & crd & rest & e & Hsplit & Hall & He & Hae & Hcrds)].
  - set (tr3 := tr2 ++ crdCreates label crds) in *.
    destruct (absorbed_dec (answerWrite env tr3 create)) as [Habs|Hnot].
    + left. split.
      { apply allAbsorbed_app. split; [done|]. by split. }
      rewrite Hrun. unfold mbind at 1, Go_bind. rewrite Hcrds.
      unfold mbind at 1, Go_bind. unfold main.createPKOPackage. go_unfold.
      fold (selfPackage env b). fold create. fold tr3.
      rewrite (absorbed_test _ Habs).
      subst calls tr3. unfold installCalls. fold crds create.
      rewrite <- app_assoc. by destruct (Setenv _ _).
    + right. destruct (not_absorbed _ Hnot) as (e & He & Hae).
      exists (crdCreates label crds), create, [], e.
      split; [done|]. split; [done|]. split; [done|]. split; [done|].
      assert (∀ (Setenv' : string → string → option error)
                (runManager' : Go (option error)),
                main.selfBootstrap env label loadFiles loader_FromFiles
                  TemplateSpecFromPackage Setenv' runManager' b tr
                = (Returned
                     (Some
                        (wrapError "creating Package Operator ClusterPackage"
                           e)),
                   tr2 ++ crdCreates label crds ++ [create])) as Hfail.
      { intros. rewrite Hrun. unfold mbind at 1, Go_bind. rewrite Hcrds.
        unfold mbind at 1, Go_bind. unfold main.createPKOPackage. go_unfold.
        fold (selfPackage env b). fold create. fold tr3.
        rewrite He, (not_absorbed_test _ Hae). subst tr3.
        by rewrite <- app_assoc. }
      split; [apply Hfail|]. intros. by rewrite !Hfail.
  - right. cbn zeta in *.
    set (failing :=
           CallCreate (OUnstructured (main.withCacheLabel label crd))) in *.
    exists (crdCreates label done), failing,
      (crdCreates label rest ++ [create]), e.
    split.
    { subst calls. unfold installCalls. fold crds create. rewrite Hsplit.
      unfold crdCreates. rewrite fmap_app. cbn [fmap list_fmap].
      by rewrite <- app_assoc. }
    split; [done|]. split; [done|]. split; [done|].
    assert (∀ (Setenv' : string → string → option error)
              (runManager' : Go (option error)),
              main.selfBootstrap env label loadFiles loader_FromFiles
                TemplateSpecFromPackage Setenv' runManager' b tr
              = (Returned (Some e),
                 tr2 ++ crdCreates label done ++ [failing])) as Hfail.
    { intros. rewrite Hrun. unfold mbind at 1, Go_bind. by rewrite Hcrds. }
    split.
    + rewrite Hfail. by destruct (crdCreates label rest).
    + intros. by rewrite !Hfail.
Qed.

Lemma selfBootstrap_installs_before_manager_witness :
  let calls :=
    installCalls mock.preinstalled "package-operator.run/cache" mock.pko
      (main.crdsFromTemplateSpec mock_package.template) in
  let out :=
    main.selfBootstrap mock.preinstalled "package-operator.run/cache"
      mock_package.loadFiles mock_package.FromFiles
      (λ _, mock_package.template) (λ _ _, None) (mret None) mock.pko [] in
  (allAbsorbed mock.preinstalled [] calls
   ∧ out = (Returned None, [] ++ calls))
  ∨ (∃ done c rest e,
       calls = done ++ c :: rest
       ∧ allAbsorbed mock.preinstalled [] done
       ∧ answerWrite mock.preinstalled ([] ++ done) c = Some e
       ∧ IsAlreadyExists (Some e) = false
       ∧ out
         = (Returned
              (Some
                 match rest with
                 | [] =>
                     wrapError "creating Package Operator ClusterPackage" e
                 | _ :: _ => e
                 end),
            [] ++ done ++ [c])
       ∧ ∀ (Setenv' : string → string → option error)
           (runManager' : Go (option error)),
           main.selfBootstrap mock.preinstalled "package-operator.run/cache"
             mock_package.loadFiles mock_package.FromFiles
             (λ _, mock_package.template) Setenv' runManager' mock.pko []
           = out).
Proof.
  exact (selfBootstrap_installs_before_manager mock.preinstalled
           "package-operator.run/cache"
           mock_package.loadFiles mock_package.FromFiles
           (λ _, mock_package.template) (λ _ _, None) (mret None)
           mock.pko [] [] [] () () eq_refl eq_refl).
Defined.

(** ** The goroutine that ends the self-installation *)

Lemma isPackageAvailable_run (env : Env) (PackageAvailable : string)
    (tr : Trace) :
  main.isPackageAvailable env PackageAvailable tr
  = (Returned
       match answerGetPackage env tr packageKey with
       | Failed e => (false, Some e)
       | Found pkg =>
           (IsStatusConditionTrue (pkgConditions pkg) PackageAvailable, None)
       end,
     tr ++ [CallGet KPackage packageKey]).
Proof.
  unfold main.isPackageAvailable. go_unfold. fold packageKey.
  destruct (answerGetPackage env tr packageKey) as [pkg|e]; [|done].
  by destruct (IsStatusConditionTrue _ _).
Qed.

Lemma poll_isPackageAvailable (env : Env) (PackageAvailable : string)
    (ticks : nat) :
  ∀ tr,
    let get := CallGet KPackage packageKey in
    let out :=
      PollImmediateUntilWithContext ticks
        (main.isPackageAvailable env PackageAvailable) tr in
    ∃ m, (m ≤ ticks)%nat
      ∧ out.2 = tr ++ replicate (S m) get
      ∧ (∀ i, (i < m)%nat →
           ∃ pkg,
             answerGetPackage env (tr ++ replicate i get) packageKey
             = Found pkg
             ∧ IsStatusConditionTrue (pkgConditions pkg) PackageAvailable
               = false)
      ∧ match answerGetPackage env (tr ++ replicate m get) packageKey with
        | Failed e => out.1 = Returned (Some e)
        | Found pkg =>
            if IsStatusConditionTrue (pkgConditions pkg) PackageAvailable
            then out.1 = Returned None
            else m = ticks ∧ out.1 = Returned (Some ErrWaitTimeout)
        end.
Proof.
  induction ticks as [|ticks IH]; intros tr get out; subst out;
    cbn [PollImmediateUntilWithContext]; unfold mbind, Go_bind;
    rewrite isPackageAvailable_run; fold get;
    destruct (answerGetPackage env tr packageKey) as [pkg|e] eqn:Hget.
  - destruct (IsStatusConditionTrue (pkgConditions pkg) PackageAvailable)
      eqn:Hcond;
      exists 0%nat; cbn [replicate]; rewrite app_nil_r, Hget, Hcond;
      unfold mret, Go_ret; cbn [fst snd];
      (split; [lia|]); (split; [done|]); (split; [lia|]); done.
  - exists 0%nat. cbn [replicate]. rewrite app_nil_r, Hget.
    unfold mret, Go_ret. cbn [fst snd].
    split; [lia|]. split; [done|]. split; [lia|]. done.
  - destruct (IsStatusConditionTrue (pkgConditions pkg) PackageAvailable)
      eqn:Hcond.
    { exists 0%nat. cbn [replicate]. rewrite app_nil_r, Hget, Hcond.
      unfold mret, Go_ret. cbn [fst snd].
      split; [lia|]. split; [done|]. split; [lia|]. done. }
    destruct (IH (tr ++ [get])) as (m & Hm & Htr & Hbefore & Hlast).
    exists (S m). cbn zeta in *. fold get in Htr, Hbefore, Hlast.
    rewrite Htr.
    split; [lia|]. split; [by rewrite <- app_assoc|]. split.
    { intros [|i] Hi.
      - exists pkg. cbn [replicate]. by rewrite app_nil_r.
      - destruct (Hbefore i ltac:(lia)) as (pkg' & Hg & Hc).
        exists pkg'. cbn [replicate].
        rewrite <- app_assoc in Hg. by cbn [app] in Hg. }
    rewrite <- app_assoc in Hlast. cbn [app replicate] in Hlast |- *.
    destruct (answerGetPackage env (tr ++ get :: replicate m get)
                packageKey) as [pkg'|e']; [|done].
    destruct (IsStatusConditionTrue (pkgConditions pkg')
                PackageAvailable); [done|].
    destruct Hlast as [-> ?]. by split.
  - exists 0%nat. cbn [replicate]. rewrite app_nil_r, Hget.
    unfold mret, Go_ret. cbn [fst snd].
    split; [lia|]. split; [done|]. split; [lia|]. done.
Qed.

(** X13.  The goroutine cancelWhenPackageAvailable only reads: its calls
    are Gets of the self-managed ClusterPackage, the first at once and
    one more per tick.  It goes on as long as the Get finds the
    ClusterPackage without a true Available condition, and it returns,
    which is when it has called cancel, exactly when a Get finds the
    condition true.  It panics with the text of the error as soon as a
    Get fails, a NotFound included, and with the text of the timeout of
    the wait when the context ends first. *)
Theorem cancelWhenPackageAvailable_outcome (env : Env)
    (PackageAvailable : string) (ticks : nat) (tr : Trace) :
  let get := CallGet KPackage packageKey in
  let out := main.cancelWhenPackageAvailable env PackageAvailable ticks tr in
  ∃ m, (m ≤ ticks)%nat
    ∧ out.2 = tr ++ replicate (S m) get
    ∧ (∀ i, (i < m)%nat →
         ∃ pkg,
           answerGetPackage env (tr ++ replicate i get) packageKey
           = Found pkg
           ∧ IsStatusConditionTrue (pkgConditions pkg) PackageAvailable
             = false)
    ∧ match answerGetPackage env (tr ++ replicate m get) packageKey with
      | Failed e => out.1 = Panicked (errorText e)
      | Found pkg =>
          if IsStatusConditionTrue (pkgConditions pkg) PackageAvailable
          then out.1 = Returned ()
          else m = ticks ∧ out.1 = Panicked (errorText ErrWaitTimeout)
      end.
Proof.
  intros get out. subst out.
  destruct (poll_isPackageAvailable env PackageAvailable ticks tr)
    as (m & Hm & Htr & Hbefore & Hlast).
  cbn zeta in *. fold get in Htr, Hbefore, Hlast.
  exists m. unfold main.cancelWhenPackageAvailable.
  unfold mbind, Go_bind.
  destruct (PollImmediateUntilWithContext ticks
              (main.isPackageAvailable env PackageAvailable) tr)
    as [o tr'] eqn:Hpoll.
  cbn [fst snd] in Htr, Hlast. subst tr'.
  split; [done|]. split; [by destruct o as [[?|]|]|]. split; [done|].
  destruct (answerGetPackage env (tr ++ replicate m get) packageKey)
    as [pkg|e].
  - destruct (IsStatusConditionTrue (pkgConditions pkg) PackageAvailable).
    + by subst o.
    + by destruct Hlast as [-> ->].
  - by subst o.
Qed.

(** ** The loop over the sub-reconcilers and the metrics hook *)

(** X14.  The loop of Reconcile calls the sub-reconcilers in the order of
    the list, the first on the object it was given and each later one on
    the object as the one before handed it back.  It stops after the
    first that returns an error or a result that is not zero, and before
    that only at the end of the list; what the last one called returned
    is what the loop returns, and with an empty list the loop returns
    what it was given without a call. *)
Theorem chain_order (env : Env) (rs : list packages.reconciler) :
  ∀ (pkg : Package) (res : Result) (err : option error) (tr : Trace),
  ∃ pkg' res' err' evs,
    packages.chain env rs pkg res err tr
    = (Returned (pkg', res', err'), tr ++ evs)
    ∧ match evs with
      | [] => rs = [] ∧ (pkg', res', err') = (pkg, res, err)
      | c :: _ => ∃ r, c = CallReconcile r pkg
      end
    ∧ ∀ i c, evs !! i = Some c →
        ∃ r p,
          rs !! i = Some r
          ∧ c = CallReconcile (packages.reconcilerName r) p
          ∧ let a :=
              answerReconcile env (tr ++ take i evs)
                (packages.reconcilerName r) p in
            if bool_decide (a.2 ≠ None) || negb (IsZero a.1.2)
            then evs !! S i = None ∧ a = (pkg', res', err')
            else
              match rs !! S i with
              | Some r' =>
                  evs !! S i
                  = Some (CallReconcile (packages.reconcilerName r') a.1.1)
              | None => evs !! S i = None ∧ a = (pkg', res', err')
              end.
Proof.
  induction rs as [|r rest IH]; intros pkg res err tr.
  - exists pkg, res, err, []. cbn. rewrite app_nil_r. by repeat split.
  - cbn [packages.chain]. unfold packages.Reconcile_sub. go_unfold.
    set (c := CallReconcile (packages.reconcilerName r) pkg).
    destruct (answerReconcile env tr (packages.reconcilerName r) pkg)
      as [[pkg1 res1] err1] eqn:Hans.
    destruct (bool_decide (err1 ≠ None) || negb (IsZero res1)) eqn:Hstop.
    + exists pkg1, res1, err1, [c]. split; [done|]. split; [by eexists|].
      intros [|i] c' Hi; [|done]. cbn in Hi. injection Hi as <-.
      exists r, pkg. split; [done|]. split; [done|].
      cbn zeta. cbn [take]. rewrite app_nil_r, Hans. cbn [fst snd].
      by rewrite Hstop.
    + assert (err1 = None) as ->.
      { apply orb_false_elim in Hstop as [Herr _].
        apply bool_decide_eq_false in Herr.
        by destruct err1; [destruct Herr|]. }
      destruct (IH pkg1 res1 None (tr ++ [c]))
        as (pkg' & res' & err' & evs & Hrun & Hhead & Hidx).
      exists pkg', res', err', (c :: evs). rewrite Hrun, app_assoc_cons.
      split; [done|]. split; [by eexists|].
      intros [|i] c' Hi.
      * cbn in Hi. injection Hi as <-.
        exists r, pkg. split; [done|]. split; [done|].
        cbn zeta. cbn [take]. rewrite app_nil_r, Hans. cbn [fst snd].
        rewrite Hstop.
        change ((r :: rest) !! 1%nat) with (rest !! 0%nat).
        change ((c :: evs) !! 1%nat) with (evs !! 0%nat).
        destruct evs as [|c1 evs1].
        { destruct Hhead as [-> Hres]. by cbn. }
        destruct Hhead as [r0 ->].
        destruct (Hidx 0%nat _ eq_refl) as (r1 & p1 & Hr1 & Hc1 & _).
        rewrite Hr1. cbn. by injection Hc1 as -> ->.
      * cbn [lookup list_lookup] in Hi.
        destruct (Hidx i c' Hi) as (r1 & p1 & Hr1 & Hc1 & Hnext).
        exists r1, p1. split; [done|]. split; [done|].
        cbn zeta in *. cbn [take]. rewrite <- app_assoc_cons.
        exact Hnext.
Qed.

Lemma reconcile_calls_no_metrics (evs : list Call) :
  forallb isReconcileCall evs = true → existsb isMetricsCall evs = false.
Proof.
  induction evs as [|c evs IH]; [done|]. cbn.
  intros [Hc Hrest]%andb_prop. rewrite (IH Hrest). by destruct c.
Qed.

(** X15.  Reconcile always returns.  It hands the Package to the metrics
    recorder at most once, as its last call, and it does so exactly when
    a recorder is set, the Get has found the Package and the error
    Reconcile returns is nil.  So a run that ends without error because
    the Package was not found records nothing, and neither does a run
    whose sub-reconciler, finalizer removal or status update failed. *)
Theorem Reconcile_metrics_hook (env : Env)
    (c : packages.GenericPackageController) (req : ObjectKey) (tr : Trace) :
  let out := packages.Reconcile env c req tr in
  ∃ res err calls,
    out.1 = Returned (res, err)
    ∧ existsb isMetricsCall calls = false
    ∧ ((packages.recorder c = true
        ∧ err = None
        ∧ (∃ pkg, answerGetPackage env tr req = Found pkg)
        ∧ ∃ p, newCalls tr out = calls ++ [CallRecordPackageMetrics p])
       ∨ ((packages.recorder c = false
           ∨ err ≠ None
           ∨ ∃ e, answerGetPackage env tr req = Failed e)
          ∧ newCalls tr out = calls)).
Proof.
  intros out. subst out.
  destruct (answerGetPackage env tr req) as [pkg|e] eqn:Hget.
  - destruct (IsZeroTime (DeletionTimestamp (pkgMeta pkg))) eqn:Hlive.
    + destruct (chain_run env (packages.reconcilers c) pkg zeroResult None
                  (tr ++ [CallGet KPackage req]))
        as (pkg' & res & err & evs & Hrun & Hall & _ & _).
      rewrite (Reconcile_forward_run env c req tr pkg pkg' res err evs
                 Hget Hlive Hrun).
      apply reconcile_calls_no_metrics in Hall.
      set (upd := UpdatePhase env pkg').
      destruct err as [e|].
      { exists res, (Some e), (CallGet KPackage req :: evs).
        rewrite newCalls_app. split; [done|]. split; [done|].
        right. split; [|done]. right. by left. }
      destruct (answerWrite env (tr ++ CallGet KPackage req :: evs)
                  (CallStatusUpdate (OPackage upd))) as [e|].
      { exists res, (Some (wrapError "updating Package status" e)),
          (CallGet KPackage req :: evs ++ [CallStatusUpdate (OPackage upd)]).
        rewrite <- app_assoc. cbn [app]. rewrite newCalls_app.
        split; [done|]. split.
        { cbn. rewrite existsb_app, Hall. done. }
        right. split; [|done]. right. by left. }
      exists res, None,
        (CallGet KPackage req :: evs ++ [CallStatusUpdate (OPackage upd)]).
      rewrite <- app_assoc. cbn [app]. rewrite newCalls_app.
      split; [done|]. split.
      { cbn. rewrite existsb_app, Hall. done. }
      destruct (packages.recorder c).
      * left. split; [done|]. split; [done|]. split; [by eexists|].
        exists upd. cbn [app]. f_equal. by rewrite <- app_assoc.
      * right. split; [by left|done].
    + rewrite (Reconcile_deletion_run env c req tr pkg Hget Hlive).
      set (helper :=
             CallRemoveFinalizer (OPackage pkg) packages.loaderJobFinalizer).
      set (pkg' := withoutLoaderJobFinalizer pkg).
      destruct (answerWrite env (tr ++ [CallGet KPackage req]) helper)
        as [e|].
      { exists zeroResult, (Some e), [CallGet KPackage req; helper].
        rewrite newCalls_app. split; [done|]. split; [done|].
        right. split; [|done]. right. by left. }
      destruct (answerWrite env (tr ++ [CallGet KPackage req; helper])
                  (CallUpdate (OPackage pkg'))) as [e|].
      { exists zeroResult, (Some e),
          [CallGet KPackage req; helper; CallUpdate (OPackage pkg')].
        rewrite <- app_assoc. cbn [app]. rewrite newCalls_app.
        split; [done|]. split; [done|].
        right. split; [|done]. right. by left. }
      exists zeroResult, None,
        [CallGet KPackage req; helper; CallUpdate (OPackage pkg')].
      rewrite <- app_assoc. cbn [app]. rewrite newCalls_app.
      split; [done|]. split; [done|].
      destruct (packages.recorder c).
      * left. split; [done|]. split; [done|]. split; [by eexists|].
        by exists pkg'.
      * right. split; [by left|done].
  - exists zeroResult, (IgnoreNotFound (Some e)), [CallGet KPackage req].
    unfold packages.Reconcile. go_unfold. rewrite Hget.
    rewrite newCalls_app. split; [done|]. split; [done|].
    right. split; [|done]. right. right. by eexists.
Qed.

(** ** Bootstrap of package bootstrap *)

(** X16.  Bootstrap of package bootstrap returns an error of its
    initializer as it is, without probing the Deployment.  After a
    successful initializer it reads the Deployment once.  A read error
    other than NotFound is returned under the message "checking if
    self-bootstrap is needed"; a Deployment with a true Available
    condition ends Bootstrap with nil, and neither the environment
    variable nor the manager has any part in these runs.  With the
    Deployment missing or not available, the variable is set to 1 and
    the manager is run after the read: an error of setting the variable
    is returned as it is and keeps the manager from running, an error of
    the manager is returned under the message "running manager for
    self-bootstrap", and a manager that returns nil makes Bootstrap
    return nil. *)
Theorem Bootstrap_runs_manager_when_needed (env : Env)
    (init : Go (Reply Package)) (ForceAdoptionEnvironmentVariable : string)
    (Setenv : string → string → option error)
    (runManager : Go (option error))
    (b : bootstrap.Bootstrapper) (tr tr1 : Trace) (r : Reply Package) :
  init tr = (Returned r, tr1) →
  let out :=
    bootstrap.Bootstrap env init ForceAdoptionEnvironmentVariable Setenv
      runManager b tr in
  let key := deploymentKey (bootstrap.pkoNamespace b) in
  let probed := tr1 ++ [CallGet KDeployment key] in
  let unneeded (result : Outcome (option error) * Trace) :=
    out = result
    ∧ ∀ (Setenv' : string → string → option error)
        (runManager' : Go (option error)),
        bootstrap.Bootstrap env init ForceAdoptionEnvironmentVariable
          Setenv' runManager' b tr = result in
  let needed :=
    match Setenv ForceAdoptionEnvironmentVariable "1" with
    | Some e => out = (Returned (Some e), probed)
    | None =>
        out.2 = (runManager probed).2
        ∧ out.1
          = match (runManager probed).1 with
            | Returned (Some e) =>
                Returned
                  (Some (wrapError "running manager for self-bootstrap" e))
            | o => o
            end
    end in
  match r with
  | Failed e => unneeded (Returned (Some e), tr1)
  | Found _ =>
      match answerGetDeployment env tr1 key with
      | Failed e =>
          if IsNotFound (Some e) then needed
          else
            unneeded
              (Returned
                 (Some (wrapError "checking if self-bootstrap is needed" e)),
               probed)
      | Found deploy =>
          if bool_decide
               (Exists (isAvailable ConditionTrue) (depConditions deploy))
          then unneeded (Returned None, probed)
          else needed
      end
  end.
Proof.
  intros Hinit out key probed unneeded needed.
  assert (∀ (Setenv' : string → string → option error)
            (runManager' : Go (option error)),
            bootstrap.Bootstrap env init ForceAdoptionEnvironmentVariable
              Setenv' runManager' b tr
            = match r with
              | Failed e => (Returned (Some e), tr1)
              | Found _ =>
                  match answerGetDeployment env tr1 key with
                  | Failed e =>
                      if IsNotFound (Some e)
                      then
                        bootstrap.bootstrap ForceAdoptionEnvironmentVariable
                          Setenv' runManager' b probed
                      else
                        (Returned
                           (Some
                              (wrapError
                                 "checking if self-bootstrap is needed" e)),
                         probed)
                  | Found deploy =>
                      if bool_decide
                           (Exists (isAvailable ConditionTrue)
                              (depConditions deploy))
                      then (Returned None, probed)
                      else
                        bootstrap.bootstrap ForceAdoptionEnvironmentVariable
                          Setenv' runManager' b probed
                  end
              end) as Hrun.
  { intros. unfold bootstrap.Bootstrap.
    unfold mbind at 1, Go_bind. rewrite Hinit.
    destruct r as [pkg|e]; [|done].
    unfold mbind at 1, Go_bind. rewrite needsBootstrap_run.
    fold key. fold probed.
    destruct (answerGetDeployment env tr1 key) as [deploy|e].
    - by destruct (bool_decide _).
    - by destruct (IsNotFound (Some e)). }
  assert (needed_ok :
            out
            = bootstrap.bootstrap ForceAdoptionEnvironmentVariable Setenv
                runManager b probed → needed).
  { intros Hout. subst needed. rewrite Hout. unfold bootstrap.bootstrap.
    destruct (Setenv ForceAdoptionEnvironmentVariable "1") as [e|]; [done|].
    unfold mbind, Go_bind.
    by destruct (runManager probed) as [[[e|]|msg] tr2]. }
  destruct r as [pkg|e].
  - destruct (answerGetDeployment env tr1 key) as [deploy|e].
    + destruct (bool_decide _).
      * split; [apply Hrun|]. intros. apply Hrun.
      * apply needed_ok, Hrun.
    + destruct (IsNotFound (Some e)).
      * apply needed_ok, Hrun.
      * split; [apply Hrun|]. intros. apply Hrun.
  - split; [apply Hrun|]. intros. apply Hrun.
Qed.

Lemma Bootstrap_runs_manager_when_needed_witness :
  let out :=
    bootstrap.Bootstrap mock.absent (mret (Found (mock.installed [])))
      "PKO_FORCE_ADOPTION" (λ _ _, None) (mret (Some mock.timeout))
      mock.pko' [] in
  out.2 = [CallGet KDeployment (deploymentKey "package-operator-system")]
  ∧ out.1
    = Returned
        (Some (wrapError "running manager for self-bootstrap" mock.timeout)).
Proof.
  exact (Bootstrap_runs_manager_when_needed mock.absent
           (mret (Found (mock.installed []))) "PKO_FORCE_ADOPTION"
           (λ _ _, None) (mret (Some mock.timeout)) mock.pko' [] []
           (Found (mock.installed [])) eq_refl).
Defined.
